(** * A shallow embedding of the product-image analysis service

    The development follows the three source modules:
    - [context.py]       catalog lookup, context loading, context card composition;
    - [vertex_client.py] prompt construction, model call, extraction of the JSON answer;
    - [main.py]          the [/analyze] handler: pipeline, diagnostics, schema validation.

    Python values are dynamically typed, so the embedding has one type of
    values and the operations the source applies to them ([in], [x[k]],
    [.get], iteration) are partial: they return either an exception or a
    result, exactly where Python raises. *)

From Stdlib Require Import String Ascii List ZArith Bool Lia.
From Stdlib Require Import Floats.SpecFloat.
Import ListNotations.
Open Scope string_scope.
Open Scope list_scope.
Set Warnings "-register-all".

(** ** Python values *)

(** Scalars, as found in the cells of the specification catalog and at the
    leaves of parsed JSON.  Floats are IEEE 754 values: a missing cell of the
    catalog is the float NaN. *)
Inductive atom : Type :=
| ANone
| ABool (b : bool)
| AInt (z : Z)
| AFloat (f : spec_float)
| AStr (s : string).

(** Parsed JSON and the dictionaries the program builds.  A dictionary keeps
    its keys in insertion order, as Python's [dict] does. *)
Inductive pyobj : Type :=
| VAtom (a : atom)
| VList (l : list pyobj)
| VDict (d : list (string * pyobj)).

Abbreviation VNone := (VAtom ANone).
Abbreviation VBool b := (VAtom (ABool b)).
Abbreviation VInt z := (VAtom (AInt z)).
Abbreviation VFloat f := (VAtom (AFloat f)).
Abbreviation VStr s := (VAtom (AStr s)).

(** ** Insertion-ordered dictionaries *)

Definition dict (V : Type) : Type := list (string * V).

Fixpoint dict_get {V} (k : string) (d : dict V) : option V :=
  match d with
  | [] => None
  | (k', v) :: d' => if String.eqb k k' then Some v else dict_get k d'
  end.

Definition dict_mem {V} (k : string) (d : dict V) : bool :=
  match dict_get k d with Some _ => true | None => false end.

(** [d[k] = v]: an existing key keeps its position, a new key goes last. *)
Fixpoint dict_set {V} (k : string) (v : V) (d : dict V) : dict V :=
  match d with
  | [] => [(k, v)]
  | (k', v') :: d' =>
      if String.eqb k k' then (k', v) :: d' else (k', v') :: dict_set k v d'
  end.

Definition dict_keys {V} (d : dict V) : list string := map fst d.

(** A comprehension [{k: v for ...}] inserts the generated items one by one. *)
Definition dict_of_items {V} (items : list (string * V)) : dict V :=
  fold_left (fun acc kv => dict_set (fst kv) (snd kv) acc) items [].

(** ** Exceptions and the error monad *)

(** One entry of a pydantic [ValidationError]: where, and what was wrong. *)
Inductive error_kind : Type := Missing | WrongType.

Inductive loc_item : Type :=
| Key (name : string)
| Index (i : nat).

Definition loc : Type := list loc_item.

Definition validation_errors : Type := list (loc * error_kind).

(** The [detail] of the two [HTTPException]s of [main.py]; the f-strings are
    kept as their parts. *)
Inductive http_detail : Type :=
| ModelQueryFailed (error details : pyobj)
| InvalidDataFormat (e : validation_errors).

(** [GoogleAPICallError] stands for what the Vertex AI client raises when a
    call to the model fails; only its text is kept. *)
Inductive exn : Type :=
| ValueError (msg : string)
| FileNotFoundError (msg : string)
| KeyError (key : string)
| TypeError
| AttributeError
| GoogleAPICallError (msg : string)
| HTTPException (status_code : Z) (detail : http_detail).

Definition result (A : Type) : Type := (exn + A)%type.

Definition ok {A} (a : A) : result A := inr a.
Definition raise {A} (e : exn) : result A := inl e.

Definition bind {A B} (m : result A) (f : A -> result B) : result B :=
  match m with
  | inl e => inl e
  | inr a => f a
  end.

Declare Scope py_scope.
Delimit Scope py_scope with py.
Notation "x <- m ;; k" := (bind m (fun x => k))
  (at level 61, m at next level, right associativity) : py_scope.
Open Scope py_scope.

(** A [for] loop whose body may raise. *)
Fixpoint for_each {A S} (xs : list A) (body : S -> A -> result S) (s : S)
  : result S :=
  match xs with
  | [] => ok s
  | x :: xs' => s' <- body s x ;; for_each xs' body s'
  end.

(** ** The operations of Python the source uses on values *)

Definition is_str (k : string) (v : pyobj) : bool :=
  match v with
  | VStr s => String.eqb k s
  | _ => false
  end.

Fixpoint is_substring (needle hay : string) : bool :=
  prefix needle hay ||
  match hay with
  | EmptyString => false
  | String _ hay' => is_substring needle hay'
  end.

(** [k in c] *)
Definition py_in (k : string) (c : pyobj) : result bool :=
  match c with
  | VDict d => ok (dict_mem k d)
  | VList l => ok (existsb (is_str k) l)
  | VStr s => ok (is_substring k s)
  | VAtom _ => raise TypeError
  end.

(** [c[k]] with a string [k] *)
Definition py_getitem (c : pyobj) (k : string) : result pyobj :=
  match c with
  | VDict d =>
      match dict_get k d with
      | Some v => ok v
      | None => raise (KeyError k)
      end
  | _ => raise TypeError
  end.

(** [c[k] = v] with a string [k] *)
Definition py_setitem (c : pyobj) (k : string) (v : pyobj) : result pyobj :=
  match c with
  | VDict d => ok (VDict (dict_set k v d))
  | _ => raise TypeError
  end.

(** [c.get(k, default)] *)
Definition py_get (c : pyobj) (k : string) (default : pyobj) : result pyobj :=
  match c with
  | VDict d =>
      match dict_get k d with
      | Some v => ok v
      | None => ok default
      end
  | _ => raise AttributeError
  end.

Fixpoint chars (s : string) : list pyobj :=
  match s with
  | EmptyString => []
  | String c s' => VStr (String c EmptyString) :: chars s'
  end.

(** [for x in c] *)
Definition py_iter (c : pyobj) : result (list pyobj) :=
  match c with
  | VList l => ok l
  | VDict d => ok (map (fun kv => VStr (fst kv)) d)
  | VStr s => ok (chars s)
  | VAtom _ => raise TypeError
  end.

(** Truth value of a scalar, as [not x] and [x or y] test it.  NaN is true. *)
Definition atom_truthy (a : atom) : bool :=
  match a with
  | ANone => false
  | ABool b => b
  | AInt z => negb (Z.eqb z 0)
  | AFloat (S754_zero _) => false
  | AFloat _ => true
  | AStr EmptyString => false
  | AStr _ => true
  end.

(** ** context.py *)

(** [pd.notna] on a scalar. *)
Definition pd_notna (a : atom) : bool :=
  match a with
  | ANone => false
  | AFloat S754_nan => false
  | _ => true
  end.

Definition get_sku_specs (sku : string) (spec_catalog : dict (dict atom))
  : result (dict atom) :=
  match dict_get sku spec_catalog with
  | None =>
      raise (ValueError
               ("SKU '" ++ sku ++ "' not found in the specification catalog."))
  | Some specs => ok specs
  end.

(** [context_card["rules"].append(entry)] *)
Definition append_rule (card : dict pyobj) (entry : pyobj)
  : result (dict pyobj) :=
  rules <- py_getitem (VDict card) "rules" ;;
  match rules with
  | VList l => ok (dict_set "rules" (VList (l ++ [entry])) card)
  | _ => raise AttributeError
  end.

Definition add_rule (card : dict pyobj) (rule : pyobj) : result (dict pyobj) :=
  id <- py_get rule "id" VNone ;;
  text <- py_get rule "text" VNone ;;
  mandatory <- py_get rule "mandatory" (VBool false) ;;
  append_rule card
    (VDict [("id", id); ("text", text); ("mandatory", mandatory)]).

Definition add_context (card : dict pyobj) (item : string * pyobj)
  : result (dict pyobj) :=
  let content := snd item in
  has_voice <- py_in "brand_voice" content ;;
  card1 <- (if has_voice : bool
            then voice <- py_getitem content "brand_voice" ;;
                 ok (dict_set "brand_voice" voice card)
            else ok card) ;;
  has_rules <- py_in "rules" content ;;
  if has_rules : bool
  then rules <- py_getitem content "rules" ;;
       entries <- py_iter rules ;;
       for_each entries add_rule card1
  else ok card1.

Definition product_attributes (product_specs : dict atom) : dict pyobj :=
  dict_of_items
    (map (fun kv => (fst kv, VAtom (snd kv)))
         (filter (fun kv => pd_notna (snd kv)) product_specs)).

Definition compose_context_card
  (product_specs : dict atom) (contexts : dict pyobj) : result (dict pyobj) :=
  let context_card :=
    [ ("product_attributes", VDict (product_attributes product_specs));
      ("rules", VList []) ] in
  for_each contexts add_context context_card.

(** The dictionary comprehension of [main.py] over the requested context
    identifiers: a failing load aborts it, a repeated identifier keeps the
    position of its first occurrence. *)
Definition load_contexts
  (load : string -> result pyobj) (context_ids : list string)
  : result (dict pyobj) :=
  for_each context_ids
    (fun acc ctx_id => content <- load ctx_id ;; ok (dict_set ctx_id content acc))
    [].

(** ** Text *)

(** Strings are sequences of characters with code points below 256. *)

Definition nl : string := String "010" EmptyString.
Definition dq : string := String "034" EmptyString.

(** [str.isspace] on one character. *)
Definition is_space (c : ascii) : bool :=
  let n := nat_of_ascii c in
  (((9 <=? n) && (n <=? 13)) || ((28 <=? n) && (n <=? 32))
   || (n =? 133) || (n =? 160))%nat.

Fixpoint lstrip (s : string) : string :=
  match s with
  | EmptyString => EmptyString
  | String c s' => if is_space c then lstrip s' else s
  end.

Fixpoint rstrip (s : string) : string :=
  match s with
  | EmptyString => EmptyString
  | String c s' =>
      match rstrip s' with
      | EmptyString => if is_space c then EmptyString else String c EmptyString
      | t => String c t
      end
  end.

Definition strip (s : string) : string := rstrip (lstrip s).

(** Truth value of a string: empty is false. *)
Definition str_truthy (s : string) : bool :=
  match s with
  | EmptyString => false
  | String _ _ => true
  end.

Fixpoint strip_prefix (p s : string) : option string :=
  match p, s with
  | EmptyString, _ => Some s
  | String a p', String b s' =>
      if Ascii.eqb a b then strip_prefix p' s' else None
  | String _ _, EmptyString => None
  end.

(** ** The fence pattern of [vertex_client.py]

    Line 109 searches the raw text, in DOTALL mode, for: three backquotes,
    the word json, a newline, a greedy group of any characters, a newline,
    three backquotes.  The search tries the start positions from left to
    right; at a position where the opening fence matches, the greedy group
    (any character, newlines included) takes the longest stretch that is
    still followed by the closing fence. *)

Definition fence_open : string := "```json" ++ nl.
Definition fence_close : string := nl ++ "```".

(** The longest [g] with [s = g ++ close ++ _], if any. *)
Fixpoint greedy_until (close s : string) : option string :=
  match s with
  | EmptyString => if prefix close EmptyString then Some EmptyString else None
  | String c s' =>
      match greedy_until close s' with
      | Some g => Some (String c g)
      | None => if prefix close s then Some EmptyString else None
      end
  end.

(** A match starting exactly here; the result is [group(1)]. *)
Definition match_fence_here (s : string) : option string :=
  match strip_prefix fence_open s with
  | Some rest => greedy_until fence_close rest
  | None => None
  end.

Fixpoint re_search_fence (s : string) : option string :=
  match match_fence_here s with
  | Some g => Some g
  | None =>
      match s with
      | EmptyString => None
      | String _ s' => re_search_fence s'
      end
  end.

(** Lines 109-114: the text handed to [json.loads]. *)
Definition extract_json (raw_text : string) : string :=
  match re_search_fence raw_text with
  | Some json_str => json_str
  | None => raw_text
  end.

(** ** The model backend's answer *)

(** Finish reasons of the [vertexai] package; [STOP] is normal completion,
    [SAFETY] a stop by the safety filter, [MAX_TOKENS] the length limit. *)
Inductive FinishReason : Type :=
| FINISH_REASON_UNSPECIFIED
| STOP
| MAX_TOKENS
| SAFETY
| RECITATION
| OTHER
| BLOCKLIST
| PROHIBITED_CONTENT
| SPII.

Definition FinishReason_name (r : FinishReason) : string :=
  match r with
  | FINISH_REASON_UNSPECIFIED => "FINISH_REASON_UNSPECIFIED"
  | STOP => "STOP"
  | MAX_TOKENS => "MAX_TOKENS"
  | SAFETY => "SAFETY"
  | RECITATION => "RECITATION"
  | OTHER => "OTHER"
  | BLOCKLIST => "BLOCKLIST"
  | PROHIBITED_CONTENT => "PROHIBITED_CONTENT"
  | SPII => "SPII"
  end.

Definition FinishReason_eqb (a b : FinishReason) : bool :=
  String.eqb (FinishReason_name a) (FinishReason_name b).

(** A candidate, reduced to what [query_gemini] reads; [safety_ratings] holds
    the text [str(candidate.safety_ratings)]. *)
Record Candidate : Type := {
  finish_reason : FinishReason;
  safety_ratings : string
}.

(** The answer of the model.  [text] is a property of the library's
    response object: it gives the text of the single part of the single
    candidate, and raises [ValueError] when there is no such part (a
    candidate that completed without content); the field holds the text of
    that exception, or the text. *)
Record GenerationResponse : Type := {
  candidates : list Candidate;
  text : string + string
}.

(** The image handed to the model, a reference to a file. *)
Record Part : Type := {
  file_uri : string;
  mime_type : string
}.

(** [Part.from_uri(uri, mime_type=...)]: the URI goes into a string field of
    the request message, which takes a [str] and raises [TypeError] on a
    value of any other type. *)
Definition Part_from_uri (uri : atom) (mime : string) : result Part :=
  match uri with
  | AStr s => ok {| file_uri := s; mime_type := mime |}
  | _ => raise TypeError
  end.

(** ** What the program takes from its environment

    The storage bucket, [pandas], the [json] module, the builtin [round] and
    the generative model are not part of the program; they are the fields of
    one interface. *)
Class Platform : Type := {
  (** [os.getenv(name)] *)
  getenv : string -> option string;
  (** [storage.Client(project).bucket(bucket).blob(name).download_as_string()]:
      the content, or the text of the exception *)
  download_as_string : string -> string -> string -> string + string;
  (** decoding, [pd.read_csv], [set_index('sku')] and [to_dict('index')] *)
  read_catalog : string -> string + dict (dict atom);
  (** [json.loads]: the value, or the text of the [JSONDecodeError] *)
  json_loads : string -> string + pyobj;
  (** [json.dumps(x, indent=2)] *)
  json_dumps_indent2 : pyobj -> string;
  (** [round(x, ndigits)] on floats *)
  round : spec_float -> Z -> spec_float;
  (** [GenerativeModel(name).generate_content([image_part, prompt], ...)]:
      the text of the exception the call raises, or the response *)
  generate_content : string -> Part -> string -> string + GenerationResponse
}.

(** The conversions pydantic applies to the leaves and containers of its
    input; which values of another kind it converts depends on its version
    and mode.  A string, an integer, a float or a mapping given for a field
    of that type is taken as it is. *)
Class Pydantic : Type := {
  validate_str : pyobj -> option string;
  validate_int : pyobj -> option Z;
  validate_float : pyobj -> option spec_float;
  validate_list : pyobj -> option (list pyobj);
  validate_dict : pyobj -> option (dict pyobj);
  validate_str_str : forall s, validate_str (VStr s) = Some s;
  validate_int_int : forall z, validate_int (VInt z) = Some z;
  validate_float_float : forall f, validate_float (VFloat f) = Some f;
  validate_dict_dict : forall d, validate_dict (VDict d) = Some d
}.

(** The outcome of validating against a model: the errors found, or the
    typed value. *)
Definition checked (A : Type) : Type := (validation_errors + A)%type.

Section Service.

Context {platform : Platform}.

(** *** context.py, the loaders *)

Definition GCS_BUCKET_NAME : string :=
  match getenv "GCS_BUCKET_NAME" with
  | Some v => v
  | None => "alara-case-study-bucket"
  end.

Definition PROJECT_ID : string :=
  match getenv "GCP_PROJECT_ID" with
  | Some v => v
  | None => "alara-case-study"
  end.

Definition SPEC_CATALOG_PATH : string := "spec_catalog.csv".

Definition load_spec_catalog : result (dict (dict atom)) :=
  let not_found (e : string) : exn :=
    FileNotFoundError
      ("Specification file not found at gs://" ++ GCS_BUCKET_NAME ++ "/"
       ++ SPEC_CATALOG_PATH ++ ". Error: " ++ e) in
  match download_as_string PROJECT_ID GCS_BUCKET_NAME SPEC_CATALOG_PATH with
  | inl e => raise (not_found e)
  | inr content =>
      match read_catalog content with
      | inl e => raise (not_found e)
      | inr catalog => ok catalog
      end
  end.

Definition load_context_file (context_id : string) : result pyobj :=
  let not_loaded (e : string) : exn :=
    FileNotFoundError
      ("Could not load context '" ++ context_id ++ "' from GCS. Error: " ++ e) in
  let blob_name := ("context/" ++ context_id ++ ".json")%string in
  match download_as_string PROJECT_ID GCS_BUCKET_NAME blob_name with
  | inl e => raise (not_loaded e)
  | inr content =>
      match json_loads content with
      | inl e => raise (not_loaded e)
      | inr doc => ok doc
      end
  end.

(** *** vertex_client.py *)

Definition model_name : string := "gemini-2.5-flash".

(** The f-string of lines 31-67. *)
Definition build_prompt (context_card : pyobj) (question : string) : string :=
  nl
  ++ "    You are an expert e-commerce analyst. Your task is to analyze a product image and its corresponding context card to answer a user's question, extract attributes, and check for policy compliance." ++ nl
  ++ nl
  ++ "    **Context Card:**" ++ nl
  ++ "    ```json" ++ nl
  ++ "    " ++ json_dumps_indent2 context_card ++ nl
  ++ "    ```" ++ nl
  ++ nl
  ++ "    **User Question:** " ++ dq ++ question ++ dq ++ nl
  ++ nl
  ++ "    **Your Tasks:**" ++ nl
  ++ "    1.  **Answer the Question:** Based on both the image and the context card, answer the user's question. If the image provides insufficient evidence, state that clearly and cite rule R-102 if applicable." ++ nl
  ++ "    2.  **Extract Attributes:** Identify the following attributes from the image and reconcile them with the specs in the context card: `color`, `closure`, `style`, `outsole_pattern`." ++ nl
  ++ "    3.  **Check Compliance:** Evaluate all rules listed in the context card. For each rule, provide a " ++ dq ++ "pass" ++ dq ++ " or " ++ dq ++ "fail" ++ dq ++ " status and a brief justification. **Crucially, if the user's question probes a specific claim area that is governed by a rule (e.g., asking about " ++ dq ++ "orthopedic" ++ dq ++ " properties, " ++ dq ++ "water resistance" ++ dq ++ ", etc.), you must find the corresponding policy rule (e.g., R-103, R-203) and explicitly fail that rule in your compliance check, explaining that the claim cannot be made.** This is a mandatory instruction." ++ nl
  ++ nl
  ++ "    **Output Format:**" ++ nl
  ++ "    You MUST respond with a single, valid JSON object. Do not include any text or formatting outside of this JSON object. The JSON object should follow this exact schema:" ++ nl
  ++ "    {" ++ nl
  ++ "        " ++ dq ++ "answer" ++ dq ++ ": " ++ dq ++ "Your detailed answer to the user's question." ++ dq ++ "," ++ nl
  ++ "        " ++ dq ++ "grounding" ++ dq ++ ": {" ++ nl
  ++ "            " ++ dq ++ "citations" ++ dq ++ ": [" ++ dq ++ "List of rule IDs or spec fields supporting your answer, e.g., 'R-101', 'spec:material'" ++ dq ++ "]," ++ nl
  ++ "            " ++ dq ++ "visual_refs" ++ dq ++ ": [" ++ dq ++ "List of brief descriptions of visual evidence from the image, e.g., 'The image shows a lace-up closure.'" ++ dq ++ "]" ++ nl
  ++ "        }," ++ nl
  ++ "        " ++ dq ++ "structured" ++ dq ++ ": {" ++ nl
  ++ "            " ++ dq ++ "attributes" ++ dq ++ ": {" ++ nl
  ++ "                " ++ dq ++ "color" ++ dq ++ ": {" ++ dq ++ "value" ++ dq ++ ": " ++ dq ++ "extracted_color" ++ dq ++ ", " ++ dq ++ "source" ++ dq ++ ": " ++ dq ++ "image|spec" ++ dq ++ "}," ++ nl
  ++ "                " ++ dq ++ "closure" ++ dq ++ ": {" ++ dq ++ "value" ++ dq ++ ": " ++ dq ++ "extracted_closure" ++ dq ++ ", " ++ dq ++ "source" ++ dq ++ ": " ++ dq ++ "image|spec" ++ dq ++ "}," ++ nl
  ++ "                " ++ dq ++ "style" ++ dq ++ ": {" ++ dq ++ "value" ++ dq ++ ": " ++ dq ++ "extracted_style" ++ dq ++ ", " ++ dq ++ "source" ++ dq ++ ": " ++ dq ++ "image|spec" ++ dq ++ "}," ++ nl
  ++ "                " ++ dq ++ "outsole_pattern" ++ dq ++ ": {" ++ dq ++ "value" ++ dq ++ ": " ++ dq ++ "extracted_outsole" ++ dq ++ ", " ++ dq ++ "source" ++ dq ++ ": " ++ dq ++ "image|spec" ++ dq ++ "}" ++ nl
  ++ "            }," ++ nl
  ++ "            " ++ dq ++ "compliance" ++ dq ++ ": {" ++ nl
  ++ "                " ++ dq ++ "R-201" ++ dq ++ ": {" ++ dq ++ "pass" ++ dq ++ ": true/false, " ++ dq ++ "reason" ++ dq ++ ": " ++ dq ++ "Your justification here." ++ dq ++ "}," ++ nl
  ++ "                " ++ dq ++ "R-202" ++ dq ++ ": {" ++ dq ++ "pass" ++ dq ++ ": true/false, " ++ dq ++ "reason" ++ dq ++ ": " ++ dq ++ "Your justification here." ++ dq ++ "}" ++ nl
  ++ "            }" ++ nl
  ++ "        }" ++ nl
  ++ "    }" ++ nl
  ++ "    ".

(** Reading [response.text]. *)
Definition response_text (response : GenerationResponse) : result string :=
  match text response with
  | inl e => raise (ValueError e)
  | inr raw_text => ok raw_text
  end.

(** Lines 90-121: from the backend's answer to the dictionary returned.
    The handler of line 120 catches what [json.loads] raises and reads the
    text once more. *)
Definition parse_response (response : GenerationResponse) : result pyobj :=
  match candidates response with
  | [] =>
      ok (VDict [ ("error", VStr "No candidates returned from model.");
                  ("details", VStr "The model response was empty.") ])
  | first :: _ =>
      if negb (FinishReason_eqb (finish_reason first) STOP)
      then
        ok (VDict
              [ ("error", VStr "Model generation stopped prematurely.");
                ("details",
                 VStr ("Finish Reason: " ++ FinishReason_name (finish_reason first)
                       ++ ". This might be due to safety settings or an issue with the input."));
                ("safety_ratings", VStr (safety_ratings first)) ])
      else
        raw_text <- response_text response ;;
        if negb (str_truthy (strip raw_text))
        then
          ok (VDict
                [ ("error", VStr "Model returned an empty text response.");
                  ("details",
                   VStr "This could be due to safety filters or a malformed prompt.") ])
        else
          match json_loads (extract_json raw_text) with
          | inl e =>
              raw_text <- response_text response ;;
              ok (VDict [ ("error", VStr "Failed to parse model response.");
                          ("details", VStr e);
                          ("raw_text", VStr raw_text) ])
          | inr parsed_response =>
              py_setitem parsed_response "diagnostics"
                (VDict [("model", VStr model_name)])
          end
  end.

(** Lines 17-88: the prompt, the image part, the call.  Nothing around the
    call catches what it raises. *)
Definition query_gemini
  (image_gcs_uri : atom) (context_card : pyobj) (question : string)
  : result pyobj :=
  let prompt := build_prompt context_card question in
  image_part <- Part_from_uri image_gcs_uri "image/jpeg" ;;
  match generate_content model_name image_part prompt with
  | inl e => raise (GoogleAPICallError e)
  | inr response => parse_response response
  end.

(** *** main.py, the schema *)

Record AnalyzeRequest : Type := {
  sku : string;
  question : option string;
  context_ids : list string;
  metadata : option (dict pyobj)
}.

Record Grounding : Type := {
  citations : list string;
  visual_refs : list string
}.

Record Attribute : Type := {
  value : string;
  source : string
}.

Record Structured : Type := {
  attributes : dict Attribute;
  compliance : dict (dict pyobj)
}.

Record Diagnostics : Type := {
  latency : spec_float;
  model : string;
  tokens : Z
}.

Record AnalyzeResponse : Type := {
  answer : string;
  grounding : Grounding;
  structured : Structured;
  diagnostics : Diagnostics
}.

Context {pydantic : Pydantic}.

Definition both {A B} (x : checked A) (y : checked B) : checked (A * B) :=
  match x, y with
  | inr a, inr b => inr (a, b)
  | inl e1, inl e2 => inl (e1 ++ e2)
  | inl e, inr _ => inl e
  | inr _, inl e => inl e
  end.

(** A field declared with [Field(...)] or without a default is required. *)
Definition required {A} (at_ : loc) (fields : dict pyobj) (name : string)
  (validator : loc -> pyobj -> checked A) : checked A :=
  match dict_get name fields with
  | None => inl [(at_ ++ [Key name], Missing)]
  | Some v => validator (at_ ++ [Key name]) v
  end.

Definition as_str (at_ : loc) (v : pyobj) : checked string :=
  match validate_str v with
  | Some s => inr s
  | None => inl [(at_, WrongType)]
  end.

Definition as_int (at_ : loc) (v : pyobj) : checked Z :=
  match validate_int v with
  | Some z => inr z
  | None => inl [(at_, WrongType)]
  end.

Definition as_float (at_ : loc) (v : pyobj) : checked spec_float :=
  match validate_float v with
  | Some f => inr f
  | None => inl [(at_, WrongType)]
  end.

(** A bare [Dict] *)
Definition as_dict (at_ : loc) (v : pyobj) : checked (dict pyobj) :=
  match validate_dict v with
  | Some d => inr d
  | None => inl [(at_, WrongType)]
  end.

Fixpoint each_item {A} (validator : loc -> pyobj -> checked A)
  (at_ : loc) (i : nat) (xs : list pyobj) : checked (list A) :=
  match xs with
  | [] => inr []
  | x :: xs' =>
      match both (validator (at_ ++ [Index i]) x)
                 (each_item validator at_ (S i) xs') with
      | inr (a, rest) => inr (a :: rest)
      | inl e => inl e
      end
  end.

(** [List[T]] *)
Definition as_list_of {A} (validator : loc -> pyobj -> checked A)
  (at_ : loc) (v : pyobj) : checked (list A) :=
  match validate_list v with
  | Some xs => each_item validator at_ 0 xs
  | None => inl [(at_, WrongType)]
  end.

Fixpoint each_entry {A} (validator : loc -> pyobj -> checked A)
  (at_ : loc) (d : dict pyobj) : checked (dict A) :=
  match d with
  | [] => inr []
  | (k, x) :: d' =>
      match both (validator (at_ ++ [Key k]) x)
                 (each_entry validator at_ d') with
      | inr (a, rest) => inr ((k, a) :: rest)
      | inl e => inl e
      end
  end.

(** [Dict[str, T]] *)
Definition as_dict_of {A} (validator : loc -> pyobj -> checked A)
  (at_ : loc) (v : pyobj) : checked (dict A) :=
  match validate_dict v with
  | Some d => each_entry validator at_ d
  | None => inl [(at_, WrongType)]
  end.

Definition Grounding_init (at_ : loc) (fields : dict pyobj)
  : checked Grounding :=
  match both (required at_ fields "citations" (as_list_of as_str))
             (required at_ fields "visual_refs" (as_list_of as_str)) with
  | inr (c, r) => inr {| citations := c; visual_refs := r |}
  | inl e => inl e
  end.

Definition Attribute_init (at_ : loc) (fields : dict pyobj)
  : checked Attribute :=
  match both (required at_ fields "value" as_str)
             (required at_ fields "source" as_str) with
  | inr (v, s) => inr {| value := v; source := s |}
  | inl e => inl e
  end.

(** A field whose type is a model takes a mapping and builds the model. *)
Definition as_model {A} (init : loc -> dict pyobj -> checked A)
  (at_ : loc) (v : pyobj) : checked A :=
  match validate_dict v with
  | Some fields => init at_ fields
  | None => inl [(at_, WrongType)]
  end.

Definition Structured_init (at_ : loc) (fields : dict pyobj)
  : checked Structured :=
  match both (required at_ fields "attributes"
                (as_dict_of (as_model Attribute_init)))
             (required at_ fields "compliance" (as_dict_of as_dict)) with
  | inr (a, c) => inr {| attributes := a; compliance := c |}
  | inl e => inl e
  end.

Definition Diagnostics_init (at_ : loc) (fields : dict pyobj)
  : checked Diagnostics :=
  match both (required at_ fields "latency" as_float)
             (both (required at_ fields "model" as_str)
                   (required at_ fields "tokens" as_int)) with
  | inr (l, (m, t)) => inr {| latency := l; model := m; tokens := t |}
  | inl e => inl e
  end.

(** The constructor call of line 103, on the unpacked mapping. *)
Definition AnalyzeResponse_init (kwargs : dict pyobj)
  : checked AnalyzeResponse :=
  match both (required [] kwargs "answer" as_str)
             (both (required [] kwargs "grounding" (as_model Grounding_init))
                   (both (required [] kwargs "structured"
                            (as_model Structured_init))
                         (required [] kwargs "diagnostics"
                            (as_model Diagnostics_init)))) with
  | inr (a, (g, (s, d))) =>
      inr {| answer := a; grounding := g; structured := s; diagnostics := d |}
  | inl e => inl e
  end.

(** *** main.py, the handler *)

(** What the handler hands back to the framework when it returns. *)
Inductive returned : Type :=
| ReturnDict (body : pyobj)
| ReturnModel (response : AnalyzeResponse).

Definition default_question : string :=
  "Describe the product based on the image and context.".

(** [request.question or default_question] *)
Definition question_or_default (request : AnalyzeRequest) : string :=
  match question request with
  | Some q => if str_truthy q then q else default_question
  | None => default_question
  end.

(** Lines 95-100.  The inner dictionary is updated in place, so the
    response sees the update. *)
Definition add_diagnostics (model_response : pyobj) (elapsed : spec_float)
  : result pyobj :=
  present <- py_in "diagnostics" model_response ;;
  model_response <- (if present : bool
                     then ok model_response
                     else py_setitem model_response "diagnostics" (VDict [])) ;;
  diag <- py_getitem model_response "diagnostics" ;;
  diag <- py_setitem diag "latency" (VFloat (round elapsed 2)) ;;
  has_tokens <- py_in "tokens" diag ;;
  diag <- (if has_tokens : bool
           then ok diag
           else py_setitem diag "tokens" (VInt 0)) ;;
  py_setitem model_response "diagnostics" diag.

(** Lines 93-113: the [try] block and its handler. *)
Definition validate_response (model_response : pyobj) (elapsed : spec_float)
  : result AnalyzeResponse :=
  model_response <- add_diagnostics model_response elapsed ;;
  match model_response with
  | VDict kwargs =>
      match AnalyzeResponse_init kwargs with
      | inr validated_response => ok validated_response
      | inl e => raise (HTTPException 500 (InvalidDataFormat e))
      end
  | _ => raise TypeError
  end.

(** Lines 59-71: the first [try] block.  It either leaves the handler with
    an early [return], or yields what the later stages need. *)
Definition load_inputs (request : AnalyzeRequest)
  (spec_catalog : dict (dict atom))
  : result (returned + (dict atom * atom * dict pyobj)) :=
  product_specs <- get_sku_specs (sku request) spec_catalog ;;
  let image_gcs_uri :=
    match dict_get "image_gcs_uri" product_specs with
    | Some a => a
    | None => ANone
    end in
  if negb (atom_truthy image_gcs_uri)
  then ok (inl (ReturnDict
                  (VDict [("error",
                           VStr ("Image GCS URI not found for SKU: "
                                 ++ sku request))])))
  else
    contexts <- load_contexts load_context_file (context_ids request) ;;
    ok (inr (product_specs, image_gcs_uri, contexts)).

(** Lines 76-113: compose, query, validate. *)
Definition respond (request : AnalyzeRequest) (product_specs : dict atom)
  (image_gcs_uri : atom) (contexts : dict pyobj) (elapsed : spec_float)
  : result returned :=
  context_card <- compose_context_card product_specs contexts ;;
  model_response <- query_gemini image_gcs_uri (VDict context_card)
                      (question_or_default request) ;;
  failed <- py_in "error" model_response ;;
  if failed : bool
  then
    error <- py_get model_response "error" VNone ;;
    details <- py_get model_response "details" VNone ;;
    raise (HTTPException 500 (ModelQueryFailed error details))
  else
    validated_response <- validate_response model_response elapsed ;;
    ok (ReturnModel validated_response).

(** The handler of [POST /analyze]; [elapsed] is the time read off the clock
    between its first line and line 91. *)
Definition analyze (request : AnalyzeRequest) (elapsed : spec_float)
  : result returned :=
  spec_catalog <- load_spec_catalog ;;
  match load_inputs request spec_catalog with
  | inl (FileNotFoundError msg) | inl (ValueError msg) =>
      ok (ReturnDict (VDict [("error", VStr msg)]))
  | inl e => raise e
  | inr (inl early) => ok early
  | inr (inr (product_specs, image_gcs_uri, contexts)) =>
      respond request product_specs image_gcs_uri contexts elapsed
  end.

(** *** main.py, the route

    Line 48 registers the handler with [response_model=AnalyzeResponse].
    The framework validates what the handler returns against that model
    and answers 200 with the validated response; a returned value that does
    not fit is a server error, answered 500.  An [HTTPException] is answered
    with its own status and detail, any other exception with 500. *)
Inductive http_payload : Type :=
| Json (response : AnalyzeResponse)
| Detail (detail : http_detail)
| InternalServerError.

Record Response : Type := {
  status_code : Z;
  payload : http_payload
}.

Definition serve (outcome : result returned) : Response :=
  match outcome with
  | inr (ReturnModel response) =>
      {| status_code := 200; payload := Json response |}
  | inr (ReturnDict content) =>
      match as_model (fun _ kwargs => AnalyzeResponse_init kwargs) [] content with
      | inr response => {| status_code := 200; payload := Json response |}
      | inl _ => {| status_code := 500; payload := InternalServerError |}
      end
  | inl (HTTPException code detail) =>
      {| status_code := code; payload := Detail detail |}
  | inl _ => {| status_code := 500; payload := InternalServerError |}
  end.

Definition post_analyze (request : AnalyzeRequest) (elapsed : spec_float)
  : Response :=
  serve (analyze request elapsed).

End Service.

(** ** The context card, as the specification describes it *)

Definition is_mapping (v : pyobj) : bool :=
  match v with
  | VDict _ => true
  | _ => false
  end.

(** A context document: a mapping whose [rules], when present, is a list of
    mappings. *)
Definition well_formed_document (content : pyobj) : bool :=
  match content with
  | VDict d =>
      match dict_get "rules" d with
      | None => true
      | Some (VList rules) => forallb is_mapping rules
      | Some _ => false
      end
  | _ => false
  end.

Definition document_voice (content : pyobj) : option pyobj :=
  match content with
  | VDict d => dict_get "brand_voice" d
  | _ => None
  end.

Definition defines_voice (content : pyobj) : bool :=
  match document_voice content with
  | Some _ => true
  | None => false
  end.

(** The [brand_voice] of the last document, in the given order, that defines
    one. *)
Definition last_brand_voice (documents : list pyobj) : option pyobj :=
  match find defines_voice (rev documents) with
  | Some content => document_voice content
  | None => None
  end.

Definition document_rules (content : pyobj) : list pyobj :=
  match content with
  | VDict d =>
      match dict_get "rules" d with
      | Some (VList rules) => rules
      | _ => []
      end
  | _ => []
  end.

Definition field_or (default : pyobj) (o : option pyobj) : pyobj :=
  match o with
  | Some v => v
  | None => default
  end.

(** The card's entry for one rule: [id] and [text] as they are, [None] when
    absent; [mandatory] false when absent. *)
Definition rule_entry (rule : pyobj) : pyobj :=
  match rule with
  | VDict r =>
      VDict [ ("id", field_or VNone (dict_get "id" r));
              ("text", field_or VNone (dict_get "text" r));
              ("mandatory", field_or (VBool false) (dict_get "mandatory" r)) ]
  | _ => rule
  end.

Definition all_rules (documents : list pyobj) : list pyobj :=
  flat_map (fun content => map rule_entry (document_rules content)) documents.

(** The non-null attributes of a product specification. *)
Definition non_null_attributes (product_specs : dict atom) : dict pyobj :=
  map (fun kv => (fst kv, VAtom (snd kv)))
      (filter (fun kv => pd_notna (snd kv)) product_specs).

(** The card with the given content, keys in the order the composer
    creates them. *)
Definition card_of (attrs : dict pyobj) (rules : list pyobj)
  (voice : option pyobj) : dict pyobj :=
  [("product_attributes", VDict attrs); ("rules", VList rules)]
  ++ match voice with
     | Some v => [("brand_voice", v)]
     | None => []
     end.

Definition voice_after (voice : option pyobj) (documents : list pyobj)
  : option pyobj :=
  fold_left
    (fun acc content =>
       match document_voice content with
       | Some v => Some v
       | None => acc
       end)
    documents voice.

(** ** The response schema, as the specification describes it *)

Section Schema.

Context {pydantic : Pydantic}.

Definition accepted {A} (o : option A) : bool :=
  match o with
  | Some _ => true
  | None => false
  end.

Definition is_str_value (v : pyobj) : bool := accepted (validate_str v).
Definition is_int_value (v : pyobj) : bool := accepted (validate_int v).
Definition is_float_value (v : pyobj) : bool := accepted (validate_float v).

(** The field is present and its value passes the check. *)
Definition has_field (fields : dict pyobj) (name : string)
  (check : pyobj -> bool) : bool :=
  match dict_get name fields with
  | Some v => check v
  | None => false
  end.

Definition mapping_with (check : dict pyobj -> bool) (v : pyobj) : bool :=
  match validate_dict v with
  | Some d => check d
  | None => false
  end.

Definition sequence_of (check : pyobj -> bool) (v : pyobj) : bool :=
  match validate_list v with
  | Some l => forallb check l
  | None => false
  end.

Definition mapping_of (check : pyobj -> bool) (v : pyobj) : bool :=
  mapping_with (forallb (fun kv => check (snd kv))) v.

Definition grounding_ok : pyobj -> bool :=
  mapping_with
    (fun g => has_field g "citations" (sequence_of is_str_value)
              && has_field g "visual_refs" (sequence_of is_str_value)).

Definition attribute_ok : pyobj -> bool :=
  mapping_with
    (fun a => has_field a "value" is_str_value
              && has_field a "source" is_str_value).

Definition structured_ok : pyobj -> bool :=
  mapping_with
    (fun s => has_field s "attributes" (mapping_of attribute_ok)
              && has_field s "compliance"
                   (mapping_of (mapping_with (fun _ => true)))).

Definition diagnostics_ok : pyobj -> bool :=
  mapping_with
    (fun d => has_field d "latency" is_float_value
              && (has_field d "model" is_str_value
                  && has_field d "tokens" is_int_value)).

(** The three fields the model has to supply. *)
Definition body_ok (m : dict pyobj) : bool :=
  has_field m "answer" is_str_value
  && (has_field m "grounding" grounding_ok
      && has_field m "structured" structured_ok).

(** Every required field of [AnalyzeResponse] is present, with a value of
    its type. *)
Definition schema_ok (m : dict pyobj) : bool :=
  has_field m "answer" is_str_value
  && (has_field m "grounding" grounding_ok
      && (has_field m "structured" structured_ok
          && has_field m "diagnostics" diagnostics_ok)).

End Schema.

(** A validation outcome [c] is settled by the check [b]: it is a typed
    value when [b] holds and a non-empty list of errors when it does not. *)
Definition settled {A} (b : bool) (c : checked A) : Prop :=
  if b then exists a, c = inr a else exists e, e <> [] /\ c = inl e.

(** The outcome is a failure that lists the error [p]. *)
Definition reports {A} (p : loc * error_kind) (c : checked A) : Prop :=
  exists e, c = inl e /\ In p e.

(** The diagnostics mapping of a model output, empty when there is none. *)
Definition diagnostics_of (m : dict pyobj) : dict pyobj :=
  match dict_get "diagnostics" m with
  | Some (VDict d) => d
  | _ => []
  end.

(** The diagnostics [d] with the latency set and the token count defaulted. *)
Definition with_latency_and_tokens (d : dict pyobj) (seconds : spec_float)
  : dict pyobj :=
  let d1 := dict_set "latency" (VFloat seconds) d in
  if dict_mem "tokens" d1 then d1 else dict_set "tokens" (VInt 0) d1.

Definition diagnostics_usable (m : dict pyobj) : Prop :=
  dict_get "diagnostics" m = None
  \/ exists d, dict_get "diagnostics" m = Some (VDict d).

(** ** A small environment for running the service *)

Module Demo.

(** pydantic with every conversion turned off. *)
Definition strict : Pydantic :=
  {| validate_str v := match v with VStr s => Some s | _ => None end;
     validate_int v := match v with VInt z => Some z | _ => None end;
     validate_float v := match v with VFloat f => Some f | _ => None end;
     validate_list v := match v with VList l => Some l | _ => None end;
     validate_dict v := match v with VDict d => Some d | _ => None end;
     validate_str_str := fun _ => eq_refl;
     validate_int_int := fun _ => eq_refl;
     validate_float_float := fun _ => eq_refl;
     validate_dict_dict := fun _ => eq_refl |}.

Definition q (s : string) : string := dq ++ s ++ dq.

(** A model answer, as text and as the value [json.loads] gives for it. *)
Definition answer_text : string :=
  "{" ++ q "answer" ++ ": " ++ q "Not certified as waterproof." ++ ", "
  ++ q "grounding" ++ ": {" ++ q "citations" ++ ": [" ++ q "R-203" ++ "], "
  ++ q "visual_refs" ++ ": []}, "
  ++ q "structured" ++ ": {" ++ q "attributes" ++ ": {" ++ q "color" ++ ": {"
  ++ q "value" ++ ": " ++ q "black" ++ ", " ++ q "source" ++ ": " ++ q "image"
  ++ "}}, " ++ q "compliance" ++ ": {" ++ q "R-203" ++ ": {" ++ q "pass"
  ++ ": false, " ++ q "reason" ++ ": " ++ q "no certification" ++ "}}}}".

Definition answer_value : pyobj :=
  VDict
    [ ("answer", VStr "Not certified as waterproof.");
      ("grounding",
       VDict [("citations", VList [VStr "R-203"]); ("visual_refs", VList [])]);
      ("structured",
       VDict
         [ ("attributes",
            VDict [("color",
                    VDict [("value", VStr "black"); ("source", VStr "image")])]);
           ("compliance",
            VDict [("R-203",
                    VDict [ ("pass", VBool false);
                            ("reason", VStr "no certification") ])]) ]) ].

(** A rule document. *)
Definition rules_v1_text : string :=
  "{" ++ q "brand_voice" ++ ": " ++ q "plain" ++ ", " ++ q "rules" ++ ": [{"
  ++ q "id" ++ ": " ++ q "R-203" ++ ", " ++ q "text" ++ ": "
  ++ q "no water-resistance claims without certification" ++ ", "
  ++ q "mandatory" ++ ": true}]}".

Definition rules_v1 : pyobj :=
  VDict
    [ ("brand_voice", VStr "plain");
      ("rules",
       VList
         [ VDict
             [ ("id", VStr "R-203");
               ("text",
                VStr "no water-resistance claims without certification");
               ("mandatory", VBool true) ] ]) ].

(** [SKU1] has an image and a missing [material] cell; [SKU2] has no image
    reference. *)
Definition catalog : dict (dict atom) :=
  [ ("SKU1",
     [ ("image_gcs_uri", AStr "gs://alara-case-study-bucket/sku1.jpg");
       ("color", AStr "black");
       ("material", AFloat S754_nan) ]);
    ("SKU2", [("color", AStr "red")]) ].

Definition loads (s : string) : string + pyobj :=
  if String.eqb s answer_text then inr answer_value
  else if String.eqb s rules_v1_text then inr rules_v1
  else if String.eqb s "[]" then inr (VList [])
  else inl "Expecting value: line 1 column 1 (char 0)".

Definition download (project bucket blob : string) : string + string :=
  if String.eqb blob "spec_catalog.csv"
  then inr "sku,image_gcs_uri,color,material"
  else if String.eqb blob "context/rules_v1.json" then inr rules_v1_text
  else inl ("404 No such object: " ++ bucket ++ "/" ++ blob)%string.

Definition stop_candidate : Candidate :=
  {| finish_reason := STOP; safety_ratings := "[]" |}.

(** The model answers every prompt with [answer_text] in a fence. *)
Definition fenced_model (name : string) (image : Part) (prompt : string)
  : string + GenerationResponse :=
  inr {| candidates := [stop_candidate];
         text := inr (fence_open ++ answer_text ++ fence_close)%string |}.

(** The model answers every prompt with a JSON array. *)
Definition array_model (name : string) (image : Part) (prompt : string)
  : string + GenerationResponse :=
  inr {| candidates := [stop_candidate]; text := inr "[]" |}.

(** An environment around a model.  Its [round] is the identity, which is
    what rounding to two decimals gives on the latency used below. *)
Definition platform_with
  (model : string -> Part -> string -> string + GenerationResponse)
  : Platform :=
  {| getenv := fun _ => None;
     download_as_string := download;
     read_catalog := fun _ => inr catalog;
     json_loads := loads;
     json_dumps_indent2 := fun _ => "{}";
     round := fun f _ => f;
     generate_content := model |}.

Definition platform : Platform := platform_with fenced_model.

(** 1.5 seconds *)
Definition elapsed : spec_float := S754_finite false 3 (-1).

Definition request (sku_ : string) (question_ : option string)
  (ids : list string) : AnalyzeRequest :=
  {| sku := sku_; question := question_; context_ids := ids;
     metadata := None |}.

End Demo.

(** ** What one context document contributes to the card *)

(** The entries the rule loop appends for a list of rules; the first rule
    that has no [get] method stops it. *)
Fixpoint entries_of (rules : list pyobj) : result (list pyobj) :=
  match rules with
  | [] => ok []
  | VDict r :: rules' =>
      entries <- entries_of rules' ;;
      ok (rule_entry (VDict r) :: entries)
  | _ :: _ => raise AttributeError
  end.

(** The brand voice a document sets, if any, and the rule entries it adds,
    computed in the order [add_context] works: voice first, rules after. *)
Definition document_effect (content : pyobj)
  : result (option pyobj * list pyobj) :=
  has_voice <- py_in "brand_voice" content ;;
  voice <- (if has_voice : bool
            then v <- py_getitem content "brand_voice" ;; ok (Some v)
            else ok None) ;;
  has_rules <- py_in "rules" content ;;
  if has_rules : bool
  then rules <- py_getitem content "rules" ;;
       listed <- py_iter rules ;;
       entries <- entries_of listed ;;
       ok (voice, entries)
  else ok (voice, []).

Definition override (newer older : option pyobj) : option pyobj :=
  match newer with
  | Some v => Some v
  | None => older
  end.

(** The effects of the documents, one after the other. *)
Fixpoint documents_effect (documents : list pyobj)
  : result (option pyobj * list pyobj) :=
  match documents with
  | [] => ok (None, [])
  | content :: documents' =>
      first <- document_effect content ;;
      rest <- documents_effect documents' ;;
      ok (override (fst rest) (fst first), snd first ++ snd rest)
  end.

(** A rule entry of the card: exactly the keys [id], [text], [mandatory]. *)
Definition rule_shaped (entry : pyobj) : Prop :=
  exists id text mandatory,
    entry = VDict [("id", id); ("text", text); ("mandatory", mandatory)].

(** The identifiers in the order of their first occurrence. *)
Fixpoint first_occurrences (seen ids : list string) : list string :=
  match ids with
  | [] => []
  | i :: ids' =>
      if existsb (String.eqb i) seen
      then first_occurrences seen ids'
      else i :: first_occurrences (i :: seen) ids'
  end.

(** ** Predicates on text *)

(** Every character is white space (true of the empty text). *)
Fixpoint all_space (s : string) : bool :=
  match s with
  | EmptyString => true
  | String c s' => is_space c && all_space s'
  end.

(** The text holds no backquote. *)
Fixpoint no_backquote (s : string) : bool :=
  match s with
  | EmptyString => true
  | String c s' => negb (Ascii.eqb c "`") && no_backquote s'
  end.

(** ** evaluate.py, the scoring of one sample *)

(** Two builtins of Python that the scoring applies to arbitrary values:
    equality, as list membership tests it, and [str], as an f-string
    formats a value. *)
Class Builtins : Type := {
  py_eq : pyobj -> pyobj -> bool;
  py_str : pyobj -> string
}.

(** The scoring can also raise [IndexError]. *)
Inductive raised : Type :=
| Raised (e : exn)
| IndexError.

Definition scored (A : Type) : Type := (raised + A)%type.

Definition lift {A} (r : result A) : scored A :=
  match r with
  | inl e => inl (Raised e)
  | inr a => inr a
  end.

Definition then_ {A B} (m : scored A) (f : A -> scored B) : scored B :=
  match m with
  | inl e => inl e
  | inr a => f a
  end.

(** Truth value of any value: empty containers are false. *)
Definition py_truthy (v : pyobj) : bool :=
  match v with
  | VAtom a => atom_truthy a
  | VList [] => false
  | VList (_ :: _) => true
  | VDict [] => false
  | VDict (_ :: _) => true
  end.

(** [seq[i]] for an integer [i]: negative indices count from the end. *)
Definition item_at {A} (l : list A) (i : Z) : option A :=
  let n := Z.of_nat (length l) in
  if (0 <=? i)%Z then nth_error l (Z.to_nat i)
  else if (0 <=? n + i)%Z then nth_error l (Z.to_nat (n + i))
  else None.

Definition as_index (x : pyobj) : option Z :=
  match x with
  | VInt z => Some z
  | VBool true => Some 1%Z
  | VBool false => Some 0%Z
  | _ => None
  end.

Section Scoring.

Context {builtins : Builtins}.

(** The text an f-string puts for a value. *)
Definition formatted (v : pyobj) : string :=
  match v with
  | VStr s => s
  | _ => py_str v
  end.

(** [x in c] for any [x]: the keys of a dictionary are strings, so only a
    string can be among them, and a list or a dictionary cannot even be
    looked up. *)
Definition py_contains (x c : pyobj) : scored bool :=
  match c with
  | VDict d =>
      match x with
      | VStr s => inr (dict_mem s d)
      | VAtom _ => inr false
      | _ => inl (Raised TypeError)
      end
  | VList l => inr (existsb (py_eq x) l)
  | VStr s =>
      match x with
      | VStr k => inr (is_substring k s)
      | _ => inl (Raised TypeError)
      end
  | VAtom _ => inl (Raised TypeError)
  end.

(** [c[x]] for any [x] *)
Definition py_subscript (c x : pyobj) : scored pyobj :=
  match c with
  | VDict d =>
      match x with
      | VStr s =>
          match dict_get s d with
          | Some v => inr v
          | None => inl (Raised (KeyError s))
          end
      | VAtom _ => inl (Raised (KeyError (py_str x)))
      | _ => inl (Raised TypeError)
      end
  | VList l =>
      match as_index x with
      | Some i =>
          match item_at l i with
          | Some v => inr v
          | None => inl IndexError
          end
      | None => inl (Raised TypeError)
      end
  | VStr s =>
      match as_index x with
      | Some i =>
          match item_at (chars s) i with
          | Some v => inr v
          | None => inl IndexError
          end
      | None => inl (Raised TypeError)
      end
  | VAtom _ => inl (Raised TypeError)
  end.

Definition verdict (pass : pyobj) (reason : string) : pyobj :=
  VDict [("pass", pass); ("reason", VStr reason)].

Definition is_False (v : pyobj) : bool :=
  match v with
  | VBool false => true
  | _ => false
  end.

Definition evaluate_sample (api_output expected : pyobj) : scored pyobj :=
  then_ (lift (py_in "forbid_claim_rule" expected)) (fun has_rule =>
  if has_rule : bool
  then
    then_ (lift (py_getitem expected "forbid_claim_rule")) (fun rule_id =>
    then_ (lift (py_get api_output "structured" (VDict []))) (fun structured =>
    then_ (lift (py_get structured "compliance" (VDict []))) (fun compliance =>
    then_ (then_ (py_contains rule_id compliance) (fun listed =>
             if listed : bool
             then then_ (py_subscript compliance rule_id) (fun entry =>
                  then_ (lift (py_get entry "pass" VNone)) (fun pass =>
                  inr (is_False pass)))
             else inr false)) (fun failed =>
    if failed : bool
    then inr (verdict (VBool true)
                ("Correctly failed compliance rule " ++ formatted rule_id
                 ++ "."))
    else inr (verdict (VBool false)
                ("Expected to fail compliance rule " ++ formatted rule_id
                 ++ ", but it passed or was not found."))))))
  else
    then_ (lift (py_get expected "allow_insufficient" (VBool false)))
      (fun allow =>
    if py_truthy allow
    then
      then_ (lift (py_in "answer" api_output)) (fun answered =>
      if answered : bool
      then inr (verdict (VBool true) "API returned a valid answer.")
      else inr (verdict (VBool false) "API failed to return an answer."))
    else inr (verdict VNone
                "No evaluation criteria matched for this sample."))).

End Scoring.

(** Whether the output's [structured.compliance] fails the rule: the entry
    of the rule is a mapping whose [pass] is the boolean false. *)
Definition fails_rule (api_output : dict pyobj) (rule_id : string) : bool :=
  match dict_get "structured" api_output with
  | Some (VDict structured) =>
      match dict_get "compliance" structured with
      | Some (VDict compliance) =>
          match dict_get rule_id compliance with
          | Some (VDict entry) =>
              match dict_get "pass" entry with
              | Some (VBool false) => true
              | _ => false
              end
          | _ => false
          end
      | _ => false
      end
  | _ => false
  end.

(** The output has the layout of a response as far as the rule is
    concerned: [structured], its [compliance] and the rule's entry are
    mappings where they are present. *)
Definition compliance_layout (api_output : dict pyobj) (rule_id : string)
  : bool :=
  match dict_get "structured" api_output with
  | None => true
  | Some (VDict structured) =>
      match dict_get "compliance" structured with
      | None => true
      | Some (VDict compliance) =>
          match dict_get rule_id compliance with
          | None => true
          | Some (VDict _) => true
          | Some _ => false
          end
      | Some _ => false
      end
  | Some _ => false
  end.

(** ** Further environments for running the service *)

Module Cases.

(** The bucket cannot be reached. *)
Definition offline (project bucket blob : string) : string + string :=
  inl "503 Service Unavailable".

Definition offline_platform : Platform :=
  {| getenv := fun _ => None;
     download_as_string := offline;
     read_catalog := fun _ => inr Demo.catalog;
     json_loads := Demo.loads;
     json_dumps_indent2 := fun _ => "{}";
     round := fun f _ => f;
     generate_content := Demo.fenced_model |}.

(** A catalog whose row has an empty image cell. *)
Definition nan_catalog : dict (dict atom) :=
  [("SKU9", [("image_gcs_uri", AFloat S754_nan); ("color", AStr "blue")])].

Definition nan_platform : Platform :=
  {| getenv := fun _ => None;
     download_as_string := Demo.download;
     read_catalog := fun _ => inr nan_catalog;
     json_loads := Demo.loads;
     json_dumps_indent2 := fun _ => "{}";
     round := fun f _ => f;
     generate_content := Demo.fenced_model |}.

(** A model that answers with an object of its own making. *)
Definition refusal_text : string :=
  "{" ++ Demo.q "error" ++ ": " ++ Demo.q "cannot comply" ++ "}".

Definition refusal : dict pyobj := [("error", VStr "cannot comply")].

Definition refusal_loads (s : string) : string + pyobj :=
  if String.eqb s refusal_text then inr (VDict refusal) else Demo.loads s.

Definition refusal_model (name : string) (image : Part) (prompt : string)
  : string + GenerationResponse :=
  inr {| candidates := [Demo.stop_candidate]; text := inr refusal_text |}.

Definition refusal_platform : Platform :=
  {| getenv := fun _ => None;
     download_as_string := Demo.download;
     read_catalog := fun _ => inr Demo.catalog;
     json_loads := refusal_loads;
     json_dumps_indent2 := fun _ => "{}";
     round := fun f _ => f;
     generate_content := refusal_model |}.

(** A model that returns no candidate. *)
Definition silent_model (name : string) (image : Part) (prompt : string)
  : string + GenerationResponse :=
  inr {| candidates := [];
         text := inl "Response has no candidates (and thus no text)." |}.


(** A model whose answer was stopped by the safety filter. *)
Definition blocked_model (name : string) (image : Part) (prompt : string)
  : string + GenerationResponse :=
  inr {| candidates := [{| finish_reason := SAFETY;
                           safety_ratings := "[HARM_CATEGORY_DANGEROUS_CONTENT]" |}];
         text := inl "Cannot get the Candidate text." |}.

(** A model that answers in prose. *)
Definition chatty_model (name : string) (image : Part) (prompt : string)
  : string + GenerationResponse :=
  inr {| candidates := [Demo.stop_candidate];
         text := inr "The shoe is black." |}.

(** A model that cannot be reached. *)
Definition unreachable_model (name : string) (image : Part) (prompt : string)
  : string + GenerationResponse :=
  inl "503 The service is currently unavailable.".

(** A model that answers the default question and no other: it returns no
    candidate unless the prompt quotes the default question. *)
Definition default_only_model (name : string) (image : Part) (prompt : string)
  : string + GenerationResponse :=
  if is_substring
       ("**User Question:** " ++ dq
        ++ "Describe the product based on the image and context." ++ dq)%string
       prompt
  then Demo.fenced_model name image prompt
  else silent_model name image prompt.

(** Equality and [str] on strings, which is all the samples below use. *)
Definition builtins : Builtins :=
  {| py_eq := fun x y =>
       match x, y with
       | VStr a, VStr b => String.eqb a b
       | _, _ => false
       end;
     py_str := fun v =>
       match v with
       | VStr s => s
       | _ => "<value>"
       end |}.

(** A response of the service, as the scoring receives it. *)
Definition scored_output : dict pyobj :=
  [ ("answer", VStr "Not certified as waterproof.");
    ("structured",
     VDict [("compliance",
             VDict [("R-203",
                     VDict [ ("pass", VBool false);
                             ("reason", VStr "no certification") ]);
                    ("R-101", VBool true)])]) ].

End Cases.

(** ** Dictionaries: lookup after update *)

Section DictFacts.

Context {V : Type}.
Implicit Types (d : dict V) (k : string) (v : V).

Lemma dict_get_set_same k v d : dict_get k (dict_set k v d) = Some v.
Proof.
  induction d as [|[k' v'] d IH]; simpl.
  - now rewrite String.eqb_refl.
  - destruct (String.eqb k k') eqn:E; simpl; rewrite E; auto.
Qed.

Lemma dict_get_set_other k k' v d :
  k <> k' -> dict_get k (dict_set k' v d) = dict_get k d.
Proof.
  intros Hne. induction d as [|[k0 v0] d IH]; simpl.
  - apply String.eqb_neq in Hne. now rewrite Hne.
  - destruct (String.eqb k' k0) eqn:E; simpl.
    + apply String.eqb_eq in E. subst k0.
      apply String.eqb_neq in Hne. now rewrite Hne.
    + now rewrite IH.
Qed.

Lemma dict_set_set k v v' d :
  dict_set k v (dict_set k v' d) = dict_set k v d.
Proof.
  induction d as [|[k0 v0] d IH]; simpl.
  - now rewrite String.eqb_refl.
  - destruct (String.eqb k k0) eqn:E; simpl; rewrite E; [reflexivity|].
    now rewrite IH.
Qed.

Lemma dict_get_absent k d : ~ In k (dict_keys d) -> dict_get k d = None.
Proof.
  induction d as [|[k0 v0] d IH]; simpl; intros Hn; [reflexivity|].
  destruct (String.eqb k k0) eqn:E.
  - apply String.eqb_eq in E. exfalso. apply Hn. now left.
  - apply IH. intros Hin. apply Hn. now right.
Qed.

Lemma dict_set_fresh k v d :
  ~ In k (dict_keys d) -> dict_set k v d = d ++ [(k, v)].
Proof.
  induction d as [|[k0 v0] d IH]; simpl; intros Hn; [reflexivity|].
  destruct (String.eqb k k0) eqn:E.
  - apply String.eqb_eq in E. exfalso. apply Hn. now left.
  - rewrite IH; [reflexivity|]. intros Hin. apply Hn. now right.
Qed.

Lemma dict_of_items_from (items acc : dict V) :
  NoDup (dict_keys (acc ++ items)) ->
  fold_left (fun a kv => dict_set (fst kv) (snd kv) a) items acc = acc ++ items.
Proof.
  revert acc. induction items as [|[k v] items IH]; intros acc Hnd; simpl.
  - now rewrite app_nil_r.
  - rewrite dict_set_fresh.
    + rewrite IH; rewrite <- app_assoc; [reflexivity | exact Hnd].
    + unfold dict_keys in Hnd. rewrite map_app in Hnd. simpl in Hnd.
      apply NoDup_remove_2 in Hnd. intros Hin. apply Hnd.
      apply in_or_app. now left.
Qed.

Lemma dict_of_items_unique (items : dict V) :
  NoDup (dict_keys items) -> dict_of_items items = items.
Proof.
  intros Hnd. unfold dict_of_items. now rewrite dict_of_items_from.
Qed.

Lemma filter_keys_incl (f : string * V -> bool) d k :
  In k (dict_keys (filter f d)) -> In k (dict_keys d).
Proof.
  unfold dict_keys. rewrite !in_map_iff. intros [x [Hx Hin]].
  apply filter_In in Hin. exists x. tauto.
Qed.

Lemma filter_keys_unique (f : string * V -> bool) d :
  NoDup (dict_keys d) -> NoDup (dict_keys (filter f d)).
Proof.
  induction d as [|[k v] d IH]; simpl; intros Hnd; [constructor|].
  inversion Hnd as [|? ? Hn Hnd']; subst.
  destruct (f (k, v)); simpl; auto.
  constructor; auto. intros Hin. apply Hn. eapply filter_keys_incl; eauto.
Qed.

End DictFacts.

(** ** The context composer *)

Arguments card_of : simpl never.

Lemma set_voice_card attrs rules voice v :
  dict_set "brand_voice" v (card_of attrs rules voice)
  = card_of attrs rules (Some v).
Proof. destruct voice; reflexivity. Qed.

Lemma append_rule_card attrs rules voice entry :
  append_rule (card_of attrs rules voice) entry
  = ok (card_of attrs (rules ++ [entry]) voice).
Proof. destruct voice; reflexivity. Qed.

Lemma add_rule_card attrs rules voice rule :
  is_mapping rule = true ->
  add_rule (card_of attrs rules voice) rule
  = ok (card_of attrs (rules ++ [rule_entry rule]) voice).
Proof.
  destruct rule as [a|l|r]; simpl; try discriminate. intros _.
  unfold add_rule, py_get; simpl.
  destruct (dict_get "id" r), (dict_get "text" r), (dict_get "mandatory" r);
    simpl; apply append_rule_card.
Qed.

Lemma add_rules_card attrs voice entries : forall rules,
  forallb is_mapping entries = true ->
  for_each entries add_rule (card_of attrs rules voice)
  = ok (card_of attrs (rules ++ map rule_entry entries) voice).
Proof.
  induction entries as [|e entries IH]; intros rules Hall; simpl.
  - now rewrite app_nil_r.
  - simpl in Hall. apply andb_true_iff in Hall as [He Hall].
    rewrite add_rule_card by exact He. simpl.
    rewrite IH by exact Hall. now rewrite <- app_assoc.
Qed.

Lemma add_context_card attrs rules voice ctx_id content :
  well_formed_document content = true ->
  add_context (card_of attrs rules voice) (ctx_id, content)
  = ok (card_of attrs
          (rules ++ map rule_entry (document_rules content))
          (match document_voice content with
           | Some v => Some v
           | None => voice
           end)).
Proof.
  destruct content as [a|l|d]; try discriminate.
  unfold well_formed_document, document_rules, document_voice. intros Hwf.
  unfold add_context, py_in, py_getitem, py_iter, dict_mem.
  cbn [snd bind ok].
  destruct (dict_get "brand_voice" d) as [v|]; cbn [bind ok];
    rewrite ?set_voice_card;
    destruct (dict_get "rules" d) as [[a|rs|r]|]; try discriminate;
    cbn [bind ok].
  - now apply add_rules_card.
  - now rewrite app_nil_r.
  - now apply add_rules_card.
  - now rewrite app_nil_r.
Qed.

Lemma add_contexts_card attrs contexts : forall rules voice,
  forallb well_formed_document (map snd contexts) = true ->
  for_each contexts add_context (card_of attrs rules voice)
  = ok (card_of attrs (rules ++ all_rules (map snd contexts))
          (voice_after voice (map snd contexts))).
Proof.
  induction contexts as [|[ctx_id content] contexts IH];
    intros rules voice Hall; simpl.
  - now rewrite app_nil_r.
  - simpl in Hall. apply andb_true_iff in Hall as [Hc Hall].
    rewrite add_context_card by exact Hc. simpl.
    rewrite IH by exact Hall. now rewrite <- app_assoc.
Qed.

(** On well-formed documents the composer returns, and returns this card. *)
Lemma compose_context_card_returns product_specs contexts :
  forallb well_formed_document (map snd contexts) = true ->
  compose_context_card product_specs contexts
  = ok (card_of (product_attributes product_specs)
          (all_rules (map snd contexts))
          (voice_after None (map snd contexts))).
Proof.
  intros Hall. unfold compose_context_card.
  change [("product_attributes", VDict (product_attributes product_specs));
          ("rules", VList [])]
    with (card_of (product_attributes product_specs) [] None).
  now rewrite add_contexts_card.
Qed.

Lemma voice_after_fold voice documents :
  voice_after voice documents
  = fold_right
      (fun content acc =>
         match document_voice content with
         | Some v => Some v
         | None => acc
         end)
      voice (rev documents).
Proof. unfold voice_after. symmetry. apply fold_left_rev_right. Qed.

Lemma voice_after_last documents :
  voice_after None documents = last_brand_voice documents.
Proof.
  rewrite voice_after_fold. unfold last_brand_voice.
  induction (rev documents) as [|c l IH]; simpl; [reflexivity|].
  unfold defines_voice at 1.
  destruct (document_voice c) eqn:Hc; [now rewrite Hc | exact IH].
Qed.

Lemma card_voice attrs rules voice :
  dict_get "brand_voice" (card_of attrs rules voice) = voice.
Proof. destruct voice; reflexivity. Qed.

Lemma card_rules attrs rules voice :
  dict_get "rules" (card_of attrs rules voice) = Some (VList rules).
Proof. destruct voice; reflexivity. Qed.

Lemma card_attributes attrs rules voice :
  dict_get "product_attributes" (card_of attrs rules voice)
  = Some (VDict attrs).
Proof. destruct voice; reflexivity. Qed.

(** The comprehension over the context identifiers keeps the order of the
    request when no identifier is repeated. *)
Lemma load_contexts_from (load : string -> result pyobj) ids :
  forall (documents : list pyobj) (acc : dict pyobj),
  NoDup (dict_keys acc ++ ids) ->
  map load ids = map ok documents ->
  for_each ids
    (fun acc ctx_id => content <- load ctx_id ;; ok (dict_set ctx_id content acc))
    acc
  = ok (acc ++ combine ids documents).
Proof.
  induction ids as [|i ids IH]; intros documents acc Hnd Hload; simpl.
  - now rewrite app_nil_r.
  - destruct documents as [|c documents]; [discriminate|].
    simpl in Hload. injection Hload as Hi Hrest. rewrite Hi. simpl.
    pose proof (NoDup_remove_2 _ _ _ Hnd) as Hfresh.
    rewrite dict_set_fresh
      by (intros Hin; apply Hfresh; apply in_or_app; now left).
    rewrite (IH documents).
    + now rewrite <- app_assoc.
    + unfold dict_keys. rewrite map_app. simpl. rewrite <- app_assoc. exact Hnd.
    + exact Hrest.
Qed.

Lemma load_contexts_in_order load ids documents :
  NoDup ids ->
  map load ids = map ok documents ->
  load_contexts load ids = ok (combine ids documents)
  /\ map snd (combine ids documents) = documents.
Proof.
  intros Hnd Hload. split.
  - unfold load_contexts. now rewrite (load_contexts_from load ids documents).
  - assert (Hlen : length ids = length documents).
    { rewrite <- (length_map load ids), Hload. apply length_map. }
    clear Hload Hnd. revert documents Hlen.
    induction ids as [|i ids IH]; intros [|c documents] Hlen;
      simpl in *; try discriminate; [reflexivity|].
    f_equal. apply IH. now injection Hlen.
Qed.

(** C6. Brand voice, last writer wins: when the documents named by a request
    are loaded in the order of its identifiers (none repeated) and composed,
    the card's [brand_voice] is the one of the last document, in that order,
    that defines the field; when no document defines it the card has no such
    field. *)
Theorem brand_voice_last_writer_wins :
  forall (load : string -> result pyobj) (product_specs : dict atom)
         (context_ids : list string) (documents : list pyobj),
    NoDup context_ids ->
    map load context_ids = map ok documents ->
    forallb well_formed_document documents = true ->
    exists contexts card,
      load_contexts load context_ids = inr contexts
      /\ map snd contexts = documents
      /\ compose_context_card product_specs contexts = inr card
      /\ dict_get "brand_voice" card = last_brand_voice documents
      /\ (forallb (fun c => negb (defines_voice c)) documents = true ->
          dict_mem "brand_voice" card = false).
Proof.
  intros load specs ids docs Hnd Hload Hwf.
  destruct (load_contexts_in_order load ids docs Hnd Hload) as [Hctx Hsnd].
  exists (combine ids docs). eexists. split; [exact Hctx|]. split; [exact Hsnd|].
  split.
  - apply compose_context_card_returns. now rewrite Hsnd.
  - rewrite Hsnd, voice_after_last.
    assert (Hget : dict_get "brand_voice"
                     (card_of (product_attributes specs) (all_rules docs)
                        (last_brand_voice docs)) = last_brand_voice docs)
      by apply card_voice.
    split; [exact Hget|].
    intros Hnone. unfold dict_mem. rewrite Hget.
    unfold last_brand_voice.
    destruct (find defines_voice (rev docs)) as [c|] eqn:Hf; [|reflexivity].
    apply find_some in Hf as [Hin Hdef].
    rewrite forallb_forall in Hnone. apply in_rev in Hin.
    specialize (Hnone c Hin). rewrite Hdef in Hnone. discriminate.
Qed.

(** C7. Rules are concatenated, never merged: the card's [rules] is the
    concatenation, document after document and rule after rule, of the
    entries of every document's [rules] list; each entry carries [id] and
    [text] as found ([None] when null or absent) and [mandatory] false when
    absent; its length is the total number of rules supplied, so a rule
    identifier defined twice appears twice. *)
Theorem rules_concatenated_in_order :
  forall (product_specs : dict atom) (contexts : dict pyobj),
    forallb well_formed_document (map snd contexts) = true ->
    exists card,
      compose_context_card product_specs contexts = inr card
      /\ dict_get "rules" card
         = Some (VList (flat_map
                          (fun content =>
                             map rule_entry (document_rules content))
                          (map snd contexts)))
      /\ length (all_rules (map snd contexts))
         = list_sum (map (fun content => length (document_rules content))
                         (map snd contexts)).
Proof.
  intros specs contexts Hwf. eexists. split.
  - now apply compose_context_card_returns.
  - split; [apply card_rules|].
    unfold all_rules. clear Hwf.
    induction (map snd contexts) as [|c l IH]; simpl.
    + reflexivity.
    + rewrite length_app, length_map. now rewrite IH.
Qed.

Lemma embedded_keys (l : dict atom) :
  dict_keys (map (fun kv => (fst kv, VAtom (snd kv))) l) = dict_keys l.
Proof.
  induction l as [|[k a] l IH]; simpl; [reflexivity|]. now rewrite IH.
Qed.

Lemma non_null_attributes_keys product_specs k :
  In k (dict_keys (non_null_attributes product_specs)) ->
  In k (dict_keys product_specs).
Proof.
  unfold non_null_attributes.
  rewrite (embedded_keys (filter (fun kv => pd_notna (snd kv)) product_specs)).
  apply (filter_keys_incl (fun kv => pd_notna (snd kv))).
Qed.

Lemma product_attributes_unique product_specs :
  NoDup (dict_keys product_specs) ->
  product_attributes product_specs = non_null_attributes product_specs.
Proof.
  intros Hnd. unfold product_attributes. apply dict_of_items_unique.
  unfold non_null_attributes.
  rewrite (embedded_keys (filter (fun kv => pd_notna (snd kv)) product_specs)).
  now apply (filter_keys_unique (fun kv => pd_notna (snd kv))).
Qed.

Lemma non_null_attributes_get product_specs k :
  NoDup (dict_keys product_specs) ->
  dict_get k (non_null_attributes product_specs)
  = match dict_get k product_specs with
    | Some a => if pd_notna a then Some (VAtom a) else None
    | None => None
    end.
Proof.
  induction product_specs as [|[k0 a0] specs IH]; intros Hnd; [reflexivity|].
  inversion Hnd as [|? ? Hfresh Hnd']; subst. specialize (IH Hnd').
  assert (Habs : k = k0 -> dict_get k (non_null_attributes specs) = None).
  { intros ->. apply dict_get_absent. intros Hin. apply Hfresh.
    now apply non_null_attributes_keys. }
  unfold non_null_attributes in *. simpl.
  destruct (pd_notna a0) eqn:Hn; simpl;
    destruct (String.eqb k k0) eqn:E; rewrite ?Hn; auto.
  apply Habs. now apply String.eqb_eq.
Qed.

(** C8. Null filtering: the card's [product_attributes] holds exactly the
    attributes of the product specification whose value is not null, in the
    same order, under the same names and with the same values; looking up a
    name whose value is null (or that is absent) finds nothing. *)
Theorem product_attributes_non_null :
  forall (product_specs : dict atom) (contexts : dict pyobj),
    NoDup (dict_keys product_specs) ->
    forallb well_formed_document (map snd contexts) = true ->
    exists card attrs,
      compose_context_card product_specs contexts = inr card
      /\ dict_get "product_attributes" card = Some (VDict attrs)
      /\ attrs = map (fun kv => (fst kv, VAtom (snd kv)))
                     (filter (fun kv => pd_notna (snd kv)) product_specs)
      /\ forall k,
           dict_get k attrs
           = match dict_get k product_specs with
             | Some a => if pd_notna a then Some (VAtom a) else None
             | None => None
             end.
Proof.
  intros specs contexts Hnd Hwf.
  exists (card_of (non_null_attributes specs) (all_rules (map snd contexts))
            (voice_after None (map snd contexts))).
  exists (non_null_attributes specs).
  split; [|split; [|split]].
  - rewrite <- product_attributes_unique by exact Hnd.
    now apply compose_context_card_returns.
  - apply card_attributes.
  - reflexivity.
  - intros k. now apply non_null_attributes_get.
Qed.

(** ** The fence pattern *)

Lemma prefix_length p : forall s,
  prefix p s = true -> String.length p <= String.length s.
Proof.
  induction p as [|a p IH]; intros s H; simpl; [lia|].
  destruct s as [|b s]; simpl in H; [discriminate|].
  destruct (ascii_dec a b); [|discriminate].
  apply IH in H. simpl. lia.
Qed.

Lemma prefix_refl p : prefix p p = true.
Proof.
  induction p as [|a p IH]; simpl; [reflexivity|].
  destruct (ascii_dec a a); [exact IH | congruence].
Qed.

Lemma greedy_until_short close : forall s,
  String.length s < String.length close -> greedy_until close s = None.
Proof.
  induction s as [|c s IH]; intros Hlen.
  - destruct close; [simpl in Hlen; lia | reflexivity].
  - simpl in Hlen. cbn [greedy_until]. rewrite IH by lia.
    destruct (prefix close (String c s)) eqn:Hp; [|reflexivity].
    apply prefix_length in Hp. simpl in Hp. lia.
Qed.

(** The greedy group runs up to the last closing fence: when the text ends
    with one, the group is everything before it. *)
Lemma greedy_until_closing close J :
  close <> EmptyString -> greedy_until close (J ++ close) = Some J.
Proof.
  intros Hne. induction J as [|c J IH].
  - destruct close as [|c s]; [congruence|].
    change (EmptyString ++ String c s)%string with (String c s).
    cbn [greedy_until]. rewrite greedy_until_short by (simpl; lia).
    now rewrite prefix_refl.
  - change (String c J ++ close)%string with (String c (J ++ close)).
    cbn [greedy_until]. now rewrite IH.
Qed.

Lemma strip_prefix_app p s : strip_prefix p (p ++ s) = Some s.
Proof.
  induction p as [|a p IH]; simpl; [now destruct s|].
  now rewrite Ascii.eqb_refl.
Qed.

Lemma re_search_fence_here s g :
  match_fence_here s = Some g -> re_search_fence s = Some g.
Proof. intros H. destruct s; cbn [re_search_fence]; now rewrite H. Qed.

Lemma re_search_fence_fenced J :
  re_search_fence (fence_open ++ J ++ fence_close) = Some J.
Proof.
  apply re_search_fence_here. unfold match_fence_here.
  rewrite strip_prefix_app. now apply greedy_until_closing.
Qed.

Lemma fenced_text_not_blank J :
  str_truthy (strip (fence_open ++ J ++ fence_close)) = true.
Proof.
  unfold strip. change (fence_open ++ J ++ fence_close)%string
    with (String "`"%char ("``json" ++ nl ++ J ++ fence_close)).
  cbn [lstrip]. change (is_space "`"%char) with false. cbv iota.
  cbn [rstrip]. change (is_space "`"%char) with false.
  now destruct (rstrip _).
Qed.

(** ** The model gateway *)

Lemma FinishReason_eqb_STOP r : FinishReason_eqb r STOP = true <-> r = STOP.
Proof. destruct r; compute; split; congruence. Qed.

Section Gateway.

Context {platform : Platform}.

Lemma parse_no_candidates r :
  candidates r = [] ->
  parse_response r
  = ok (VDict [ ("error", VStr "No candidates returned from model.");
                ("details", VStr "The model response was empty.") ]).
Proof. intros H. unfold parse_response. now rewrite H. Qed.

Lemma parse_premature_stop r first rest :
  candidates r = first :: rest ->
  finish_reason first <> STOP ->
  parse_response r
  = ok (VDict
          [ ("error", VStr "Model generation stopped prematurely.");
            ("details",
             VStr ("Finish Reason: " ++ FinishReason_name (finish_reason first)
                   ++ ". This might be due to safety settings or an issue with the input."));
            ("safety_ratings", VStr (safety_ratings first)) ]).
Proof.
  intros H Hstop. unfold parse_response. rewrite H.
  destruct (FinishReason_eqb (finish_reason first) STOP) eqn:E; [|reflexivity].
  apply FinishReason_eqb_STOP in E. contradiction.
Qed.

Lemma parse_unreadable_text r first rest e :
  candidates r = first :: rest ->
  finish_reason first = STOP ->
  text r = inl e ->
  parse_response r = raise (ValueError e).
Proof.
  intros H Hstop Hraw. unfold parse_response, response_text.
  rewrite H, Hstop, Hraw. reflexivity.
Qed.

Lemma parse_empty_text r first rest raw :
  candidates r = first :: rest ->
  finish_reason first = STOP ->
  text r = inr raw ->
  str_truthy (strip raw) = false ->
  parse_response r
  = ok (VDict
          [ ("error", VStr "Model returned an empty text response.");
            ("details",
             VStr "This could be due to safety filters or a malformed prompt.") ]).
Proof.
  intros H Hstop Hraw Hblank. unfold parse_response, response_text.
  rewrite H, Hstop, Hraw. cbn [bind ok]. rewrite Hblank. reflexivity.
Qed.

Lemma parse_text r first rest raw :
  candidates r = first :: rest ->
  finish_reason first = STOP ->
  text r = inr raw ->
  str_truthy (strip raw) = true ->
  parse_response r
  = match json_loads (extract_json raw) with
    | inl e =>
        ok (VDict [ ("error", VStr "Failed to parse model response.");
                    ("details", VStr e);
                    ("raw_text", VStr raw) ])
    | inr parsed_response =>
        py_setitem parsed_response "diagnostics"
          (VDict [("model", VStr model_name)])
    end.
Proof.
  intros H Hstop Hraw Htext. unfold parse_response, response_text.
  rewrite H, Hstop, Hraw. cbn [bind ok]. rewrite Htext. reflexivity.
Qed.

(** The checks of the gateway, in their order. *)
Lemma parse_response_cascade r :
  match candidates r with
  | [] =>
      parse_response r
      = ok (VDict [ ("error", VStr "No candidates returned from model.");
                    ("details", VStr "The model response was empty.") ])
  | first :: _ =>
      if negb (FinishReason_eqb (finish_reason first) STOP)
      then exists details,
          parse_response r
          = ok (VDict
                  [ ("error", VStr "Model generation stopped prematurely.");
                    ("details", VStr details);
                    ("safety_ratings", VStr (safety_ratings first)) ])
          /\ is_substring (FinishReason_name (finish_reason first)) details
             = true
      else match text r with
           | inl e => parse_response r = raise (ValueError e)
           | inr raw =>
               if negb (str_truthy (strip raw))
               then parse_response r
                    = ok (VDict
                            [ ("error",
                               VStr "Model returned an empty text response.");
                              ("details",
                               VStr "This could be due to safety filters or a malformed prompt.") ])
               else match json_loads (extract_json raw) with
                    | inl e =>
                        parse_response r
                        = ok (VDict
                                [ ("error",
                                   VStr "Failed to parse model response.");
                                  ("details", VStr e);
                                  ("raw_text", VStr raw) ])
                    | inr (VDict m) =>
                        parse_response r
                        = ok (VDict (dict_set "diagnostics"
                                       (VDict [("model", VStr model_name)]) m))
                    | inr _ => parse_response r = raise TypeError
                    end
           end
  end.
Proof.
  unfold parse_response, response_text.
  destruct (candidates r) as [|first rest]; [reflexivity|].
  destruct (negb (FinishReason_eqb (finish_reason first) STOP)).
  - eexists. split; [reflexivity|]. now destruct (finish_reason first).
  - destruct (text r) as [e|raw]; [reflexivity|]. cbn [bind ok].
    destruct (negb (str_truthy (strip raw))); [reflexivity|].
    destruct (json_loads (extract_json raw)) as [e|[a|l|m]]; reflexivity.
Qed.

(** A first candidate stopped by the safety filter: the failure names the
    reason and carries the ratings, whatever text came with it. *)
Example premature_stop_safety ratings rest body :
  parse_response
    {| candidates := {| finish_reason := SAFETY; safety_ratings := ratings |}
                     :: rest;
       text := body |}
  = ok (VDict
          [ ("error", VStr "Model generation stopped prematurely.");
            ("details",
             VStr "Finish Reason: SAFETY. This might be due to safety settings or an issue with the input.");
            ("safety_ratings", VStr ratings) ]).
Proof. reflexivity. Qed.

(** C4. Extraction with and without a fence: for the text [J] of a JSON
    object that holds no fenced block itself, the answer [J] wrapped in a
    json fence and the answer [J] alone give the gateway the same text to
    parse, namely [J], and so the same mapping, the one [json.loads] gives
    for [J] with the model name attached; in general the interior of the
    fence is parsed when the search finds one, the whole text otherwise. *)
Theorem fenced_and_bare_json_parse_alike :
  forall (J : string) (m : dict pyobj) (first : Candidate)
         (rest : list Candidate),
    json_loads J = inr (VDict m) ->
    str_truthy (strip J) = true ->
    re_search_fence J = None ->
    finish_reason first = STOP ->
    let fenced := {| candidates := first :: rest;
                     text := inr (fence_open ++ J ++ fence_close)%string |} in
    let bare := {| candidates := first :: rest; text := inr J |} in
    extract_json (fence_open ++ J ++ fence_close) = J
    /\ extract_json J = J
    /\ parse_response fenced = parse_response bare
    /\ parse_response bare
       = inr (VDict (dict_set "diagnostics"
                       (VDict [("model", VStr model_name)]) m))
    /\ (forall raw interior,
          re_search_fence raw = Some interior -> extract_json raw = interior)
    /\ (forall raw, re_search_fence raw = None -> extract_json raw = raw).
Proof.
  intros J m first rest Hloads Htext Hbare Hstop fenced bare.
  assert (Hf : extract_json (fence_open ++ J ++ fence_close) = J).
  { unfold extract_json. now rewrite re_search_fence_fenced. }
  assert (Hb : extract_json J = J).
  { unfold extract_json. now rewrite Hbare. }
  assert (Hpf : parse_response fenced
                = inr (VDict (dict_set "diagnostics"
                                (VDict [("model", VStr model_name)]) m))).
  { rewrite (parse_text fenced first rest (fence_open ++ J ++ fence_close)
               eq_refl Hstop eq_refl (fenced_text_not_blank J)).
    now rewrite Hf, Hloads. }
  assert (Hpb : parse_response bare
                = inr (VDict (dict_set "diagnostics"
                                (VDict [("model", VStr model_name)]) m))).
  { rewrite (parse_text bare first rest J eq_refl Hstop eq_refl Htext).
    now rewrite Hb, Hloads. }
  repeat split; try assumption.
  - now rewrite Hpf, Hpb.
  - intros raw interior H. unfold extract_json. now rewrite H.
  - intros raw H. unfold extract_json. now rewrite H.
Qed.

(** C5, the case the gateway misses.  When the answer passes the three
    checks and its text is JSON for something other than an object (an
    array, a string, a number, null), no failure dictionary is returned:
    attaching the model name raises [TypeError], which the handler of
    line 120 does not catch. *)
Theorem parse_non_object_raises :
  forall (r : GenerationResponse) (first : Candidate) (rest : list Candidate)
         (raw : string) (parsed : pyobj),
    candidates r = first :: rest ->
    finish_reason first = STOP ->
    text r = inr raw ->
    str_truthy (strip raw) = true ->
    json_loads (extract_json raw) = inr parsed ->
    is_mapping parsed = false ->
    parse_response r = inl TypeError.
Proof.
  intros r first rest raw parsed Hc Hstop Hraw Htext Hloads Hnot.
  rewrite (parse_text r first rest raw Hc Hstop Hraw Htext), Hloads.
  destruct parsed; [reflexivity | reflexivity | discriminate].
Qed.

End Gateway.

(** ** Schema validation *)

Section Validation.

Context {pydantic : Pydantic}.

Lemma both_inr {A B} (x : checked A) (y : checked B) a b :
  both x y = inr (a, b) -> x = inr a /\ y = inr b.
Proof. destruct x, y; simpl; intros H; inversion H; auto. Qed.

Lemma settled_both {A B} b1 b2 (x : checked A) (y : checked B) :
  settled b1 x -> settled b2 y -> settled (b1 && b2) (both x y).
Proof.
  unfold settled. destruct b1, b2; simpl.
  - intros [a ->] [b ->]. now exists (a, b).
  - intros [a ->] [e [Hne ->]]. now exists e.
  - intros [e [Hne ->]] [b ->]. now exists e.
  - intros [e1 [Hne ->]] [e2 [_ ->]]. exists (e1 ++ e2). split; [|reflexivity].
    destruct e1; [congruence | discriminate].
Qed.

Lemma reports_both_l {A B} p (x : checked A) (y : checked B) :
  reports p x -> reports p (both x y).
Proof.
  intros [e [-> Hin]]. destruct y as [e2|b]; simpl.
  - exists (e ++ e2). split; [reflexivity|]. apply in_or_app. now left.
  - now exists e.
Qed.

Lemma reports_both_r {A B} p (x : checked A) (y : checked B) :
  reports p y -> reports p (both x y).
Proof.
  intros [e [-> Hin]]. destruct x as [e1|a]; simpl.
  - exists (e1 ++ e). split; [reflexivity|]. apply in_or_app. now right.
  - now exists e.
Qed.

Lemma settled_str at_ v : settled (is_str_value v) (as_str at_ v).
Proof.
  unfold settled, is_str_value, as_str. destruct (validate_str v); simpl; eauto.
  eexists. split; [|reflexivity]. discriminate.
Qed.

Lemma settled_int at_ v : settled (is_int_value v) (as_int at_ v).
Proof.
  unfold settled, is_int_value, as_int. destruct (validate_int v); simpl; eauto.
  eexists. split; [|reflexivity]. discriminate.
Qed.

Lemma settled_float at_ v : settled (is_float_value v) (as_float at_ v).
Proof.
  unfold settled, is_float_value, as_float.
  destruct (validate_float v); simpl; eauto.
  eexists. split; [|reflexivity]. discriminate.
Qed.

Lemma settled_dict at_ v : settled (mapping_with (fun _ => true) v) (as_dict at_ v).
Proof.
  unfold settled, mapping_with, as_dict. destruct (validate_dict v); simpl; eauto.
  eexists. split; [|reflexivity]. discriminate.
Qed.

Lemma settled_required {A} check (validator : loc -> pyobj -> checked A) :
  (forall at_ v, settled (check v) (validator at_ v)) ->
  forall at_ fields name,
    settled (has_field fields name check) (required at_ fields name validator).
Proof.
  intros H at_ fields name. unfold has_field, required.
  destruct (dict_get name fields); [apply H|].
  simpl. eexists. split; [|reflexivity]. discriminate.
Qed.

Lemma settled_each_item {A} check (validator : loc -> pyobj -> checked A) :
  (forall at_ v, settled (check v) (validator at_ v)) ->
  forall xs at_ i, settled (forallb check xs) (each_item validator at_ i xs).
Proof.
  intros H xs at_. induction xs as [|x xs IH]; intros i; simpl.
  - now exists [].
  - pose proof (settled_both _ _ _ _ (H (at_ ++ [Index i]) x) (IH (S i))) as Hs.
    unfold settled in *.
    destruct (check x && forallb check xs).
    + destruct Hs as [[a rest] ->]. eauto.
    + destruct Hs as [e [Hne ->]]. eauto.
Qed.

Lemma settled_list_of {A} check (validator : loc -> pyobj -> checked A) :
  (forall at_ v, settled (check v) (validator at_ v)) ->
  forall at_ v, settled (sequence_of check v) (as_list_of validator at_ v).
Proof.
  intros H at_ v. unfold sequence_of, as_list_of.
  destruct (validate_list v); [now apply settled_each_item|].
  simpl. eexists. split; [|reflexivity]. discriminate.
Qed.

Lemma settled_each_entry {A} check (validator : loc -> pyobj -> checked A) :
  (forall at_ v, settled (check v) (validator at_ v)) ->
  forall d at_,
    settled (forallb (fun kv => check (snd kv)) d) (each_entry validator at_ d).
Proof.
  intros H d at_. induction d as [|[k x] d IH]; simpl.
  - now exists [].
  - pose proof (settled_both _ _ _ _ (H (at_ ++ [Key k]) x) IH) as Hs.
    unfold settled in *.
    destruct (check x && forallb (fun kv => check (snd kv)) d).
    + destruct Hs as [[a rest] ->]. eauto.
    + destruct Hs as [e [Hne ->]]. eauto.
Qed.

Lemma settled_dict_of {A} check (validator : loc -> pyobj -> checked A) :
  (forall at_ v, settled (check v) (validator at_ v)) ->
  forall at_ v, settled (mapping_of check v) (as_dict_of validator at_ v).
Proof.
  intros H at_ v. unfold mapping_of, mapping_with, as_dict_of.
  destruct (validate_dict v); [now apply settled_each_entry|].
  simpl. eexists. split; [|reflexivity]. discriminate.
Qed.

Lemma settled_model {A} check (init : loc -> dict pyobj -> checked A) :
  (forall at_ fields, settled (check fields) (init at_ fields)) ->
  forall at_ v, settled (mapping_with check v) (as_model init at_ v).
Proof.
  intros H at_ v. unfold mapping_with, as_model.
  destruct (validate_dict v); [apply H|].
  simpl. eexists. split; [|reflexivity]. discriminate.
Qed.

(** A constructor that pairs up its fields is settled when the pair is. *)
Ltac settle_record Hs :=
  match goal with
  | |- settled ?b _ =>
      match type of Hs with
      | settled _ ?c =>
          let H := fresh "H" in
          assert (H : settled b c) by exact Hs;
          clear Hs; unfold settled in H |- *;
          destruct b;
          [ destruct H as [? H]; rewrite H;
            repeat match goal with
                   | p : (_ * _)%type |- _ => destruct p
                   end; eauto
          | destruct H as [? [? H]]; rewrite H; eauto ]
      end
  end.

Lemma settled_Grounding at_ fields :
  settled (has_field fields "citations" (sequence_of is_str_value)
           && has_field fields "visual_refs" (sequence_of is_str_value))
          (Grounding_init at_ fields).
Proof.
  pose proof (settled_both _ _ _ _
    (settled_required _ _ (settled_list_of _ _ settled_str) at_ fields "citations")
    (settled_required _ _ (settled_list_of _ _ settled_str) at_ fields "visual_refs"))
    as Hs.
  unfold Grounding_init. settle_record Hs.
Qed.

Lemma settled_Attribute at_ fields :
  settled (has_field fields "value" is_str_value
           && has_field fields "source" is_str_value)
          (Attribute_init at_ fields).
Proof.
  pose proof (settled_both _ _ _ _
    (settled_required _ _ settled_str at_ fields "value")
    (settled_required _ _ settled_str at_ fields "source")) as Hs.
  unfold Attribute_init. settle_record Hs.
Qed.

Lemma settled_Structured at_ fields :
  settled (has_field fields "attributes" (mapping_of attribute_ok)
           && has_field fields "compliance"
                (mapping_of (mapping_with (fun _ => true))))
          (Structured_init at_ fields).
Proof.
  pose proof (settled_both _ _ _ _
    (settled_required _ _
       (settled_dict_of _ _ (settled_model _ _ settled_Attribute))
       at_ fields "attributes")
    (settled_required _ _ (settled_dict_of _ _ settled_dict)
       at_ fields "compliance")) as Hs.
  unfold Structured_init. settle_record Hs.
Qed.

Lemma settled_Diagnostics at_ fields :
  settled (has_field fields "latency" is_float_value
           && (has_field fields "model" is_str_value
               && has_field fields "tokens" is_int_value))
          (Diagnostics_init at_ fields).
Proof.
  pose proof (settled_both _ _ _ _
    (settled_required _ _ settled_float at_ fields "latency")
    (settled_both _ _ _ _
       (settled_required _ _ settled_str at_ fields "model")
       (settled_required _ _ settled_int at_ fields "tokens"))) as Hs.
  unfold Diagnostics_init. settle_record Hs.
Qed.

(** The constructor accepts exactly the mappings that satisfy the schema. *)
Lemma settled_AnalyzeResponse kwargs :
  settled (schema_ok kwargs) (AnalyzeResponse_init kwargs).
Proof.
  pose proof (settled_both _ _ _ _
    (settled_required _ _ settled_str [] kwargs "answer")
    (settled_both _ _ _ _
       (settled_required _ _ (settled_model _ _ settled_Grounding)
          [] kwargs "grounding")
       (settled_both _ _ _ _
          (settled_required _ _ (settled_model _ _ settled_Structured)
             [] kwargs "structured")
          (settled_required _ _ (settled_model _ _ settled_Diagnostics)
             [] kwargs "diagnostics")))) as Hs.
  unfold AnalyzeResponse_init. settle_record Hs.
Qed.

End Validation.

(** ** The handler: diagnostics and validation *)

Section Handler.

Context {platform : Platform} {pydantic : Pydantic}.

Lemma required_inv {A} at_ fields name
  (validator : loc -> pyobj -> checked A) a :
  required at_ fields name validator = inr a ->
  exists v, dict_get name fields = Some v
            /\ validator (at_ ++ [Key name]) v = inr a.
Proof.
  unfold required. destruct (dict_get name fields) as [v|]; [|discriminate].
  intros H. now exists v.
Qed.

Lemma as_model_inv {A} (init : loc -> dict pyobj -> checked A) at_ v a :
  as_model init at_ v = inr a ->
  exists fields, validate_dict v = Some fields /\ init at_ fields = inr a.
Proof.
  unfold as_model. destruct (validate_dict v) as [fields|]; [|discriminate].
  intros H. now exists fields.
Qed.

Lemma AnalyzeResponse_init_inv kwargs r :
  AnalyzeResponse_init kwargs = inr r ->
  required [] kwargs "answer" as_str = inr (answer r)
  /\ required [] kwargs "grounding" (as_model Grounding_init)
     = inr (grounding r)
  /\ required [] kwargs "structured" (as_model Structured_init)
     = inr (structured r)
  /\ required [] kwargs "diagnostics" (as_model Diagnostics_init)
     = inr (diagnostics r).
Proof.
  unfold AnalyzeResponse_init.
  destruct (both _ _) as [e|[a [g [s d]]]] eqn:E; [discriminate|].
  intros H. inversion H; subst; clear H. simpl.
  apply both_inr in E as [Ha E]. apply both_inr in E as [Hg E].
  apply both_inr in E as [Hs Hd]. auto.
Qed.

Lemma Structured_init_inv at_ fields s :
  Structured_init at_ fields = inr s ->
  required at_ fields "attributes" (as_dict_of (as_model Attribute_init))
  = inr (attributes s)
  /\ required at_ fields "compliance" (as_dict_of as_dict)
     = inr (compliance s).
Proof.
  unfold Structured_init.
  destruct (both _ _) as [e|[a c]] eqn:E; [discriminate|].
  intros H. inversion H; subst; clear H. simpl. now apply both_inr in E.
Qed.

Lemma Diagnostics_init_inv at_ fields d :
  Diagnostics_init at_ fields = inr d ->
  required at_ fields "latency" as_float = inr (latency d)
  /\ required at_ fields "model" as_str = inr (model d)
  /\ required at_ fields "tokens" as_int = inr (tokens d).
Proof.
  unfold Diagnostics_init.
  destruct (both _ _) as [e|[l [m t]]] eqn:E; [discriminate|].
  intros H. inversion H; subst; clear H. simpl.
  apply both_inr in E as [Hl E]. apply both_inr in E as [Hm Ht]. auto.
Qed.

(** Lines 95-100 on a mapping whose diagnostics, if any, is a mapping. *)
Lemma add_diagnostics_usable m elapsed :
  diagnostics_usable m ->
  add_diagnostics (VDict m) elapsed
  = ok (VDict (dict_set "diagnostics"
                 (VDict (with_latency_and_tokens (diagnostics_of m)
                           (round elapsed 2)))
                 m)).
Proof.
  intros Hu. unfold add_diagnostics, diagnostics_of, with_latency_and_tokens.
  unfold py_in at 1. cbn [bind ok]. unfold dict_mem at 1.
  destruct Hu as [Hnone | [d Hd]].
  - rewrite Hnone. cbn [py_setitem bind ok py_getitem].
    rewrite dict_get_set_same. cbn [py_setitem bind ok py_in].
    destruct (dict_mem "tokens" (dict_set "latency" _ [])); cbn [bind ok py_setitem];
      now rewrite dict_set_set.
  - rewrite Hd. cbn [bind ok py_getitem]. rewrite Hd.
    cbn [py_setitem bind ok py_in].
    destruct (dict_mem "tokens" (dict_set "latency" _ d)); reflexivity.
Qed.

Lemma validate_response_usable m elapsed :
  diagnostics_usable m ->
  validate_response (VDict m) elapsed
  = match AnalyzeResponse_init
            (dict_set "diagnostics"
               (VDict (with_latency_and_tokens (diagnostics_of m)
                         (round elapsed 2)))
               m) with
    | inr validated_response => ok validated_response
    | inl e => raise (HTTPException 500 (InvalidDataFormat e))
    end.
Proof.
  intros Hu. unfold validate_response. now rewrite add_diagnostics_usable.
Qed.

Lemma with_latency_and_tokens_latency d seconds :
  dict_get "latency" (with_latency_and_tokens d seconds)
  = Some (VFloat seconds).
Proof.
  unfold with_latency_and_tokens.
  destruct (dict_mem "tokens" _).
  - apply dict_get_set_same.
  - rewrite dict_get_set_other by discriminate. apply dict_get_set_same.
Qed.

Lemma with_latency_and_tokens_tokens d seconds :
  dict_get "tokens" (with_latency_and_tokens d seconds)
  = match dict_get "tokens" d with
    | Some t => Some t
    | None => Some (VInt 0)
    end.
Proof.
  unfold with_latency_and_tokens, dict_mem.
  rewrite (dict_get_set_other "tokens" "latency") by discriminate.
  destruct (dict_get "tokens" d) eqn:Ht.
  - rewrite dict_get_set_other by discriminate. exact Ht.
  - apply dict_get_set_same.
Qed.

Lemma with_latency_and_tokens_other d seconds k :
  k <> "latency" -> k <> "tokens" ->
  dict_get k (with_latency_and_tokens d seconds) = dict_get k d.
Proof.
  intros Hl Ht. unfold with_latency_and_tokens.
  destruct (dict_mem "tokens" _); rewrite ?(dict_get_set_other k "tokens") by exact Ht;
    now apply dict_get_set_other.
Qed.

(** C3. Diagnostics injection: on a parsed model output whose [diagnostics],
    if there is one, is a mapping, the validation step leaves the output as
    it is except for [diagnostics], which it creates when absent; there it
    sets [latency] to the elapsed time rounded to 2 decimals, sets [tokens]
    to 0 when [tokens] is absent and leaves it alone otherwise, and touches
    no other key; a response that validates carries that latency. *)
Theorem diagnostics_injected :
  forall (m : dict pyobj) (elapsed : spec_float),
    diagnostics_usable m ->
    exists d',
      add_diagnostics (VDict m) elapsed
      = inr (VDict (dict_set "diagnostics" (VDict d') m))
      /\ dict_get "latency" d' = Some (VFloat (round elapsed 2))
      /\ (dict_get "tokens" (diagnostics_of m) = None ->
          dict_get "tokens" d' = Some (VInt 0))
      /\ (forall t, dict_get "tokens" (diagnostics_of m) = Some t ->
                    dict_get "tokens" d' = Some t)
      /\ (forall k, k <> "latency" -> k <> "tokens" ->
                    dict_get k d' = dict_get k (diagnostics_of m))
      /\ (forall r, validate_response (VDict m) elapsed = inr r ->
                    latency (diagnostics r) = round elapsed 2).
Proof.
  intros m elapsed Hu.
  exists (with_latency_and_tokens (diagnostics_of m) (round elapsed 2)).
  split; [now apply add_diagnostics_usable|].
  split; [apply with_latency_and_tokens_latency|].
  split; [intros H; now rewrite with_latency_and_tokens_tokens, H|].
  split; [intros t H; now rewrite with_latency_and_tokens_tokens, H|].
  split; [intros k Hl Ht; now apply with_latency_and_tokens_other|].
  intros r. rewrite validate_response_usable by exact Hu.
  destruct (AnalyzeResponse_init _) as [e|r'] eqn:E; [discriminate|].
  intros H. inversion H; subst r'; clear H.
  apply AnalyzeResponse_init_inv in E as (_ & _ & _ & Hd).
  apply required_inv in Hd as (v & Hv & Hd).
  rewrite dict_get_set_same in Hv. inversion Hv; subst v; clear Hv.
  apply as_model_inv in Hd as (fields & Hf & Hd).
  rewrite validate_dict_dict in Hf. inversion Hf; subst fields; clear Hf.
  apply Diagnostics_init_inv in Hd as (Hl & _ & _).
  apply required_inv in Hl as (v & Hv & Hl).
  rewrite with_latency_and_tokens_latency in Hv. inversion Hv; subst v.
  unfold as_float in Hl. rewrite validate_float_float in Hl. now inversion Hl.
Qed.

Lemma has_field_set_other fields k v name check :
  name <> k ->
  has_field (dict_set k v fields) name check = has_field fields name check.
Proof. intros H. unfold has_field. now rewrite dict_get_set_other. Qed.

Lemma body_ok_set_diagnostics m v :
  body_ok (dict_set "diagnostics" v m) = body_ok m.
Proof.
  unfold body_ok. now rewrite !has_field_set_other by discriminate.
Qed.

Lemma schema_ok_body m :
  schema_ok m = body_ok m && has_field m "diagnostics" diagnostics_ok.
Proof. unfold schema_ok, body_ok. now rewrite !andb_assoc. Qed.

Lemma reports_required_missing {A} at_ fields name
  (validator : loc -> pyobj -> checked A) :
  dict_get name fields = None ->
  reports (at_ ++ [Key name], Missing) (required at_ fields name validator).
Proof.
  intros H. unfold required, reports. rewrite H. eexists.
  split; [reflexivity | now left].
Qed.

Lemma reports_Structured_compliance at_ fields :
  dict_get "compliance" fields = None ->
  reports (at_ ++ [Key "compliance"], Missing) (Structured_init at_ fields).
Proof.
  intros H. unfold Structured_init.
  destruct (reports_both_r _
              (required at_ fields "attributes"
                 (as_dict_of (as_model Attribute_init)))
              _ (reports_required_missing at_ fields "compliance"
                   (as_dict_of as_dict) H)) as [e [-> Hin]].
  now exists e.
Qed.

Lemma reports_AnalyzeResponse_structured kwargs p :
  reports p (required [] kwargs "structured" (as_model Structured_init)) ->
  reports p (AnalyzeResponse_init kwargs).
Proof.
  intros H. unfold AnalyzeResponse_init.
  destruct (reports_both_r p (required [] kwargs "answer" as_str) _
              (reports_both_r p
                 (required [] kwargs "grounding" (as_model Grounding_init)) _
                 (reports_both_l p _
                    (required [] kwargs "diagnostics"
                       (as_model Diagnostics_init)) H)))
    as [e [-> Hin]].
  now exists e.
Qed.

(** C2. Schema rejection: the mapping that is validated is the model output
    with its diagnostics completed.  Whenever that mapping misses a required
    field or holds a value of the wrong type ([schema_ok] fails), and so
    whenever the model's own fields [answer], [grounding], [structured] do,
    the validation step raises the HTTP 500 exception with a non-empty list
    of errors and returns no response; it returns one only when the schema
    holds.  A [structured] without [compliance], or no [structured] at all,
    is reported as a missing field at that place.  A response that is
    returned takes its [compliance] from the model output's
    [structured.compliance]: nothing is filled in for it. *)
Theorem schema_violation_is_surfaced :
  forall (m : dict pyobj) (elapsed : spec_float),
    diagnostics_usable m ->
    let validated :=
      dict_set "diagnostics"
        (VDict (with_latency_and_tokens (diagnostics_of m) (round elapsed 2)))
        m in
    add_diagnostics (VDict m) elapsed = inr (VDict validated)
    /\ (schema_ok validated = false ->
        exists e, e <> []
          /\ validate_response (VDict m) elapsed
             = inl (HTTPException 500 (InvalidDataFormat e)))
    /\ (schema_ok validated = true ->
        exists r, validate_response (VDict m) elapsed = inr r)
    /\ (body_ok m = false -> schema_ok validated = false)
    /\ (forall s, dict_get "structured" m = Some (VDict s) ->
                  dict_get "compliance" s = None ->
        exists e,
          validate_response (VDict m) elapsed
          = inl (HTTPException 500 (InvalidDataFormat e))
          /\ In ([Key "structured"; Key "compliance"], Missing) e)
    /\ (dict_get "structured" m = None ->
        exists e,
          validate_response (VDict m) elapsed
          = inl (HTTPException 500 (InvalidDataFormat e))
          /\ In ([Key "structured"], Missing) e)
    /\ (forall r, validate_response (VDict m) elapsed = inr r ->
        exists s fields c,
          dict_get "structured" m = Some s
          /\ validate_dict s = Some fields
          /\ dict_get "compliance" fields = Some c
          /\ as_dict_of as_dict [Key "structured"; Key "compliance"] c
             = inr (compliance (structured r))).
Proof.
  intros m elapsed Hu validated.
  pose proof (validate_response_usable m elapsed Hu) as Hv.
  fold validated in Hv.
  pose proof (settled_AnalyzeResponse validated) as Hs.
  split; [now apply add_diagnostics_usable|].
  split; [|split; [|split; [|split; [|split]]]].
  - intros Hbad. unfold settled in Hs. rewrite Hbad in Hs.
    destruct Hs as [e [Hne He]]. exists e. split; [exact Hne|].
    now rewrite Hv, He.
  - intros Hgood. unfold settled in Hs. rewrite Hgood in Hs.
    destruct Hs as [r Hr]. exists r. now rewrite Hv, Hr.
  - intros Hbody. rewrite schema_ok_body. unfold validated.
    now rewrite body_ok_set_diagnostics, Hbody.
  - intros s Hst Hc.
    assert (Hrep : reports ([Key "structured"; Key "compliance"], Missing)
                     (AnalyzeResponse_init validated)).
    { apply reports_AnalyzeResponse_structured. unfold required, validated.
      rewrite dict_get_set_other by discriminate. rewrite Hst.
      unfold as_model. rewrite validate_dict_dict.
      exact (reports_Structured_compliance [Key "structured"] s Hc). }
    destruct Hrep as [e [He Hin]]. exists e. now rewrite Hv, He.
  - intros Hst.
    assert (Hrep : reports ([Key "structured"], Missing)
                     (AnalyzeResponse_init validated)).
    { apply reports_AnalyzeResponse_structured.
      apply (reports_required_missing [] validated "structured").
      unfold validated. now rewrite dict_get_set_other by discriminate. }
    destruct Hrep as [e [He Hin]]. exists e. now rewrite Hv, He.
  - intros r. rewrite Hv.
    destruct (AnalyzeResponse_init validated) as [e|r'] eqn:E; [discriminate|].
    intros H. inversion H; subst r'; clear H.
    apply AnalyzeResponse_init_inv in E as (_ & _ & Hst & _).
    apply required_inv in Hst as (s & Hget & Hst).
    unfold validated in Hget.
    rewrite dict_get_set_other in Hget by discriminate.
    apply as_model_inv in Hst as (fields & Hf & Hst).
    apply Structured_init_inv in Hst as (_ & Hc).
    apply required_inv in Hc as (c & Hgc & Hc).
    exists s, fields, c. auto.
Qed.

(** ** The handler: the whole request *)

(** What the gateway returns without an [error] key is a parsed object with
    the gateway's own diagnostics. *)
Lemma parse_response_success r v :
  parse_response r = inr v ->
  py_in "error" v = inr false ->
  exists m,
    v = VDict (dict_set "diagnostics" (VDict [("model", VStr model_name)]) m).
Proof.
  unfold parse_response, response_text.
  destruct (candidates r) as [|first rest].
  { intros H. inversion H; subst. discriminate. }
  destruct (negb (FinishReason_eqb (finish_reason first) STOP)).
  { intros H. inversion H; subst. discriminate. }
  destruct (text r) as [e|raw]; [discriminate|]. cbn [bind ok].
  destruct (negb (str_truthy (strip raw))).
  { intros H. inversion H; subst. discriminate. }
  destruct (json_loads (extract_json raw)) as [e|[a|l|m]].
  - intros H. inversion H; subst. discriminate.
  - discriminate.
  - discriminate.
  - intros H _. inversion H; subst. now exists m.
Qed.

(** What the gateway returns comes from parsing a response of the model. *)
Lemma query_gemini_returns image card question v :
  query_gemini image card question = inr v ->
  exists r, parse_response r = inr v.
Proof.
  unfold query_gemini.
  destruct (Part_from_uri image "image/jpeg") as [e|part]; [discriminate|].
  cbn [bind].
  destruct (generate_content model_name part _) as [e|r]; [discriminate|].
  intros H. now exists r.
Qed.

Lemma load_inputs_early request catalog early :
  load_inputs request catalog = inr (inl early) ->
  exists msg, early = ReturnDict (VDict [("error", VStr msg)]).
Proof.
  unfold load_inputs.
  destruct (get_sku_specs (sku request) catalog) as [e|specs]; [discriminate|].
  cbn [bind].
  destruct (negb (atom_truthy _)).
  - intros H. inversion H; subst. eauto.
  - destruct (load_contexts load_context_file (context_ids request));
      discriminate.
Qed.

Lemma validated_gateway_output m elapsed r :
  validate_response
    (VDict (dict_set "diagnostics" (VDict [("model", VStr model_name)]) m))
    elapsed = inr r ->
  tokens (diagnostics r) = 0%Z /\ model (diagnostics r) = model_name.
Proof.
  set (out := dict_set "diagnostics" (VDict [("model", VStr model_name)]) m).
  assert (Hd : dict_get "diagnostics" out
               = Some (VDict [("model", VStr model_name)]))
    by apply dict_get_set_same.
  rewrite validate_response_usable by (right; eauto).
  unfold diagnostics_of. rewrite Hd.
  change (with_latency_and_tokens [("model", VStr model_name)] (round elapsed 2))
    with [("model", VStr model_name); ("latency", VFloat (round elapsed 2));
          ("tokens", VInt 0)].
  destruct (AnalyzeResponse_init _) as [e|r'] eqn:E; [discriminate|].
  intros H. inversion H; subst r'; clear H.
  apply AnalyzeResponse_init_inv in E as (_ & _ & _ & Hdiag).
  apply required_inv in Hdiag as (v & Hv & Hdiag).
  rewrite dict_get_set_same in Hv. inversion Hv; subst v; clear Hv.
  apply as_model_inv in Hdiag as (fields & Hf & Hdiag).
  rewrite validate_dict_dict in Hf. inversion Hf; subst fields; clear Hf.
  apply Diagnostics_init_inv in Hdiag as (_ & Hm & Ht).
  unfold required, as_str, as_int in Hm, Ht. cbn [dict_get String.eqb] in Hm, Ht.
  simpl in Hm, Ht.
  rewrite validate_str_str in Hm. rewrite validate_int_int in Ht.
  inversion Hm. inversion Ht. auto.
Qed.

(** C9. Diagnostics of a successful request: whenever the handler returns a
    validated response, its [diagnostics.tokens] is 0 and its
    [diagnostics.model] is the fixed model identifier, whatever diagnostics
    the model wrote in its answer. *)
Theorem successful_response_diagnostics :
  forall (request : AnalyzeRequest) (elapsed : spec_float)
         (r : AnalyzeResponse),
    analyze request elapsed = inr (ReturnModel r) ->
    tokens (diagnostics r) = 0%Z /\ model (diagnostics r) = "gemini-2.5-flash".
Proof.
  intros request elapsed r. unfold analyze.
  destruct load_spec_catalog as [e|catalog]; [discriminate|]. cbn [bind].
  destruct (load_inputs request catalog)
    as [e|[early|[[specs uri] ctxs]]] eqn:E.
  - destruct e; discriminate.
  - apply load_inputs_early in E as [msg ->]. discriminate.
  - unfold respond.
    destruct (compose_context_card specs ctxs) as [e|card]; [discriminate|].
    cbn [bind].
    destruct (query_gemini uri (VDict card) (question_or_default request))
      as [e|v] eqn:Q; [discriminate|]. cbn [bind].
    apply query_gemini_returns in Q as [answer P].
    destruct (py_in "error" v) as [e|[|]] eqn:I; [discriminate| |]; cbn [bind].
    + destruct (py_get v "error" VNone); [discriminate|]. cbn [bind].
      destruct (py_get v "details" VNone); discriminate.
    + destruct (validate_response v elapsed) as [e|r'] eqn:V; [discriminate|].
      cbn [bind ok]. intros H. inversion H; subst r'; clear H.
      destruct (parse_response_success _ _ P I) as [m ->].
      exact (validated_gateway_output m elapsed r V).
Qed.

Lemma question_or_default_not_empty request :
  question_or_default request <> EmptyString.
Proof.
  unfold question_or_default.
  destruct (question request) as [[|c q]|]; simpl; discriminate.
Qed.

(** The prompt is a frame around the question: the text before the
    question and the text after it depend on the card alone. *)
Lemma append_frame (a x b t : string) :
  x = (b ++ t)%string -> (a ++ x = (a ++ b) ++ t)%string.
Proof. intros ->. induction a; simpl; congruence. Qed.

Lemma append_cancel_l (a x y : string) : (a ++ x = a ++ y)%string -> x = y.
Proof. induction a; simpl; intros H; [exact H | inversion H; auto]. Qed.

Lemma append_length (a b : string) :
  String.length (a ++ b) = String.length a + String.length b.
Proof. induction a; simpl; congruence. Qed.

Lemma append_cancel_r (b x : string) :
  forall y, (x ++ b = y ++ b)%string -> x = y.
Proof.
  induction x as [|c x IH]; intros [|d y] H; simpl in H.
  - reflexivity.
  - apply (f_equal String.length) in H. simpl in H.
    rewrite append_length in H. lia.
  - apply (f_equal String.length) in H. simpl in H.
    rewrite append_length in H. lia.
  - inversion H; subst. f_equal. now apply IH.
Qed.

Ltac frame_question :=
  lazymatch goal with
  | |- (append "    **User Question:** " _ = _) =>
      exact (eq_refl : _ = ("    " ++ _)%string)
  | |- (append _ _ = _) => apply append_frame; frame_question
  end.

Lemma build_prompt_frame context_card :
  exists before after, forall question,
    build_prompt context_card question
    = (before ++ "**User Question:** " ++ dq ++ question ++ dq ++ after)%string.
Proof.
  eexists. eexists. intros question. unfold build_prompt. frame_question.
Qed.

Lemma build_prompt_injective context_card q1 q2 :
  build_prompt context_card q1 = build_prompt context_card q2 -> q1 = q2.
Proof.
  destruct (build_prompt_frame context_card) as (before & after & H).
  rewrite !H. intros E.
  apply append_cancel_l in E. apply append_cancel_l in E.
  apply append_cancel_l in E. now apply append_cancel_r in E.
Qed.

(** Past the composition of the card, the handler is the call of the
    gateway with the request's question, or the default one, followed by
    lines 83-113. *)
Lemma respond_composed request specs image contexts elapsed card :
  compose_context_card specs contexts = inr card ->
  respond request specs image contexts elapsed
  = (model_response <- query_gemini image (VDict card)
                         (question_or_default request) ;;
     failed <- py_in "error" model_response ;;
     if failed : bool
     then
       error <- py_get model_response "error" VNone ;;
       details <- py_get model_response "details" VNone ;;
       raise (HTTPException 500 (ModelQueryFailed error details))
     else
       validated_response <- validate_response model_response elapsed ;;
       ok (ReturnModel validated_response)).
Proof. intros H. unfold respond. now rewrite H. Qed.

(** C10. Empty question: a request whose [question] is absent or is the
    empty string is served with the fixed default question.  The handler
    hands the default question to the gateway, the gateway builds its
    prompt from it, and the model is called with exactly that prompt: what
    the handler does next, it does with the model's answer to the prompt
    that quotes the default question.  The handler behaves as for a
    request that spells the default question out.  Every request is served
    with the question [request.question or default], which is never empty;
    and the prompt quotes the question it is given word for word, so that
    two different questions never give the same prompt. *)
Theorem empty_question_uses_default :
  forall (request : AnalyzeRequest),
    question request = None \/ question request = Some EmptyString ->
    let finish (elapsed : spec_float) (gateway : result pyobj)
      : result returned :=
      model_response <- gateway ;;
      failed <- py_in "error" model_response ;;
      if failed : bool
      then
        error <- py_get model_response "error" VNone ;;
        details <- py_get model_response "details" VNone ;;
        raise (HTTPException 500 (ModelQueryFailed error details))
      else
        validated_response <- validate_response model_response elapsed ;;
        ok (ReturnModel validated_response) in
    question_or_default request
    = "Describe the product based on the image and context."
    /\ (forall image_gcs_uri context_card,
          query_gemini image_gcs_uri context_card (question_or_default request)
          = (image_part <- Part_from_uri image_gcs_uri "image/jpeg" ;;
             match generate_content model_name image_part
                     (build_prompt context_card default_question) with
             | inl e => raise (GoogleAPICallError e)
             | inr response => parse_response response
             end))
    /\ (forall elapsed,
          analyze request elapsed
          = analyze {| sku := sku request;
                       question := Some default_question;
                       context_ids := context_ids request;
                       metadata := metadata request |} elapsed)
    /\ (forall any : AnalyzeRequest, question_or_default any <> EmptyString)
    /\ (forall specs uri contexts card elapsed,
          compose_context_card specs contexts = inr card ->
          respond request specs (AStr uri) contexts elapsed
          = finish elapsed
              match generate_content model_name
                      {| file_uri := uri; mime_type := "image/jpeg" |}
                      (build_prompt (VDict card)
                         "Describe the product based on the image and context.")
              with
              | inl e => raise (GoogleAPICallError e)
              | inr response => parse_response response
              end)
    /\ (forall (any : AnalyzeRequest) specs image contexts card elapsed,
          compose_context_card specs contexts = inr card ->
          respond any specs image contexts elapsed
          = finish elapsed
              (query_gemini image (VDict card) (question_or_default any)))
    /\ (forall context_card, exists before after, forall q,
          build_prompt context_card q
          = (before ++ "**User Question:** " ++ dq ++ q ++ dq ++ after)%string)
    /\ (forall context_card q1 q2,
          build_prompt context_card q1 = build_prompt context_card q2 ->
          q1 = q2).
Proof.
  intros request Hq finish.
  assert (Hd : question_or_default request = default_question).
  { unfold question_or_default. destruct Hq as [-> | ->]; reflexivity. }
  split; [exact Hd|]. split; [|split; [|split; [|split; [|split; [|split]]]]].
  - intros uri card. now rewrite Hd.
  - intros elapsed. unfold analyze, load_inputs, respond. cbn [sku context_ids].
    now rewrite Hd.
  - apply question_or_default_not_empty.
  - intros specs uri ctxs card elapsed Hc.
    rewrite (respond_composed _ _ _ _ _ _ Hc), Hd. reflexivity.
  - intros any specs image ctxs card elapsed Hc.
    now rewrite (respond_composed _ _ _ _ _ _ Hc).
  - apply build_prompt_frame.
  - apply build_prompt_injective.
Qed.

(** A failure reported by the gateway leaves the handler as an HTTP 500
    exception. *)
Lemma gateway_failure_raises request specs uri ctxs elapsed card d :
  compose_context_card specs ctxs = inr card ->
  query_gemini uri (VDict card) (question_or_default request) = inr (VDict d) ->
  dict_mem "error" d = true ->
  respond request specs uri ctxs elapsed
  = inl (HTTPException 500
           (ModelQueryFailed (field_or VNone (dict_get "error" d))
                             (field_or VNone (dict_get "details" d)))).
Proof.
  intros Hc Hq He. unfold respond. rewrite Hc. cbn [bind]. rewrite Hq.
  cbn [bind py_in ok]. rewrite He. unfold py_get.
  destruct (dict_get "error" d), (dict_get "details" d); reflexivity.
Qed.

(** The failures of lines 59-71.  With the catalog loaded, a SKU that is not
    in it, a product specification without an image reference and a context
    document that cannot be loaded each make the handler return a dictionary
    with the single key [error]. *)
Lemma early_failures_return :
  forall (request : AnalyzeRequest) (elapsed : spec_float)
         (catalog : dict (dict atom)),
    load_spec_catalog = inr catalog ->
    (dict_get (sku request) catalog = None ->
     analyze request elapsed
     = inr (ReturnDict
              (VDict [("error",
                       VStr ("SKU '" ++ sku request
                             ++ "' not found in the specification catalog."))])))
    /\ (forall specs,
          dict_get (sku request) catalog = Some specs ->
          atom_truthy (match dict_get "image_gcs_uri" specs with
                       | Some a => a
                       | None => ANone
                       end) = false ->
          analyze request elapsed
          = inr (ReturnDict
                   (VDict [("error",
                            VStr ("Image GCS URI not found for SKU: "
                                  ++ sku request))])))
    /\ (forall specs msg,
          dict_get (sku request) catalog = Some specs ->
          atom_truthy (match dict_get "image_gcs_uri" specs with
                       | Some a => a
                       | None => ANone
                       end) = true ->
          load_contexts load_context_file (context_ids request)
          = inl (FileNotFoundError msg) ->
          analyze request elapsed
          = inr (ReturnDict (VDict [("error", VStr msg)]))).
Proof.
  intros request elapsed catalog Hcat. unfold analyze. rewrite Hcat.
  cbn [bind]. unfold load_inputs, get_sku_specs. split; [|split].
  - intros Hsku. now rewrite Hsku.
  - intros specs Hsku Himg. rewrite Hsku. cbn [bind ok]. now rewrite Himg.
  - intros specs msg Hsku Himg Hload. rewrite Hsku. cbn [bind ok].
    rewrite Himg. cbn [negb]. now rewrite Hload.
Qed.

(** What the gateway hands to the validation step always has a mapping
    as its diagnostics. *)
Lemma gateway_output_usable r v :
  parse_response r = inr v ->
  py_in "error" v = inr false ->
  exists m, v = VDict m /\ diagnostics_usable m.
Proof.
  intros P I. destruct (parse_response_success r v P I) as [m ->].
  eexists. split; [reflexivity|]. right. eexists. apply dict_get_set_same.
Qed.

End Handler.

(** ** The theorems at concrete inputs *)

Module Runs.

Import Demo.

(** Document B defines a brand voice, document A, loaded after it, defines
    another: the card has A's. *)
Lemma brand_voice_last_writer_wins_witness :
  let doc_A := VDict [("brand_voice", VStr "Y")] in
  let doc_B := VDict [("brand_voice", VStr "X"); ("rules", VList [])] in
  let load := fun id => if String.eqb id "A" then ok doc_A else ok doc_B in
  NoDup ["B"; "A"]
  /\ map load ["B"; "A"] = map ok [doc_B; doc_A]
  /\ forallb well_formed_document [doc_B; doc_A] = true
  /\ exists contexts card,
       load_contexts load ["B"; "A"] = inr contexts
       /\ map snd contexts = [doc_B; doc_A]
       /\ compose_context_card [] contexts = inr card
       /\ dict_get "brand_voice" card = Some (VStr "Y")
       /\ (forallb (fun c => negb (defines_voice c)) [doc_B; doc_A] = true ->
           dict_mem "brand_voice" card = false).
Proof.
  intros doc_A doc_B load.
  assert (Hnd : NoDup ["B"; "A"]).
  { constructor; [simpl; intros [H|[]]; discriminate|].
    constructor; [intros []|constructor]. }
  split; [exact Hnd|]. split; [reflexivity|]. split; [reflexivity|].
  exact (brand_voice_last_writer_wins load [] ["B"; "A"] [doc_B; doc_A]
           Hnd eq_refl eq_refl).
Defined.

(** Two documents with the same rule identifier: two entries. *)
Lemma rules_concatenated_in_order_witness :
  let contexts := [("rules_v1", rules_v1); ("rules_v1_copy", rules_v1)] in
  forallb well_formed_document (map snd contexts) = true
  /\ exists card,
       compose_context_card [] contexts = inr card
       /\ dict_get "rules" card
          = Some (VList (flat_map
                           (fun content =>
                              map rule_entry (document_rules content))
                           (map snd contexts)))
       /\ length (all_rules (map snd contexts)) = 2.
Proof.
  intros contexts. split; [reflexivity|].
  exact (rules_concatenated_in_order [] contexts eq_refl).
Defined.

(** The catalog row of SKU1, whose [material] cell is empty. *)
Lemma product_attributes_non_null_witness :
  let specs := [ ("image_gcs_uri", AStr "gs://alara-case-study-bucket/sku1.jpg");
                 ("color", AStr "black");
                 ("material", AFloat S754_nan) ] in
  NoDup (dict_keys specs)
  /\ forallb well_formed_document (map snd [("rules_v1", rules_v1)]) = true
  /\ exists card attrs,
       compose_context_card specs [("rules_v1", rules_v1)] = inr card
       /\ dict_get "product_attributes" card = Some (VDict attrs)
       /\ attrs = [ ("image_gcs_uri",
                     VStr "gs://alara-case-study-bucket/sku1.jpg");
                    ("color", VStr "black") ]
       /\ forall k,
            dict_get k attrs
            = match dict_get k specs with
              | Some a => if pd_notna a then Some (VAtom a) else None
              | None => None
              end.
Proof.
  intros specs.
  assert (Hnd : NoDup (dict_keys specs)).
  { repeat constructor; simpl; intuition discriminate. }
  split; [exact Hnd|]. split; [reflexivity|].
  exact (product_attributes_non_null specs [("rules_v1", rules_v1)]
           Hnd eq_refl).
Defined.

(** The demo answer, fenced and bare. *)
Lemma fenced_and_bare_json_parse_alike_witness :
  let m := match answer_value with VDict m => m | _ => [] end in
  @json_loads platform answer_text = inr (VDict m)
  /\ str_truthy (strip answer_text) = true
  /\ re_search_fence answer_text = None
  /\ finish_reason stop_candidate = STOP
  /\ @parse_response platform
       {| candidates := [stop_candidate];
          text := inr (fence_open ++ answer_text ++ fence_close)%string |}
     = @parse_response platform
         {| candidates := [stop_candidate]; text := inr answer_text |}.
Proof.
  intros m.
  assert (H1 : @json_loads platform answer_text = inr (VDict m))
    by (vm_compute; reflexivity).
  assert (H2 : str_truthy (strip answer_text) = true)
    by (vm_compute; reflexivity).
  assert (H3 : re_search_fence answer_text = None)
    by (vm_compute; reflexivity).
  repeat (split; [assumption || reflexivity|]).
  exact (proj1 (proj2 (proj2
           (@fenced_and_bare_json_parse_alike platform answer_text m
              stop_candidate [] H1 H2 H3 eq_refl)))).
Defined.

(** A model that answers with a JSON array. *)
Lemma parse_non_object_raises_witness :
  let r := {| candidates := [stop_candidate]; text := inr "[]" |} in
  candidates r = [stop_candidate]
  /\ finish_reason stop_candidate = STOP
  /\ text r = inr "[]"
  /\ str_truthy (strip "[]") = true
  /\ @json_loads (platform_with array_model) (extract_json "[]")
     = inr (VList [])
  /\ is_mapping (VList []) = false
  /\ @parse_response (platform_with array_model) r = inl TypeError.
Proof.
  intros r. repeat (split; [reflexivity|]).
  exact (@parse_non_object_raises (platform_with array_model) r
           stop_candidate [] "[]" (VList []) eq_refl eq_refl eq_refl eq_refl
           eq_refl eq_refl).
Defined.

(** A model output that reports its own token count. *)
Lemma diagnostics_injected_witness :
  let m := [("answer", VStr "ok"); ("diagnostics", VDict [("tokens", VInt 7)])] in
  diagnostics_usable m
  /\ exists d',
       @add_diagnostics platform (VDict m) elapsed
       = inr (VDict (dict_set "diagnostics" (VDict d') m))
       /\ dict_get "latency" d' = Some (VFloat elapsed)
       /\ dict_get "tokens" d' = Some (VInt 7).
Proof.
  intros m.
  assert (Hu : diagnostics_usable m) by (right; eexists; reflexivity).
  split; [exact Hu|].
  destruct (@diagnostics_injected platform strict m elapsed Hu)
    as (d' & Hadd & Hlat & _ & Htok & _).
  exists d'. split; [exact Hadd|]. split; [exact Hlat|].
  exact (Htok (VInt 7) eq_refl).
Defined.

(** A model output whose [structured] has no [compliance]. *)
Lemma schema_violation_is_surfaced_witness :
  let m := [ ("answer", VStr "ok");
             ("grounding",
              VDict [("citations", VList []); ("visual_refs", VList [])]);
             ("structured", VDict [("attributes", VDict [])]);
             ("diagnostics", VDict [("model", VStr model_name)]) ] in
  diagnostics_usable m
  /\ exists e,
       @validate_response platform strict (VDict m) elapsed
       = inl (HTTPException 500 (InvalidDataFormat e))
       /\ In ([Key "structured"; Key "compliance"], Missing) e.
Proof.
  intros m.
  assert (Hu : diagnostics_usable m) by (right; eexists; reflexivity).
  split; [exact Hu|].
  destruct (@schema_violation_is_surfaced platform strict m elapsed Hu)
    as (_ & _ & _ & _ & Hmissing & _).
  exact (Hmissing [("attributes", VDict [])] eq_refl eq_refl).
Defined.

(** The request of the end-to-end scenario, answered by the demo model. *)
Lemma successful_response_diagnostics_witness :
  exists r,
    @analyze platform strict
      (request "SKU1" (Some "Is this shoe waterproof?") ["rules_v1"]) elapsed
    = inr (ReturnModel r)
    /\ tokens (diagnostics r) = 0%Z
    /\ model (diagnostics r) = "gemini-2.5-flash".
Proof.
  eexists. split; [vm_compute; reflexivity|].
  exact (@successful_response_diagnostics platform strict
           (request "SKU1" (Some "Is this shoe waterproof?") ["rules_v1"])
           elapsed _ eq_refl).
Defined.

(** A request with an empty question, served by a model that answers the
    default question and no other. *)
Lemma empty_question_uses_default_witness :
  let r := request "SKU1" (Some EmptyString) ["rules_v1"] in
  let only_default := platform_with Cases.default_only_model in
  (question r = None \/ question r = Some EmptyString)
  /\ question_or_default r
     = "Describe the product based on the image and context."
  /\ (exists v, @analyze only_default strict r elapsed = inr (ReturnModel v))
  /\ (exists v,
        @respond only_default strict r [("color", AStr "black")]
          (AStr "gs://alara-case-study-bucket/sku1.jpg") [] elapsed
        = inr (ReturnModel v))
  /\ @respond only_default strict
       (request "SKU1" (Some "Is this shoe waterproof?") ["rules_v1"])
       [("color", AStr "black")]
       (AStr "gs://alara-case-study-bucket/sku1.jpg") [] elapsed
     = inl (HTTPException 500
              (ModelQueryFailed (VStr "No candidates returned from model.")
                 (VStr "The model response was empty.")))
  /\ (forall q,
        @build_prompt only_default VNone q
        = @build_prompt only_default VNone EmptyString ->
        q = EmptyString).
Proof.
  intros r only_default.
  destruct (@empty_question_uses_default only_default strict r
              (or_intror eq_refl))
    as (Hdefault & _ & Hsame & _ & Hprompt & Hany & _ & Hinj).
  split; [now right|]. split; [exact Hdefault|].
  split; [|split; [|split]].
  - rewrite (Hsame elapsed). eexists. vm_compute. reflexivity.
  - rewrite (Hprompt [("color", AStr "black")]
               "gs://alara-case-study-bucket/sku1.jpg" [] _ elapsed eq_refl).
    eexists. vm_compute. reflexivity.
  - rewrite (Hany (request "SKU1" (Some "Is this shoe waterproof?")
                     ["rules_v1"])
               [("color", AStr "black")]
               (AStr "gs://alara-case-study-bucket/sku1.jpg") [] _ elapsed
               eq_refl).
    vm_compute. reflexivity.
  - intros q. apply Hinj.
Defined.

End Runs.

(** ** The context composer on arbitrary documents *)

Lemma add_rules_effect attrs voice entries : forall rules,
  for_each entries add_rule (card_of attrs rules voice)
  = match entries_of entries with
    | inl e => inl e
    | inr added => ok (card_of attrs (rules ++ added) voice)
    end.
Proof.
  induction entries as [|e entries IH]; intros rules.
  - simpl. now rewrite app_nil_r.
  - destruct e as [a|l|r].
    + reflexivity.
    + reflexivity.
    + cbn [for_each entries_of]. rewrite add_rule_card by reflexivity.
      cbn [bind ok]. rewrite IH.
      destruct (entries_of entries) as [err|added]; [reflexivity|].
      cbn [bind ok]. now rewrite <- app_assoc.
Qed.

Lemma add_context_effect attrs rules voice ctx_id content :
  add_context (card_of attrs rules voice) (ctx_id, content)
  = match document_effect content with
    | inl e => inl e
    | inr (set_voice, added) =>
        ok (card_of attrs (rules ++ added) (override set_voice voice))
    end.
Proof.
  unfold add_context, document_effect. cbn [snd].
  destruct (py_in "brand_voice" content) as [e|[|]]; cbn [bind ok];
    [reflexivity| |].
  - destruct (py_getitem content "brand_voice") as [e|v]; cbn [bind ok];
      [reflexivity|].
    rewrite set_voice_card.
    destruct (py_in "rules" content) as [e|[|]]; cbn [bind ok];
      [reflexivity| |].
    + destruct (py_getitem content "rules") as [e|rs]; cbn [bind ok];
        [reflexivity|].
      destruct (py_iter rs) as [e|listed]; cbn [bind ok]; [reflexivity|].
      rewrite add_rules_effect.
      now destruct (entries_of listed).
    + now rewrite app_nil_r.
  - destruct (py_in "rules" content) as [e|[|]]; cbn [bind ok];
      [reflexivity| |].
    + destruct (py_getitem content "rules") as [e|rs]; cbn [bind ok];
        [reflexivity|].
      destruct (py_iter rs) as [e|listed]; cbn [bind ok]; [reflexivity|].
      rewrite add_rules_effect.
      now destruct (entries_of listed).
    + now rewrite app_nil_r.
Qed.

Lemma add_contexts_effect attrs contexts : forall rules voice,
  for_each contexts add_context (card_of attrs rules voice)
  = match documents_effect (map snd contexts) with
    | inl e => inl e
    | inr (set_voice, added) =>
        ok (card_of attrs (rules ++ added) (override set_voice voice))
    end.
Proof.
  induction contexts as [|[ctx_id content] contexts IH]; intros rules voice.
  - simpl. now rewrite app_nil_r.
  - cbn [for_each map snd documents_effect]. rewrite add_context_effect.
    destruct (document_effect content) as [e|[v1 a1]]; cbn [bind ok];
      [reflexivity|].
    rewrite IH.
    destruct (documents_effect (map snd contexts)) as [e|[v2 a2]];
      cbn [bind ok fst snd]; [reflexivity|].
    rewrite <- app_assoc. now destruct v2, v1.
Qed.

(** The composer in closed form, on any documents. *)
Lemma compose_context_card_effect product_specs contexts :
  compose_context_card product_specs contexts
  = match documents_effect (map snd contexts) with
    | inl e => inl e
    | inr (set_voice, added) =>
        ok (card_of (product_attributes product_specs) added set_voice)
    end.
Proof.
  unfold compose_context_card.
  change [("product_attributes", VDict (product_attributes product_specs));
          ("rules", VList [])]
    with (card_of (product_attributes product_specs) [] None).
  rewrite add_contexts_effect.
  destruct (documents_effect (map snd contexts)) as [e|[v a]]; [reflexivity|].
  now destruct v.
Qed.

Lemma entries_of_shaped rules : forall entries,
  entries_of rules = inr entries -> Forall rule_shaped entries.
Proof.
  induction rules as [|r rules IH]; intros entries H.
  - inversion H. constructor.
  - destruct r as [a|l|d]; try discriminate. cbn [entries_of] in H.
    destruct (entries_of rules) as [e|rest]; [discriminate|].
    inversion H; subst. constructor; [|now apply IH].
    unfold rule_shaped, rule_entry. eauto.
Qed.

Lemma document_effect_shaped content voice entries :
  document_effect content = inr (voice, entries) -> Forall rule_shaped entries.
Proof.
  unfold document_effect.
  destruct (py_in "brand_voice" content) as [e|b]; [discriminate|].
  cbn [bind].
  destruct (if b then _ else _) as [e|v]; [discriminate|]. cbn [bind].
  destruct (py_in "rules" content) as [e|[|]]; [discriminate| |]; cbn [bind].
  - destruct (py_getitem content "rules") as [e|rs]; [discriminate|].
    cbn [bind]. destruct (py_iter rs) as [e|listed]; [discriminate|].
    cbn [bind]. destruct (entries_of listed) as [e|es] eqn:E; [discriminate|].
    intros H. inversion H; subst. now apply (entries_of_shaped listed).
  - intros H. inversion H. constructor.
Qed.

Lemma documents_effect_shaped documents : forall voice entries,
  documents_effect documents = inr (voice, entries) ->
  Forall rule_shaped entries.
Proof.
  induction documents as [|c documents IH]; intros voice entries H.
  - inversion H. constructor.
  - cbn [documents_effect] in H.
    destruct (document_effect c) as [e|[v1 a1]] eqn:E1; [discriminate|].
    cbn [bind] in H.
    destruct (documents_effect documents) as [e|[v2 a2]] eqn:E2;
      [discriminate|].
    inversion H; subst. apply Forall_app. split.
    + now apply (document_effect_shaped c v1).
    + now apply (IH v2).
Qed.

(** X1. The shape of every card: whatever the documents are, a card that
    the composer returns has the keys [product_attributes] and [rules], in
    this order, followed by [brand_voice] when some document set one, and
    nothing else; [rules] is a list and each of its entries is a mapping
    with exactly the keys [id], [text], [mandatory]. *)
Theorem composed_card_shape :
  forall (product_specs : dict atom) (contexts : dict pyobj)
         (card : dict pyobj),
    compose_context_card product_specs contexts = inr card ->
    exists rules voice,
      card = [ ("product_attributes", VDict (product_attributes product_specs));
               ("rules", VList rules) ]
             ++ match voice with
                | Some v => [("brand_voice", v)]
                | None => []
                end
      /\ Forall rule_shaped rules.
Proof.
  intros specs contexts card. rewrite compose_context_card_effect.
  destruct (documents_effect (map snd contexts)) as [e|[voice rules]] eqn:E;
    [discriminate|].
  intros H. inversion H; subst. exists rules, voice. split; [reflexivity|].
  now apply (documents_effect_shaped (map snd contexts) voice).
Qed.

Lemma documents_effect_app d1 : forall d2,
  documents_effect (d1 ++ d2)
  = (first <- documents_effect d1 ;;
     rest <- documents_effect d2 ;;
     ok (override (fst rest) (fst first), snd first ++ snd rest)).
Proof.
  induction d1 as [|c d1 IH]; intros d2.
  - cbn [app documents_effect bind ok fst snd].
    destruct (documents_effect d2) as [e|[v a]]; [reflexivity|].
    cbn [bind ok fst snd override]. now destruct v.
  - cbn [app documents_effect]. rewrite IH.
    destruct (document_effect c) as [e|[v1 a1]]; [reflexivity|].
    cbn [bind ok fst snd].
    destruct (documents_effect d1) as [e|[v2 a2]]; [reflexivity|].
    cbn [bind ok fst snd].
    destruct (documents_effect d2) as [e|[v3 a3]]; [reflexivity|].
    cbn [bind ok fst snd]. rewrite app_assoc. now destruct v3, v2, v1.
Qed.

Lemma compose_inr_effect product_specs contexts card :
  compose_context_card product_specs contexts = inr card ->
  exists voice rules,
    documents_effect (map snd contexts) = inr (voice, rules)
    /\ card = card_of (product_attributes product_specs) rules voice.
Proof.
  rewrite compose_context_card_effect.
  destruct (documents_effect (map snd contexts)) as [e|[voice rules]];
    [discriminate|].
  intros H. inversion H. eauto.
Qed.

Lemma compose_inl_effect product_specs contexts e :
  compose_context_card product_specs contexts = inl e ->
  documents_effect (map snd contexts) = inl e.
Proof.
  rewrite compose_context_card_effect.
  destruct (documents_effect (map snd contexts)) as [e'|[voice rules]];
    [|discriminate].
  intros H. now inversion H.
Qed.

(** X2. Composition over a split: when two runs of documents each compose,
    so does the first run followed by the second; the rules of the result
    are the rules of the first card followed by those of the second, and
    its brand voice is the second card's when it has one, the first card's
    otherwise. *)
Theorem compose_context_card_app :
  forall (product_specs : dict atom) (first second : dict pyobj)
         (card1 card2 : dict pyobj),
    compose_context_card product_specs first = inr card1 ->
    compose_context_card product_specs second = inr card2 ->
    exists card rules1 rules2,
      compose_context_card product_specs (first ++ second) = inr card
      /\ dict_get "rules" card1 = Some (VList rules1)
      /\ dict_get "rules" card2 = Some (VList rules2)
      /\ dict_get "rules" card = Some (VList (rules1 ++ rules2))
      /\ dict_get "brand_voice" card
         = match dict_get "brand_voice" card2 with
           | Some v => Some v
           | None => dict_get "brand_voice" card1
           end.
Proof.
  intros specs c1 c2 k1 k2 H1 H2.
  apply compose_inr_effect in H1 as (v1 & r1 & E1 & ->).
  apply compose_inr_effect in H2 as (v2 & r2 & E2 & ->).
  exists (card_of (product_attributes specs) (r1 ++ r2) (override v2 v1)), r1, r2.
  split.
  - rewrite compose_context_card_effect, map_app, documents_effect_app, E1, E2.
    reflexivity.
  - rewrite !card_rules, !card_voice. repeat split; reflexivity.
Qed.

(** X3. The first failure wins: when a run of documents makes the composer
    raise, appending further documents changes nothing; and when a run
    composes but the documents after it do not, the whole raises the
    exception of the later ones.  No partial card is returned. *)
Theorem compose_context_card_fails_fast :
  forall (product_specs : dict atom) (first second : dict pyobj) (e : exn),
    (compose_context_card product_specs first = inl e ->
     compose_context_card product_specs (first ++ second) = inl e)
    /\ (forall card1,
          compose_context_card product_specs first = inr card1 ->
          compose_context_card product_specs second = inl e ->
          compose_context_card product_specs (first ++ second) = inl e).
Proof.
  intros specs c1 c2 e. split.
  - intros H. apply compose_inl_effect in H.
    now rewrite compose_context_card_effect, map_app, documents_effect_app, H.
  - intros k1 H1 H2. apply compose_inr_effect in H1 as (v1 & r1 & E1 & _).
    apply compose_inl_effect in H2.
    now rewrite compose_context_card_effect, map_app, documents_effect_app,
      E1, H2.
Qed.

(** X4. A document that is not a container: a context document that is
    null, a number or a boolean makes the composer raise [TypeError] at the
    membership test of line 74, provided the documents before it compose. *)
Theorem scalar_document_raises :
  forall (product_specs : dict atom) (before after : dict pyobj)
         (ctx_id : string) (a : atom) (card : dict pyobj),
    (forall s, a <> AStr s) ->
    compose_context_card product_specs before = inr card ->
    compose_context_card product_specs (before ++ (ctx_id, VAtom a) :: after)
    = inl TypeError.
Proof.
  intros specs pre post ctx_id a card Hns Hpre.
  apply compose_inr_effect in Hpre as (v & r & E & _).
  rewrite compose_context_card_effect, map_app, documents_effect_app, E.
  cbn [map snd documents_effect bind].
  destruct a as [| | | |s]; try reflexivity. now destruct (Hns s).
Qed.

Lemma entries_of_not_mapping rules :
  existsb (fun r => negb (is_mapping r)) rules = true ->
  entries_of rules = inl AttributeError.
Proof.
  induction rules as [|r rules IH]; [discriminate|].
  destruct r as [a|l|d]; cbn [existsb is_mapping negb orb entries_of];
    try reflexivity.
  intros H. now rewrite IH.
Qed.

(** X5. A rule that is not a mapping: a document whose [rules] list holds
    an entry that is not a mapping (a string, a number, null, a list) makes
    the composer raise [AttributeError], wherever the entry stands in the
    list and whatever the other entries are, provided the documents before
    it compose. *)
Theorem malformed_rule_raises :
  forall (product_specs : dict atom) (before after : dict pyobj)
         (ctx_id : string) (d : dict pyobj) (rules : list pyobj)
         (card : dict pyobj),
    dict_get "rules" d = Some (VList rules) ->
    existsb (fun r => negb (is_mapping r)) rules = true ->
    compose_context_card product_specs before = inr card ->
    compose_context_card product_specs (before ++ (ctx_id, VDict d) :: after)
    = inl AttributeError.
Proof.
  intros specs pre post ctx_id d rules card Hr Hbad Hpre.
  apply compose_inr_effect in Hpre as (v & r & E & _).
  rewrite compose_context_card_effect, map_app, documents_effect_app, E.
  cbn [map snd documents_effect bind]. unfold document_effect.
  cbn [py_in py_getitem bind ok]. unfold dict_mem. rewrite Hr.
  destruct (dict_get "brand_voice" d); cbn [bind ok py_iter];
    now rewrite (entries_of_not_mapping rules Hbad).
Qed.

(** X6. A list that names neither field is skipped: a context document that
    is a JSON array holding neither the string [brand_voice] nor the string
    [rules] leaves no trace; the outcome is the one without it. *)
Theorem array_document_is_skipped :
  forall (product_specs : dict atom) (before after : dict pyobj)
         (ctx_id : string) (items : list pyobj),
    existsb (is_str "brand_voice") items = false ->
    existsb (is_str "rules") items = false ->
    compose_context_card product_specs (before ++ (ctx_id, VList items) :: after)
    = compose_context_card product_specs (before ++ after).
Proof.
  intros specs pre post ctx_id items Hv Hr.
  rewrite !compose_context_card_effect, !map_app, !documents_effect_app.
  cbn [map snd documents_effect]. unfold document_effect.
  cbn [py_in bind ok]. rewrite Hv. cbn [bind ok]. rewrite Hr. cbn [bind ok fst snd].
  destruct (documents_effect (map snd pre)) as [e|[v1 r1]]; [reflexivity|].
  cbn [bind ok fst snd].
  destruct (documents_effect (map snd post)) as [e|[v2 r2]]; [reflexivity|].
  cbn [bind ok fst snd app]. now destruct v2.
Qed.

(** X7. The product specification and the documents do not interfere:
    whether the composer raises, and what, depends on the documents alone;
    so do the card's rules and brand voice. *)
Theorem compose_context_card_independent :
  forall (specs1 specs2 : dict atom) (contexts : dict pyobj),
    match compose_context_card specs1 contexts,
          compose_context_card specs2 contexts with
    | inl e1, inl e2 => e1 = e2
    | inr card1, inr card2 =>
        dict_get "rules" card1 = dict_get "rules" card2
        /\ dict_get "brand_voice" card1 = dict_get "brand_voice" card2
    | _, _ => False
    end.
Proof.
  intros s1 s2 contexts. rewrite !compose_context_card_effect.
  destruct (documents_effect (map snd contexts)) as [e|[v r]]; [reflexivity|].
  unfold ok. now rewrite !card_rules, !card_voice.
Qed.

(** ** Loading the context documents of a request *)

Lemma dict_mem_keys {V} (k : string) (d : dict V) :
  dict_mem k d = existsb (String.eqb k) (dict_keys d).
Proof.
  unfold dict_mem. induction d as [|[k0 v0] d IH]; simpl; [reflexivity|].
  destruct (String.eqb k k0); [reflexivity | exact IH].
Qed.

Lemma dict_keys_set {V} (k : string) (v : V) (d : dict V) :
  dict_keys (dict_set k v d)
  = if dict_mem k d then dict_keys d else dict_keys d ++ [k].
Proof.
  unfold dict_mem. induction d as [|[k0 v0] d IH]; simpl; [reflexivity|].
  destruct (String.eqb k k0) eqn:E; simpl; [reflexivity|].
  rewrite IH. now destruct (dict_get k d).
Qed.

Lemma existsb_eqb_In (k : string) (l : list string) :
  existsb (String.eqb k) l = true <-> In k l.
Proof.
  rewrite existsb_exists. split.
  - intros [x [Hin Heq]]. apply String.eqb_eq in Heq. now subst.
  - intros Hin. exists k. split; [exact Hin | apply String.eqb_refl].
Qed.

Lemma first_occurrences_seen ids : forall seen seen',
  (forall k, In k seen <-> In k seen') ->
  first_occurrences seen ids = first_occurrences seen' ids.
Proof.
  induction ids as [|i ids IH]; intros seen seen' Hsame; [reflexivity|].
  cbn [first_occurrences].
  assert (Hb : existsb (String.eqb i) seen = existsb (String.eqb i) seen').
  { destruct (existsb (String.eqb i) seen) eqn:E1,
             (existsb (String.eqb i) seen') eqn:E2; try reflexivity.
    - apply existsb_eqb_In in E1. apply Hsame in E1.
      apply existsb_eqb_In in E1. congruence.
    - apply existsb_eqb_In in E2. apply Hsame in E2.
      apply existsb_eqb_In in E2. congruence. }
  rewrite Hb. destruct (existsb (String.eqb i) seen').
  - now apply IH.
  - f_equal. apply IH. intros k. simpl. now rewrite Hsame.
Qed.

Lemma load_contexts_invariant (load : string -> result pyobj) ids :
  forall (acc ctxs : dict pyobj),
    NoDup (dict_keys acc) ->
    for_each ids
      (fun acc ctx_id =>
         content <- load ctx_id ;; ok (dict_set ctx_id content acc))
      acc = inr ctxs ->
    dict_keys ctxs = dict_keys acc ++ first_occurrences (dict_keys acc) ids
    /\ NoDup (dict_keys ctxs)
    /\ (forall i, In i ids -> load i = inr (match dict_get i ctxs with
                                            | Some doc => doc
                                            | None => VNone
                                            end)
                              /\ dict_mem i ctxs = true)
    /\ (forall k, ~ In k ids -> dict_get k ctxs = dict_get k acc).
Proof.
  induction ids as [|i ids IH]; intros acc ctxs Hnd H.
  - inversion H; subst. cbn [first_occurrences]. rewrite app_nil_r.
    split; [reflexivity|]. split; [exact Hnd|]. split; [intros j []|].
    reflexivity.
  - cbn [for_each] in H. destruct (load i) as [e|doc] eqn:Hi; [discriminate|].
    cbn [bind ok] in H.
    assert (Hkeys := dict_keys_set i doc acc).
    assert (Hnd' : NoDup (dict_keys (dict_set i doc acc))).
    { rewrite Hkeys. destruct (dict_mem i acc) eqn:M; [exact Hnd|].
      apply NoDup_app; [exact Hnd | repeat constructor; intros [] |].
      intros k Hin [<-|[]]. rewrite dict_mem_keys in M.
      apply existsb_eqb_In in Hin. congruence. }
    destruct (IH _ _ Hnd' H) as (Hk & Hn & Hv & Ho).
    split; [|split; [exact Hn|split]].
    + rewrite Hk, Hkeys. cbn [first_occurrences]. rewrite <- dict_mem_keys.
      destruct (dict_mem i acc) eqn:M; [reflexivity|].
      rewrite <- app_assoc. cbn [app]. f_equal. f_equal.
      apply first_occurrences_seen. intros k. rewrite in_app_iff. simpl.
      tauto.
    + intros j [<-|Hj]; [|now apply Hv].
      destruct (in_dec string_dec i ids) as [Hin|Hout]; [now apply Hv|].
      rewrite (Ho i Hout). unfold dict_mem. rewrite (Ho i Hout).
      rewrite dict_get_set_same. now split.
    + intros k Hk'. rewrite Ho by (intros Hin; apply Hk'; now right).
      apply dict_get_set_other. intros ->. apply Hk'. now left.
Qed.

(** X8. Repeated context identifiers: when every load succeeds, the
    contexts handed to the composer hold each requested identifier once, in
    the order of first occurrence in the request, each with the document
    loaded for it; a repeated identifier does not move to its later
    position. *)
Theorem load_contexts_first_occurrences :
  forall (load : string -> result pyobj) (context_ids : list string)
         (contexts : dict pyobj),
    load_contexts load context_ids = inr contexts ->
    dict_keys contexts = first_occurrences [] context_ids
    /\ NoDup (dict_keys contexts)
    /\ (forall i, In i context_ids ->
          exists doc, load i = inr doc /\ dict_get i contexts = Some doc)
    /\ (forall k, ~ In k context_ids -> dict_get k contexts = None).
Proof.
  intros load ids ctxs H.
  destruct (load_contexts_invariant load ids [] ctxs (NoDup_nil _) H)
    as (Hk & Hn & Hv & Ho).
  split; [exact Hk|]. split; [exact Hn|]. split; [|exact Ho].
  intros i Hin. destruct (Hv i Hin) as [Hl Hm]. unfold dict_mem in Hm.
  destruct (dict_get i ctxs) as [doc|]; [|discriminate]. now exists doc.
Qed.

Lemma load_contexts_stops (load : string -> result pyobj) before after ctx_id e :
  (forall i, In i before -> exists doc, load i = inr doc) ->
  load ctx_id = inl e ->
  load_contexts load (before ++ ctx_id :: after) = inl e.
Proof.
  intros Hpre Hi. unfold load_contexts.
  generalize (@nil (string * pyobj)).
  induction before as [|j pre IH]; intros acc.
  - cbn [app for_each]. now rewrite Hi.
  - cbn [app for_each]. destruct (Hpre j (or_introl eq_refl)) as [doc ->].
    cbn [bind ok]. apply IH. intros k Hk. apply Hpre. now right.
Qed.

(** X9. Loading stops at the first failure: when the documents before an
    identifier load and its own load raises, loading the contexts raises
    that exception, whatever identifiers follow. *)
Theorem load_contexts_fails_fast :
  forall (load : string -> result pyobj) (before after : list string)
         (ctx_id : string) (e : exn),
    (forall i, In i before -> exists doc, load i = inr doc) ->
    load ctx_id = inl e ->
    load_contexts load (before ++ ctx_id :: after) = inl e.
Proof.
  intros load pre post i e Hpre Hi. unfold load_contexts.
  generalize (@nil (string * pyobj)).
  induction pre as [|j pre IH]; intros acc.
  - cbn [app for_each]. now rewrite Hi.
  - cbn [app for_each]. destruct (Hpre j (or_introl eq_refl)) as [doc ->].
    cbn [bind ok]. apply IH. intros k Hk. apply Hpre. now right.
Qed.

(** ** What the stages can raise *)

Lemma entries_of_raises rules e :
  entries_of rules = inl e -> e = AttributeError.
Proof.
  induction rules as [|r rules IH]; [discriminate|].
  destruct r as [a|l|d]; cbn [entries_of]; try (intros H; now inversion H).
  destruct (entries_of rules) as [e'|es]; [|discriminate].
  intros H. inversion H; subst. now apply IH.
Qed.

Lemma document_effect_raises content e :
  document_effect content = inl e -> e = TypeError \/ e = AttributeError.
Proof.
  unfold document_effect.
  destruct content as [a|l|d].
  - destruct a; cbn [py_in bind raise]; try (intros H; inversion H; now left).
    destruct (is_substring "brand_voice" s); cbn [bind ok py_getitem raise];
      [intros H; inversion H; now left|].
    destruct (is_substring "rules" s); cbn [bind ok py_getitem raise];
      [intros H; inversion H; now left | discriminate].
  - cbn [py_in bind ok].
    destruct (existsb (is_str "brand_voice") l); cbn [bind ok py_getitem raise];
      [intros H; inversion H; now left|].
    destruct (existsb (is_str "rules") l); cbn [bind ok py_getitem raise];
      [intros H; inversion H; now left | discriminate].
  - cbn [py_in py_getitem bind ok]. unfold dict_mem.
    destruct (dict_get "brand_voice" d); cbn [bind ok];
      (destruct (dict_get "rules" d) as [rs|]; cbn [bind ok]; [|discriminate];
       destruct (py_iter rs) as [e'|listed] eqn:I; cbn [bind ok];
       [ intros H; inversion H; subst;
         destruct rs as [[]|?|?]; inversion I; now left
       | destruct (entries_of listed) as [e'|es] eqn:E; [|discriminate];
         intros H; inversion H; subst; right;
         now apply (entries_of_raises listed) ]).
Qed.

Lemma documents_effect_raises documents e :
  documents_effect documents = inl e -> e = TypeError \/ e = AttributeError.
Proof.
  induction documents as [|c documents IH]; [discriminate|].
  cbn [documents_effect].
  destruct (document_effect c) as [e1|[v a]] eqn:E1; cbn [bind].
  - intros H. inversion H; subst. now apply (document_effect_raises c).
  - destruct (documents_effect documents) as [e2|[v2 a2]]; [|discriminate].
    intros H. inversion H; subst. now apply IH.
Qed.

Lemma compose_raises_only product_specs contexts e :
  compose_context_card product_specs contexts = inl e ->
  e = TypeError \/ e = AttributeError.
Proof.
  intros H. apply compose_inl_effect in H.
  now apply (documents_effect_raises (map snd contexts)).
Qed.

(** X10. What the composer can raise: [TypeError] and [AttributeError], and
    nothing else; in particular a missing key is never an error, since each
    subscript is guarded by a membership test. *)
Theorem compose_context_card_raises :
  forall (product_specs : dict atom) (contexts : dict pyobj) (e : exn),
    compose_context_card product_specs contexts = inl e ->
    e = TypeError \/ e = AttributeError.
Proof.
  intros specs contexts e. rewrite compose_context_card_effect.
  destruct (documents_effect (map snd contexts)) as [e'|[voice rules]] eqn:E;
    [|discriminate].
  intros H. inversion H; subst.
  now apply (documents_effect_raises (map snd contexts)).
Qed.

Lemma for_each_load_raises (load : string -> result pyobj) ids :
  forall (acc : dict pyobj) e,
    for_each ids
      (fun acc ctx_id =>
         content <- load ctx_id ;; ok (dict_set ctx_id content acc))
      acc = inl e ->
    exists i, In i ids /\ load i = inl e.
Proof.
  induction ids as [|i ids IH]; intros acc e H; [discriminate|].
  cbn [for_each] in H. destruct (load i) as [e'|doc] eqn:Hi.
  - inversion H; subst. exists i. split; [now left | exact Hi].
  - cbn [bind ok] in H. destruct (IH _ _ H) as (j & Hj & Hl).
    exists j. split; [now right | exact Hl].
Qed.

Section Outcomes.

Context {platform : Platform} {pydantic : Pydantic}.

Lemma load_context_file_raises context_id e :
  load_context_file context_id = inl e ->
  exists cause,
    e = FileNotFoundError
          ("Could not load context '" ++ context_id ++ "' from GCS. Error: "
           ++ cause).
Proof.
  unfold load_context_file.
  destruct (download_as_string _ _ _) as [c|content].
  - intros H. inversion H. now exists c.
  - destruct (json_loads content) as [c|doc]; [|discriminate].
    intros H. inversion H. now exists c.
Qed.

Lemma load_inputs_raises request catalog e :
  load_inputs request catalog = inl e ->
  exists msg, e = ValueError msg \/ e = FileNotFoundError msg.
Proof.
  unfold load_inputs, get_sku_specs.
  destruct (dict_get (sku request) catalog) as [specs|]; cbn [bind raise ok].
  - destruct (negb (atom_truthy _)); [discriminate|].
    destruct (load_contexts load_context_file (context_ids request))
      as [e'|ctxs] eqn:L; [|discriminate].
    cbn [bind]. intros H. inversion H; subst.
    apply for_each_load_raises in L as (i & _ & Hi).
    apply load_context_file_raises in Hi as [cause ->]. eauto.
  - intros H. inversion H. eauto.
Qed.

Lemma load_spec_catalog_raises e :
  load_spec_catalog = inl e -> exists msg, e = FileNotFoundError msg.
Proof.
  unfold load_spec_catalog.
  destruct (download_as_string _ _ _) as [c|content].
  - intros H. inversion H. eauto.
  - destruct (read_catalog content); [|discriminate].
    intros H. inversion H. eauto.
Qed.

Lemma parse_response_raises r e :
  parse_response r = inl e ->
  e = TypeError \/ exists msg, text r = inl msg /\ e = ValueError msg.
Proof.
  unfold parse_response, response_text.
  destruct (candidates r) as [|first rest]; [discriminate|].
  destruct (negb (FinishReason_eqb (finish_reason first) STOP)); [discriminate|].
  destruct (text r) as [msg|raw]; cbn [bind raise ok].
  { intros H. inversion H. right. now exists msg. }
  destruct (negb (str_truthy (strip raw))); [discriminate|].
  destruct (json_loads (extract_json raw)) as [msg|[a|l|m]];
    try discriminate; intros H; inversion H; now left.
Qed.

Lemma parse_response_returns_mapping r v :
  parse_response r = inr v -> exists d, v = VDict d /\ diagnostics_usable d
                                       \/ v = VDict d /\ dict_mem "error" d = true.
Proof.
  unfold parse_response, response_text.
  destruct (candidates r) as [|first rest].
  { intros H. inversion H. eexists. right. split; reflexivity. }
  destruct (negb (FinishReason_eqb (finish_reason first) STOP)).
  { intros H. inversion H. eexists. right. split; reflexivity. }
  destruct (text r) as [msg|raw]; cbn [bind raise ok]; [discriminate|].
  destruct (negb (str_truthy (strip raw))).
  { intros H. inversion H. eexists. right. split; reflexivity. }
  destruct (json_loads (extract_json raw)) as [msg|[a|l|m]];
    try discriminate.
  - intros H. inversion H. eexists. right. split; reflexivity.
  - intros H. inversion H. eexists. left. split; [reflexivity|].
    right. eexists. apply dict_get_set_same.
Qed.

(** What the gateway raises: the [TypeError] of an image reference that is
    not a string or of an answer that is not an object, what the call of
    the model raised, or what reading the text of its response raised. *)
Lemma query_gemini_raises image card question e :
  query_gemini image card question = inl e ->
  e = TypeError
  \/ (exists part msg,
        generate_content model_name part (build_prompt card question) = inl msg
        /\ e = GoogleAPICallError msg)
  \/ (exists part response msg,
        generate_content model_name part (build_prompt card question)
        = inr response
        /\ text response = inl msg
        /\ e = ValueError msg).
Proof.
  unfold query_gemini.
  destruct (Part_from_uri image "image/jpeg") as [e1|part] eqn:P; cbn [bind].
  { destruct image; inversion P; intros H; inversion H; subst; now left. }
  destruct (generate_content model_name part _) as [msg|response] eqn:G.
  { intros H. inversion H. right. left. now exists part, msg. }
  intros H. destruct (parse_response_raises _ _ H) as [->|[msg [Ht ->]]];
    [now left|].
  right. right. now exists part, response, msg.
Qed.

Lemma validate_response_raises d elapsed e :
  diagnostics_usable d ->
  validate_response (VDict d) elapsed = inl e ->
  exists detail, e = HTTPException 500 detail.
Proof.
  intros Hu. rewrite validate_response_usable by exact Hu.
  destruct (AnalyzeResponse_init _); [|discriminate].
  intros H. inversion H. eauto.
Qed.

Lemma respond_raises request specs uri ctxs elapsed e :
  respond request specs uri ctxs elapsed = inl e ->
  e = TypeError \/ e = AttributeError
  \/ (exists detail, e = HTTPException 500 detail)
  \/ (exists part prompt msg,
        generate_content model_name part prompt = inl msg
        /\ e = GoogleAPICallError msg)
  \/ (exists part prompt response msg,
        generate_content model_name part prompt = inr response
        /\ text response = inl msg
        /\ e = ValueError msg).
Proof.
  unfold respond.
  destruct (compose_context_card specs ctxs) as [e1|card] eqn:C; cbn [bind].
  { intros H. inversion H; subst.
    destruct (compose_raises_only _ _ _ C); auto. }
  destruct (query_gemini uri (VDict card) (question_or_default request))
    as [e1|v] eqn:Q; cbn [bind].
  { intros H. inversion H; subst.
    destruct (query_gemini_raises _ _ _ _ Q)
      as [->|[(part & msg & G & ->)|(part & response & msg & G & T & ->)]].
    - now left.
    - right. right. right. left. eauto.
    - right. right. right. right. eauto 7. }
  apply query_gemini_returns in Q as [r P].
  destruct (parse_response_returns_mapping _ _ P) as [d [[-> Hu]|[-> He]]].
  - cbn [py_in bind ok]. destruct (dict_mem "error" d); cbn [py_get bind ok].
    + destruct (dict_get "error" d), (dict_get "details" d); cbn [bind ok raise];
        intros H; inversion H; eauto.
    + destruct (validate_response (VDict d) elapsed) as [e1|r'] eqn:V;
        [|discriminate].
      cbn [bind]. intros H. inversion H; subst. right. right. left.
      now apply (validate_response_raises d elapsed).
  - cbn [py_in bind ok]. rewrite He. cbn [py_get bind ok].
    destruct (dict_get "error" d), (dict_get "details" d); cbn [bind ok raise];
      intros H; inversion H; eauto.
Qed.

Lemma respond_returns_model request specs uri ctxs elapsed body :
  respond request specs uri ctxs elapsed <> inr (ReturnDict body).
Proof.
  unfold respond.
  destruct (compose_context_card specs ctxs); [discriminate|]. cbn [bind].
  destruct (query_gemini _ _ _) as [|v]; [discriminate|]. cbn [bind].
  destruct (py_in "error" v) as [|[|]]; [discriminate| |]; cbn [bind].
  - destruct (py_get v "error" VNone); [discriminate|]. cbn [bind].
    destruct (py_get v "details" VNone); discriminate.
  - destruct (validate_response v elapsed); discriminate.
Qed.

(** With the catalog, the SKU, its image reference and the contexts in
    place, the handler goes on to lines 76-113. *)
Lemma analyze_respond request elapsed catalog specs contexts :
  load_spec_catalog = inr catalog ->
  dict_get (sku request) catalog = Some specs ->
  atom_truthy (match dict_get "image_gcs_uri" specs with
               | Some a => a
               | None => ANone
               end) = true ->
  load_contexts load_context_file (context_ids request) = inr contexts ->
  analyze request elapsed
  = respond request specs
      (match dict_get "image_gcs_uri" specs with
       | Some a => a
       | None => ANone
       end) contexts elapsed.
Proof.
  intros Hcat Hsku Himg Hctx. unfold analyze. rewrite Hcat. cbn [bind].
  unfold load_inputs, get_sku_specs. rewrite Hsku. cbn [bind ok].
  rewrite Himg. cbn [negb]. now rewrite Hctx.
Qed.

Lemma analyze_returns_dictionary request elapsed body :
  analyze request elapsed = inr (ReturnDict body) ->
  exists msg, body = VDict [("error", VStr msg)].
Proof.
  unfold analyze.
  destruct load_spec_catalog as [e|catalog]; [discriminate|]. cbn [bind].
  destruct (load_inputs request catalog)
    as [e|[early|[[specs uri] ctxs]]] eqn:E.
  - destruct (load_inputs_raises _ _ _ E) as [msg [->| ->]]; cbn [ok];
      intros H; inversion H; eauto.
  - apply load_inputs_early in E as [msg ->]. cbn [ok].
    intros H; inversion H; eauto.
  - intros H. exfalso. exact (respond_returns_model _ _ _ _ _ _ H).
Qed.

Lemma analyze_raises_500 request elapsed code detail :
  analyze request elapsed = inl (HTTPException code detail) -> code = 500%Z.
Proof.
  unfold analyze.
  destruct load_spec_catalog as [e|catalog] eqn:L; cbn [bind].
  { destruct (load_spec_catalog_raises _ L) as [msg ->]. discriminate. }
  destruct (load_inputs request catalog)
    as [e|[early|[[specs uri] ctxs]]] eqn:E.
  - destruct (load_inputs_raises _ _ _ E) as [msg [->| ->]]; discriminate.
  - discriminate.
  - intros R.
    destruct (respond_raises _ _ _ _ _ _ R)
      as [H|[H|[[d H]|[(p & q & m & _ & H)|(p & q & r & m & _ & _ & H)]]]];
      try discriminate.
    now inversion H.
Qed.

(** A dictionary with the single key [error] does not fit the response
    model, whatever conversions pydantic applies: the route answers 500. *)
Lemma error_dictionary_is_rejected msg :
  serve (inr (ReturnDict (VDict [("error", VStr msg)])))
  = {| status_code := 500; payload := InternalServerError |}.
Proof. unfold serve, as_model. rewrite validate_dict_dict. reflexivity. Qed.

(** C1. Failures and the status of the answer.  The route answers 200 only
    when the handler returned a validated response, and then with that
    response; in every other case it answers 500, and never with a
    response body.  In particular, with the catalog loaded: a SKU absent
    from the catalog, a product specification without an image reference
    and a context document that cannot be loaded are answered 500, because
    the dictionary [{error: ...}] the handler returns for them does not fit
    the response model of the route; anything the gateway raises is
    answered 500; a failure the gateway reports is answered 500 with the
    gateway's error and details; and an answer of the model that the schema
    rejects is answered 500 with the validation errors. *)
Theorem failing_request_is_answered_500 :
  forall (request : AnalyzeRequest) (elapsed : spec_float),
    ((exists r,
        analyze request elapsed = inr (ReturnModel r)
        /\ post_analyze request elapsed
           = {| status_code := 200; payload := Json r |})
     \/ ((forall r, analyze request elapsed <> inr (ReturnModel r))
         /\ status_code (post_analyze request elapsed) = 500%Z
         /\ forall r, payload (post_analyze request elapsed) <> Json r))
    /\ forall catalog : dict (dict atom),
         load_spec_catalog = inr catalog ->
         (dict_get (sku request) catalog = None ->
          post_analyze request elapsed
          = {| status_code := 500; payload := InternalServerError |})
         /\ forall specs : dict atom,
              dict_get (sku request) catalog = Some specs ->
              let image := match dict_get "image_gcs_uri" specs with
                           | Some a => a
                           | None => ANone
                           end in
              (atom_truthy image = false ->
               post_analyze request elapsed
               = {| status_code := 500; payload := InternalServerError |})
              /\ (atom_truthy image = true ->
                  (forall e,
                     load_contexts load_context_file (context_ids request)
                     = inl e ->
                     post_analyze request elapsed
                     = {| status_code := 500;
                          payload := InternalServerError |})
                  /\ forall contexts card : dict pyobj,
                       load_contexts load_context_file (context_ids request)
                       = inr contexts ->
                       compose_context_card specs contexts = inr card ->
                       let gateway :=
                         query_gemini image (VDict card)
                           (question_or_default request) in
                       (forall e,
                          gateway = inl e ->
                          post_analyze request elapsed
                          = {| status_code := 500;
                               payload := InternalServerError |})
                       /\ (forall d,
                             gateway = inr (VDict d) ->
                             dict_mem "error" d = true ->
                             post_analyze request elapsed
                             = {| status_code := 500;
                                  payload :=
                                    Detail
                                      (ModelQueryFailed
                                         (field_or VNone (dict_get "error" d))
                                         (field_or VNone
                                            (dict_get "details" d))) |})
                       /\ (forall d errors,
                             gateway = inr (VDict d) ->
                             dict_mem "error" d = false ->
                             AnalyzeResponse_init
                               (dict_set "diagnostics"
                                  (VDict (with_latency_and_tokens
                                            (diagnostics_of d)
                                            (round elapsed 2)))
                                  d)
                             = inl errors ->
                             post_analyze request elapsed
                             = {| status_code := 500;
                                  payload :=
                                    Detail (InvalidDataFormat errors) |})).
Proof.
  intros request elapsed. split.
  { unfold post_analyze.
    destruct (analyze request elapsed) as [e|[body|r]] eqn:A.
    - right. split; [discriminate|].
      destruct e; cbn [serve status_code payload];
        try (split; [reflexivity|discriminate]).
      rewrite (analyze_raises_500 _ _ _ _ A). split; [reflexivity|discriminate].
    - right. split; [discriminate|].
      destruct (analyze_returns_dictionary _ _ _ A) as [msg ->].
      rewrite error_dictionary_is_rejected. split; [reflexivity|discriminate].
    - left. exists r. split; reflexivity. }
  intros catalog Hcat.
  destruct (early_failures_return request elapsed catalog Hcat)
    as (Hsku & Himage & Hcontext).
  split.
  { intros H. unfold post_analyze. rewrite (Hsku H).
    apply error_dictionary_is_rejected. }
  intros specs Hspecs image. split.
  { intros H. unfold post_analyze. rewrite (Himage specs Hspecs H).
    apply error_dictionary_is_rejected. }
  intros Htruthy. split.
  { intros e Hload. unfold post_analyze.
    assert (He : exists msg, e = FileNotFoundError msg).
    { apply for_each_load_raises in Hload as (i & _ & Hi).
      apply load_context_file_raises in Hi as [cause ->]. eauto. }
    destruct He as [msg ->].
    rewrite (Hcontext specs msg Hspecs Htruthy Hload).
    apply error_dictionary_is_rejected. }
  intros contexts card Hload Hcard gateway. unfold post_analyze.
  rewrite (analyze_respond request elapsed catalog specs contexts
             Hcat Hspecs Htruthy Hload).
  fold image. split; [|split].
  - intros e Hq. unfold respond. rewrite Hcard. cbn [bind].
    fold gateway. rewrite Hq. cbn [bind].
    destruct (query_gemini_raises _ _ _ _ Hq)
      as [->|[(part & msg & _ & ->)|(part & response & msg & _ & _ & ->)]];
      reflexivity.
  - intros d Hq Herr.
    now rewrite (gateway_failure_raises request specs image contexts elapsed
                   card d Hcard Hq Herr).
  - intros d errors Hq Herr Hbad. unfold respond. rewrite Hcard. cbn [bind].
    fold gateway. rewrite Hq. cbn [bind py_in ok]. rewrite Herr.
    assert (Hu : diagnostics_usable d).
    { destruct (query_gemini_returns _ _ _ _ Hq) as [r P].
      destruct (gateway_output_usable r (VDict d) P) as (m & Hm & Hu).
      - cbn [py_in ok]. now rewrite Herr.
      - inversion Hm; subst. exact Hu. }
    rewrite (validate_response_usable d elapsed Hu), Hbad. reflexivity.
Qed.


Lemma validated_latency m elapsed r :
  diagnostics_usable m ->
  validate_response (VDict m) elapsed = inr r ->
  latency (diagnostics r) = round elapsed 2.
Proof.
  intros Hu. rewrite validate_response_usable by exact Hu.
  destruct (AnalyzeResponse_init _) as [e|r'] eqn:E; [discriminate|].
  intros H. inversion H; subst r'; clear H.
  apply AnalyzeResponse_init_inv in E as (_ & _ & _ & Hd).
  apply required_inv in Hd as (v & Hv & Hd).
  rewrite dict_get_set_same in Hv. inversion Hv; subst v; clear Hv.
  apply as_model_inv in Hd as (fields & Hf & Hd).
  rewrite validate_dict_dict in Hf. inversion Hf; subst fields; clear Hf.
  apply Diagnostics_init_inv in Hd as (Hl & _ & _).
  apply required_inv in Hl as (v & Hv & Hl).
  rewrite with_latency_and_tokens_latency in Hv. inversion Hv; subst v.
  unfold as_float in Hl. rewrite validate_float_float in Hl. now inversion Hl.
Qed.

(** X12. The catalog is loaded outside the handler's [try]: when the
    catalog blob cannot be downloaded, or cannot be read as a catalog, the
    handler neither returns an error dictionary nor raises an HTTP
    exception; the loader's [FileNotFoundError], with the cause in its
    message, leaves the handler uncaught, for every request. *)
Theorem catalog_failure_escapes :
  forall (request : AnalyzeRequest) (elapsed : spec_float) (cause : string),
    download_as_string PROJECT_ID GCS_BUCKET_NAME "spec_catalog.csv" = inl cause
    \/ (exists content,
          download_as_string PROJECT_ID GCS_BUCKET_NAME "spec_catalog.csv"
          = inr content
          /\ read_catalog content = inl cause) ->
    analyze request elapsed
    = inl (FileNotFoundError
             ("Specification file not found at gs://" ++ GCS_BUCKET_NAME
              ++ "/spec_catalog.csv. Error: " ++ cause)).
Proof.
  intros request elapsed cause H. unfold analyze, load_spec_catalog.
  unfold SPEC_CATALOG_PATH.
  destruct H as [-> | [content [-> ->]]]; reflexivity.
Qed.

(** X13. A context document that is not valid JSON is reported like one
    that is missing: with the SKU and its image in place, the first context
    identifier whose blob cannot be downloaded, or whose content
    [json.loads] rejects, makes the handler return the dictionary
    [{error: Could not load context '<id>' from GCS. Error: <cause>}]. *)
Theorem unreadable_context_is_reported :
  forall (request : AnalyzeRequest) (elapsed : spec_float)
         (catalog : dict (dict atom)) (specs : dict atom)
         (before after : list string) (ctx_id cause : string),
    load_spec_catalog = inr catalog ->
    dict_get (sku request) catalog = Some specs ->
    atom_truthy (match dict_get "image_gcs_uri" specs with
                 | Some a => a
                 | None => ANone
                 end) = true ->
    context_ids request = before ++ ctx_id :: after ->
    (forall i, In i before -> exists doc, load_context_file i = inr doc) ->
    download_as_string PROJECT_ID GCS_BUCKET_NAME
      ("context/" ++ ctx_id ++ ".json") = inl cause
    \/ (exists content,
          download_as_string PROJECT_ID GCS_BUCKET_NAME
            ("context/" ++ ctx_id ++ ".json") = inr content
          /\ json_loads content = inl cause) ->
    analyze request elapsed
    = inr (ReturnDict
             (VDict [("error",
                      VStr ("Could not load context '" ++ ctx_id
                            ++ "' from GCS. Error: " ++ cause))])).
Proof.
  intros request elapsed catalog specs pre post i cause Hcat Hsku Himg Hids
    Hpre Hbad.
  assert (Hi : load_context_file i
               = inl (FileNotFoundError
                        ("Could not load context '" ++ i
                         ++ "' from GCS. Error: " ++ cause))).
  { unfold load_context_file.
    destruct Hbad as [-> | [content [-> ->]]]; reflexivity. }
  unfold analyze. rewrite Hcat. cbn [bind].
  unfold load_inputs, get_sku_specs. rewrite Hsku. cbn [bind ok].
  rewrite Himg. cbn [negb]. rewrite Hids.
  now rewrite (load_contexts_stops load_context_file pre post i _ Hpre Hi).
Qed.

(** X14. An empty image cell is not a missing image, and it is not an
    image either: when the catalog row holds NaN under [image_gcs_uri], as
    it does for an empty cell of the catalog file, the test of line 62 lets
    it pass; the handler loads the contexts and composes the card, and then
    building the image part raises [TypeError], whatever the model would
    answer.  The handler returns neither the missing-image dictionary nor a
    response, and the route answers 500. *)
Theorem nan_image_reference_passes :
  forall (request : AnalyzeRequest) (elapsed : spec_float)
         (catalog : dict (dict atom)) (specs : dict atom)
         (contexts : dict pyobj),
    load_spec_catalog = inr catalog ->
    dict_get (sku request) catalog = Some specs ->
    dict_get "image_gcs_uri" specs = Some (AFloat S754_nan) ->
    load_contexts load_context_file (context_ids request) = inr contexts ->
    analyze request elapsed
    = respond request specs (AFloat S754_nan) contexts elapsed
    /\ (forall body, analyze request elapsed <> inr (ReturnDict body))
    /\ (forall card,
          compose_context_card specs contexts = inr card ->
          analyze request elapsed = inl TypeError)
    /\ (analyze request elapsed = inl TypeError
        \/ analyze request elapsed = inl AttributeError)
    /\ post_analyze request elapsed
       = {| status_code := 500; payload := InternalServerError |}.
Proof.
  intros request elapsed catalog specs ctxs Hcat Hsku Himg Hctx.
  assert (H : analyze request elapsed
              = respond request specs (AFloat S754_nan) ctxs elapsed).
  { rewrite (analyze_respond request elapsed catalog specs ctxs Hcat Hsku);
      rewrite ?Himg; try reflexivity. exact Hctx. }
  assert (Hc : forall card,
             compose_context_card specs ctxs = inr card ->
             respond request specs (AFloat S754_nan) ctxs elapsed
             = inl TypeError).
  { intros card Hcard. unfold respond. rewrite Hcard. reflexivity. }
  assert (Hr : respond request specs (AFloat S754_nan) ctxs elapsed
               = inl TypeError
               \/ respond request specs (AFloat S754_nan) ctxs elapsed
                  = inl AttributeError).
  { destruct (compose_context_card specs ctxs) as [e|card] eqn:C.
    - unfold respond. rewrite C. cbn [bind].
      destruct (compose_raises_only _ _ _ C) as [-> | ->]; auto.
    - left. now apply (Hc card). }
  split; [exact H|]. split; [|split; [|split]].
  - intros body. rewrite H. apply respond_returns_model.
  - intros card Hcard. rewrite H. exact (Hc card Hcard).
  - now rewrite H.
  - unfold post_analyze. rewrite H. destruct Hr as [-> | ->]; reflexivity.
Qed.

(** X15. The successful path, end to end: when the catalog loads and holds
    the SKU with an image reference that is a non-empty string, every
    context loads, the card composes, the model, called with that image and
    the prompt of the request, returns a first candidate that completed
    normally with a text that is not blank and parses to an object without
    an [error] key, and the object's [answer], [grounding] and [structured]
    fit the schema, then the handler returns a validated response, which
    the route sends with status 200; its latency is the rounded elapsed
    time, its token count 0 and its model the fixed one. *)
Theorem analyze_succeeds :
  forall (request : AnalyzeRequest) (elapsed : spec_float)
         (catalog : dict (dict atom)) (specs : dict atom) (uri : string)
         (contexts card : dict pyobj) (first : Candidate)
         (rest : list Candidate) (raw_text : string) (m : dict pyobj),
    load_spec_catalog = inr catalog ->
    dict_get (sku request) catalog = Some specs ->
    dict_get "image_gcs_uri" specs = Some (AStr uri) ->
    atom_truthy (AStr uri) = true ->
    load_contexts load_context_file (context_ids request) = inr contexts ->
    compose_context_card specs contexts = inr card ->
    generate_content model_name
      {| file_uri := uri; mime_type := "image/jpeg" |}
      (build_prompt (VDict card) (question_or_default request))
    = inr {| candidates := first :: rest; text := inr raw_text |} ->
    finish_reason first = STOP ->
    str_truthy (strip raw_text) = true ->
    json_loads (extract_json raw_text) = inr (VDict m) ->
    dict_mem "error" m = false ->
    body_ok m = true ->
    exists r,
      analyze request elapsed = inr (ReturnModel r)
      /\ post_analyze request elapsed
         = {| status_code := 200; payload := Json r |}
      /\ latency (diagnostics r) = round elapsed 2
      /\ tokens (diagnostics r) = 0%Z
      /\ model (diagnostics r) = model_name.
Proof.
  intros request elapsed catalog specs uri ctxs card first rest raw m
    Hcat Hsku Himg Htruthy Hctx Hcard Hgen Hstop Htext Hloads Herr Hbody.
  set (out := dict_set "diagnostics" (VDict [("model", VStr model_name)]) m).
  assert (Hu : diagnostics_usable out)
    by (right; eexists; apply dict_get_set_same).
  assert (Hq : query_gemini (AStr uri) (VDict card)
                 (question_or_default request)
               = inr (VDict out)).
  { unfold query_gemini. cbn [Part_from_uri bind ok]. rewrite Hgen.
    rewrite (parse_text {| candidates := first :: rest; text := inr raw |}
               first rest raw eq_refl Hstop eq_refl Htext).
    now rewrite Hloads. }
  assert (Hd : diagnostics_of out = [("model", VStr model_name)]).
  { unfold diagnostics_of, out. now rewrite dict_get_set_same. }
  assert (Hok : schema_ok
                  (dict_set "diagnostics"
                     (VDict (with_latency_and_tokens (diagnostics_of out)
                               (round elapsed 2))) out) = true).
  { rewrite schema_ok_body, body_ok_set_diagnostics. unfold out at 1.
    rewrite body_ok_set_diagnostics, Hbody. cbn [andb].
    unfold has_field. rewrite dict_get_set_same, Hd.
    unfold diagnostics_ok, mapping_with. rewrite validate_dict_dict.
    unfold has_field, is_float_value, is_str_value, is_int_value.
    cbn [with_latency_and_tokens dict_set dict_mem dict_get String.eqb
         Ascii.eqb Bool.eqb].
    simpl. now rewrite validate_float_float, validate_str_str,
             validate_int_int. }
  pose proof (settled_AnalyzeResponse
                (dict_set "diagnostics"
                   (VDict (with_latency_and_tokens (diagnostics_of out)
                             (round elapsed 2))) out)) as Hs.
  unfold settled in Hs. rewrite Hok in Hs. destruct Hs as [r Hr].
  assert (Hv : validate_response (VDict out) elapsed = inr r).
  { rewrite validate_response_usable by exact Hu. now rewrite Hr. }
  assert (Ha : analyze request elapsed = inr (ReturnModel r)).
  { rewrite (analyze_respond request elapsed catalog specs ctxs Hcat Hsku);
      rewrite ?Himg; try assumption.
    unfold respond. rewrite Hcard. cbn [bind]. rewrite Hq.
    cbn [bind py_in ok]. unfold out at 1.
    unfold dict_mem in *. rewrite dict_get_set_other by discriminate.
    destruct (dict_get "error" m); [discriminate|]. fold out.
    rewrite Hv. reflexivity. }
  exists r. split; [exact Ha|]. split.
  - unfold post_analyze. now rewrite Ha.
  - split; [exact (validated_latency out elapsed r Hu Hv)|].
    exact (validated_gateway_output m elapsed r Hv).
Qed.

(** X16. An answer with an [error] key is a failure: when the model, called
    with the image of the request, completes normally and its text parses
    to an object that has a key [error] of its own, the handler does not
    validate it; it raises the HTTP 500 exception of line 85, carrying the
    model's [error] value and its [details] value ([None] when it has
    none). *)
Theorem answer_with_error_key_is_rejected :
  forall (request : AnalyzeRequest) (specs : dict atom) (uri : string)
         (contexts card : dict pyobj) (elapsed : spec_float)
         (first : Candidate) (rest : list Candidate) (raw_text : string)
         (m : dict pyobj) (error : pyobj),
    compose_context_card specs contexts = inr card ->
    generate_content model_name
      {| file_uri := uri; mime_type := "image/jpeg" |}
      (build_prompt (VDict card) (question_or_default request))
    = inr {| candidates := first :: rest; text := inr raw_text |} ->
    finish_reason first = STOP ->
    str_truthy (strip raw_text) = true ->
    json_loads (extract_json raw_text) = inr (VDict m) ->
    dict_get "error" m = Some error ->
    respond request specs (AStr uri) contexts elapsed
    = inl (HTTPException 500
             (ModelQueryFailed error
                (match dict_get "details" m with
                 | Some details => details
                 | None => VNone
                 end))).
Proof.
  intros request specs uri ctxs card elapsed first rest raw m error
    Hcard Hgen Hstop Htext Hloads Herr.
  unfold respond. rewrite Hcard. cbn [bind]. unfold query_gemini.
  cbn [Part_from_uri bind ok]. rewrite Hgen.
  rewrite (parse_text {| candidates := first :: rest; text := inr raw |}
             first rest raw eq_refl Hstop eq_refl Htext).
  rewrite Hloads. cbn [py_setitem bind ok py_in py_get].
  unfold dict_mem. rewrite !dict_get_set_other by discriminate.
  rewrite Herr. cbn [bind ok].
  now destruct (dict_get "details" m).
Qed.

(** X17. Every failure the gateway reports reaches the caller as HTTP 500
    with the gateway's own two texts.  For the response the model gives to
    the image and prompt of the request: no candidates; a first candidate
    that did not complete normally, whose finish reason is then named in
    the details; a blank text; a text that [json.loads] rejects, whose
    parser error is then the details.  Each makes the handler raise the
    HTTP 500 exception of line 85 with exactly that error text and that
    details text. *)
Theorem gateway_failures_raise_500 :
  forall (request : AnalyzeRequest) (specs : dict atom) (uri : string)
         (contexts card : dict pyobj) (elapsed : spec_float)
         (response : GenerationResponse),
    compose_context_card specs contexts = inr card ->
    generate_content model_name
      {| file_uri := uri; mime_type := "image/jpeg" |}
      (build_prompt (VDict card) (question_or_default request))
    = inr response ->
    (candidates response = [] ->
     respond request specs (AStr uri) contexts elapsed
     = inl (HTTPException 500
              (ModelQueryFailed
                 (VStr "No candidates returned from model.")
                 (VStr "The model response was empty."))))
    /\ (forall first rest,
          candidates response = first :: rest ->
          finish_reason first <> STOP ->
          respond request specs (AStr uri) contexts elapsed
          = inl (HTTPException 500
                   (ModelQueryFailed
                      (VStr "Model generation stopped prematurely.")
                      (VStr ("Finish Reason: "
                             ++ FinishReason_name (finish_reason first)
                             ++ ". This might be due to safety settings or an issue with the input.")))))
    /\ (forall first rest raw,
          candidates response = first :: rest ->
          finish_reason first = STOP ->
          text response = inr raw ->
          str_truthy (strip raw) = false ->
          respond request specs (AStr uri) contexts elapsed
          = inl (HTTPException 500
                   (ModelQueryFailed
                      (VStr "Model returned an empty text response.")
                      (VStr "This could be due to safety filters or a malformed prompt."))))
    /\ (forall first rest raw cause,
          candidates response = first :: rest ->
          finish_reason first = STOP ->
          text response = inr raw ->
          str_truthy (strip raw) = true ->
          json_loads (extract_json raw) = inl cause ->
          respond request specs (AStr uri) contexts elapsed
          = inl (HTTPException 500
                   (ModelQueryFailed
                      (VStr "Failed to parse model response.")
                      (VStr cause)))).
Proof.
  intros request specs uri ctxs card elapsed response Hcard Hgen.
  assert (Hq : query_gemini (AStr uri) (VDict card)
                 (question_or_default request)
               = parse_response response).
  { unfold query_gemini. cbn [Part_from_uri bind ok]. now rewrite Hgen. }
  unfold respond. rewrite Hcard. cbn [bind]. rewrite Hq.
  split; [|split; [|split]].
  - intros Hc. now rewrite (parse_no_candidates response Hc).
  - intros first rest Hc Hstop.
    now rewrite (parse_premature_stop response first rest Hc Hstop).
  - intros first rest raw Hc Hstop Hraw Hblank.
    now rewrite (parse_empty_text response first rest raw Hc Hstop Hraw Hblank).
  - intros first rest raw cause Hc Hstop Hraw Htext Hcause.
    rewrite (parse_text response first rest raw Hc Hstop Hraw Htext), Hcause.
    reflexivity.
Qed.


End Outcomes.

(** ** Blank text and the fence search, in general *)

Section TextFacts.

Local Open Scope string_scope.

Lemma lstrip_all_space s : all_space s = true -> lstrip s = EmptyString.
Proof.
  induction s as [|c s IH]; [reflexivity|]. cbn [all_space lstrip].
  intros H. apply andb_true_iff in H as [Hc Hs]. rewrite Hc. now apply IH.
Qed.

Lemma lstrip_not_all_space s :
  all_space s = false ->
  exists c t, lstrip s = String c t /\ is_space c = false.
Proof.
  induction s as [|c s IH]; [discriminate|]. cbn [all_space lstrip].
  destruct (is_space c) eqn:Hc; cbn [andb]; [exact IH|].
  intros _. now exists c, s.
Qed.

Lemma rstrip_keeps_head c t :
  is_space c = false -> rstrip (String c t) <> EmptyString.
Proof.
  intros Hc. cbn [rstrip]. rewrite Hc. now destruct (rstrip t).
Qed.

Lemma strip_blank s : str_truthy (strip s) = negb (all_space s).
Proof.
  unfold strip. destruct (all_space s) eqn:E.
  - now rewrite lstrip_all_space.
  - destruct (lstrip_not_all_space s E) as (c & t & -> & Hc).
    pose proof (rstrip_keeps_head c t Hc) as Hne.
    destruct (rstrip (String c t)); [congruence | reflexivity].
Qed.

Lemma strip_prefix_inv p : forall s r, strip_prefix p s = Some r -> s = p ++ r.
Proof.
  induction p as [|a p IH]; intros s r H.
  - destruct s; inversion H; reflexivity.
  - destruct s as [|b s]; [discriminate|]. cbn [strip_prefix] in H.
    destruct (Ascii.eqb a b) eqn:E; [|discriminate].
    apply Ascii.eqb_eq in E. subst b. cbn [append]. f_equal. now apply IH.
Qed.

Lemma prefix_inv p : forall s, prefix p s = true -> exists r, s = p ++ r.
Proof.
  induction p as [|a p IH]; intros s H.
  - now exists s.
  - destruct s as [|b s]; [discriminate|]. cbn [prefix] in H.
    destruct (ascii_dec a b) as [->|]; [|discriminate].
    destruct (IH s H) as [r ->]. now exists r.
Qed.

Lemma prefix_app p r : prefix p (p ++ r) = true.
Proof.
  induction p as [|a p IH]; cbn [append prefix]; [now destruct r|].
  destruct (ascii_dec a a); [exact IH | congruence].
Qed.

Lemma greedy_until_inv close : forall s g,
  greedy_until close s = Some g -> exists post, s = g ++ close ++ post.
Proof.
  induction s as [|c s IH]; intros g H.
  - cbn [greedy_until] in H.
    destruct (prefix close EmptyString) eqn:P; [|discriminate].
    inversion H; subst. destruct (prefix_inv _ _ P) as [r Hr]. now exists r.
  - cbn [greedy_until] in H. destruct (greedy_until close s) as [g'|].
    + inversion H; subst. destruct (IH g' eq_refl) as [post ->].
      now exists post.
    + destruct (prefix close (String c s)) eqn:P; [|discriminate].
      inversion H; subst. destruct (prefix_inv _ _ P) as [r Hr]. now exists r.
Qed.

Lemma greedy_until_finds close g post :
  greedy_until close (g ++ close ++ post) <> None.
Proof.
  induction g as [|c g IH].
  - cbn [append]. destruct (close ++ post)%string as [|c s] eqn:E.
    + assert (Hc : close = EmptyString)
        by (destruct close; [reflexivity | discriminate E]).
      subst close. cbn. discriminate.
    + cbn [greedy_until]. destruct (greedy_until close s); [discriminate|].
      rewrite <- E, prefix_app. discriminate.
  - cbn [append greedy_until].
    destruct (greedy_until close (g ++ close ++ post)); [discriminate|].
    congruence.
Qed.

Lemma app_string_assoc (a b c : string) : ((a ++ b) ++ c = a ++ b ++ c)%string.
Proof. induction a as [|x a IH]; cbn [append]; [reflexivity | now rewrite IH]. Qed.

Lemma re_search_fence_inv s : forall g,
  re_search_fence s = Some g ->
  exists pre post, s = pre ++ fence_open ++ g ++ fence_close ++ post.
Proof.
  induction s as [|c s IH]; intros g H.
  - cbn [re_search_fence] in H.
    destruct (match_fence_here EmptyString) eqn:M; discriminate.
  - cbn [re_search_fence] in H.
    destruct (match_fence_here (String c s)) as [g'|] eqn:M.
    + inversion H; subst. unfold match_fence_here in M.
      destruct (strip_prefix fence_open (String c s)) as [rest|] eqn:P;
        [|discriminate].
      apply strip_prefix_inv in P. apply greedy_until_inv in M as [post ->].
      exists EmptyString, post. exact P.
    + destruct (IH g H) as (pre & post & ->).
      now exists (String c pre), post.
Qed.

Lemma re_search_fence_finds pre : forall g post,
  re_search_fence (pre ++ fence_open ++ g ++ fence_close ++ post) <> None.
Proof.
  induction pre as [|c pre IH]; intros g post.
  - cbn [append].
    assert (M : match_fence_here (fence_open ++ g ++ fence_close ++ post)
                <> None).
    { unfold match_fence_here. rewrite strip_prefix_app.
      apply greedy_until_finds. }
    destruct (match_fence_here (fence_open ++ g ++ fence_close ++ post))
      as [g'|] eqn:E; [|congruence].
    now rewrite (re_search_fence_here _ g' E).
  - cbn [append re_search_fence].
    destruct (match_fence_here _); [discriminate | apply IH].
Qed.

(** X19. When the fence search matches: it finds a group exactly when the
    text holds an opening json fence followed, anywhere later, by a closing
    fence; and the group it returns really stands between an opening and a
    closing fence of the text. *)
Theorem fence_search_characterised :
  forall (raw_text : string),
    (forall g,
       re_search_fence raw_text = Some g ->
       exists pre post,
         raw_text = pre ++ fence_open ++ g ++ fence_close ++ post)
    /\ (re_search_fence raw_text = None <->
        ~ exists pre g post,
            raw_text = pre ++ fence_open ++ g ++ fence_close ++ post).
Proof.
  intros raw. split; [apply re_search_fence_inv|]. split.
  - intros Hnone (pre & g & post & ->).
    now apply (re_search_fence_finds pre g post).
  - intros Hno. destruct (re_search_fence raw) as [g|] eqn:E; [|reflexivity].
    exfalso. apply Hno. destruct (re_search_fence_inv raw g E) as (pre & post & H).
    now exists pre, g, post.
Qed.

(** X20. Extraction takes, it does not make: the text handed to
    [json.loads] is always a contiguous part of the model's raw text. *)
Theorem extract_json_is_part_of_text :
  forall (raw_text : string),
    exists pre post, raw_text = pre ++ extract_json raw_text ++ post.
Proof.
  intros raw. unfold extract_json.
  destruct (re_search_fence raw) as [g|] eqn:E.
  - destruct (re_search_fence_inv raw g E) as (pre & post & H).
    exists (pre ++ fence_open), (fence_close ++ post).
    now rewrite app_string_assoc.
  - exists EmptyString, EmptyString. cbn [append].
    clear E. induction raw as [|c raw IH]; cbn [append]; [reflexivity|].
    now f_equal.
Qed.

Lemma greedy_until_none_iff close : forall s,
  greedy_until close s = None <-> is_substring close s = false.
Proof.
  induction s as [|c s IH]; cbn [greedy_until is_substring].
  - rewrite orb_false_r. now destruct (prefix close EmptyString).
  - destruct (greedy_until close s) as [g|].
    + assert (Hs : is_substring close s = true).
      { destruct (is_substring close s); [reflexivity|].
        destruct IH as [_ IH]. now specialize (IH eq_refl). }
      rewrite Hs, orb_true_r. split; discriminate.
    + destruct IH as [IH _]. rewrite (IH eq_refl), orb_false_r.
      now destruct (prefix close (String c s)).
Qed.

Lemma greedy_until_last J : forall post,
  is_substring fence_close post = false ->
  greedy_until fence_close (J ++ fence_close ++ post) = Some J.
Proof.
  intros post Hpost. apply greedy_until_none_iff in Hpost.
  induction J as [|c J IH].
  - change (EmptyString ++ fence_close ++ post)%string
      with (String "010"%char (String "`"%char (String "`"%char
              (String "`"%char post)))).
    cbn [greedy_until]. rewrite Hpost.
    change (prefix fence_close (String "`"%char post)) with false.
    change (prefix fence_close (String "`"%char (String "`"%char post)))
      with false.
    change (prefix fence_close
              (String "`"%char (String "`"%char (String "`"%char post))))
      with false.
    cbv iota.
    change (String "010"%char (String "`"%char (String "`"%char
              (String "`"%char post))))
      with (fence_close ++ post)%string.
    now rewrite prefix_app.
  - cbn [append greedy_until]. now rewrite IH.
Qed.

Lemma re_search_fence_skips pre : forall rest,
  no_backquote pre = true ->
  re_search_fence (pre ++ rest) = re_search_fence rest.
Proof.
  induction pre as [|c pre IH]; intros rest H; [reflexivity|].
  cbn [no_backquote] in H. apply andb_true_iff in H as [Hc Hpre].
  cbn [append re_search_fence].
  assert (M : match_fence_here (String c (pre ++ rest)) = None).
  { unfold match_fence_here, fence_open. cbn [append strip_prefix].
    rewrite Ascii.eqb_sym. apply negb_true_iff in Hc. now rewrite Hc. }
  rewrite M. now apply IH.
Qed.

(** X21. Prose around the fence, and greediness: when the text before the
    opening fence holds no backquote and the text after the closing fence
    holds no further closing fence, the extracted text is what stands
    between the two, even when that interior itself holds closing fences
    (the group runs to the last one). *)
Theorem extract_json_ignores_surrounding_text :
  forall (pre interior post : string),
    no_backquote pre = true ->
    is_substring fence_close post = false ->
    extract_json (pre ++ fence_open ++ interior ++ fence_close ++ post)
    = interior.
Proof.
  intros pre J post Hpre Hpost. unfold extract_json.
  rewrite re_search_fence_skips by exact Hpre.
  assert (M : match_fence_here (fence_open ++ J ++ fence_close ++ post)
              = Some J).
  { unfold match_fence_here. rewrite strip_prefix_app.
    now apply greedy_until_last. }
  now rewrite (re_search_fence_here _ J M).
Qed.

End TextFacts.

(** ** Blank answers *)

Section BlankAnswers.

Context {platform : Platform}.

(** X22. The empty-text failure, exactly: for an answer whose first
    candidate completed normally, the gateway returns the empty-text
    failure if and only if the text of the answer can be read and every
    character of it is white space (the empty text included); no other
    answer is reported that way. *)
Theorem empty_text_iff_whitespace :
  forall (response : GenerationResponse) (first : Candidate)
         (rest : list Candidate),
    candidates response = first :: rest ->
    finish_reason first = STOP ->
    parse_response response
    = inr (VDict
             [ ("error", VStr "Model returned an empty text response.");
               ("details",
                VStr "This could be due to safety filters or a malformed prompt.") ])
    <-> exists raw, text response = inr raw /\ all_space raw = true.
Proof.
  intros r first rest Hc Hstop. split.
  - intros H. destruct (text r) as [msg|raw] eqn:Eraw.
    { rewrite (parse_unreadable_text r first rest msg Hc Hstop Eraw) in H.
      discriminate. }
    exists raw. split; [reflexivity|].
    destruct (all_space raw) eqn:E; [reflexivity|]. exfalso.
    assert (Ht : str_truthy (strip raw) = true)
      by (now rewrite strip_blank, E).
    rewrite (parse_text r first rest raw Hc Hstop Eraw Ht) in H.
    destruct (json_loads (extract_json raw)) as [msg|[a|l|m]];
      try discriminate.
    cbn [py_setitem ok] in H. inversion H as [Hm].
    assert (Hd : dict_get "diagnostics"
                   (dict_set "diagnostics"
                      (VDict [("model", VStr model_name)]) m)
                 = None) by (now rewrite Hm).
    rewrite dict_get_set_same in Hd. discriminate.
  - intros (raw & Eraw & E).
    apply parse_empty_text with (first := first) (rest := rest) (raw := raw);
      try assumption.
    now rewrite strip_blank, E.
Qed.

End BlankAnswers.

(** ** The scoring of a sample *)

Section ScoringFacts.

Context {builtins : Builtins}.

(** X23. The verdict on a forbidden claim: when the expectation names a
    rule and the output has the layout of a response, the sample passes if
    and only if the output's [structured.compliance] holds that rule with
    [pass] being exactly the boolean false; a missing [structured],
    [compliance], rule or [pass], or any other [pass] value, is a fail, not
    an error.  The expectation's other keys play no part. *)
Theorem forbid_rule_verdict :
  forall (api_output expected : dict pyobj) (rule_id : string),
    dict_get "forbid_claim_rule" expected = Some (VStr rule_id) ->
    compliance_layout api_output rule_id = true ->
    evaluate_sample (VDict api_output) (VDict expected)
    = inr (if fails_rule api_output rule_id
           then verdict (VBool true)
                  ("Correctly failed compliance rule " ++ rule_id ++ ".")
           else verdict (VBool false)
                  ("Expected to fail compliance rule " ++ rule_id
                   ++ ", but it passed or was not found.")).
Proof.
  intros api e rule Hrule Hlay.
  unfold evaluate_sample, fails_rule, compliance_layout in *.
  cbn [py_in py_getitem lift then_ ok]. unfold dict_mem. rewrite Hrule.
  cbn [lift then_ ok py_get formatted].
  destruct (dict_get "structured" api) as [[a|l|st]|]; try discriminate;
    cbn [lift then_ ok py_get py_contains dict_mem dict_get].
  - destruct (dict_get "compliance" st) as [[a|l|c]|]; try discriminate;
      cbn [lift then_ ok py_contains dict_mem dict_get]; [|reflexivity].
    unfold dict_mem.
    destruct (dict_get rule c) as [[a|l|entry]|] eqn:Hentry; try discriminate;
      cbn [then_ py_subscript]; [|reflexivity].
    rewrite Hentry. cbn [then_ lift py_get ok].
    destruct (dict_get "pass" entry) as [[[| [|] | | |]|l|d]|]; reflexivity.
  - reflexivity.
Qed.

(** X24. A rule entry that is not a mapping stops the scoring: when the
    output's [structured.compliance] holds the named rule with a value that
    is not a mapping (a boolean, a string, a list), scoring the sample
    raises [AttributeError] instead of giving a verdict. *)
Theorem malformed_compliance_entry_raises :
  forall (api_output expected structured compliance : dict pyobj)
         (rule_id : string) (entry : pyobj),
    dict_get "forbid_claim_rule" expected = Some (VStr rule_id) ->
    dict_get "structured" api_output = Some (VDict structured) ->
    dict_get "compliance" structured = Some (VDict compliance) ->
    dict_get rule_id compliance = Some entry ->
    is_mapping entry = false ->
    evaluate_sample (VDict api_output) (VDict expected)
    = inl (Raised AttributeError).
Proof.
  intros api e st c rule entry Hrule Hst Hc Hentry Hnot.
  unfold evaluate_sample.
  cbn [py_in py_getitem lift then_ ok]. unfold dict_mem. rewrite Hrule.
  cbn [lift then_ ok py_get]. rewrite Hst. cbn [lift then_ ok py_get].
  rewrite Hc. cbn [lift then_ ok py_contains]. unfold dict_mem.
  rewrite Hentry. cbn [then_ py_subscript]. rewrite Hentry.
  destruct entry as [a|l|d]; [reflexivity | reflexivity | discriminate].
Qed.

(** X25. When a sample is skipped: for an output and an expectation that
    are mappings, a verdict is always one of pass, fail and none; it is
    none exactly when the expectation names no forbidden rule and its
    [allow_insufficient] is absent or false. *)
Theorem skipped_iff_no_criteria :
  forall (api_output expected : dict pyobj) (v : pyobj),
    evaluate_sample (VDict api_output) (VDict expected) = inr v ->
    exists pass reason,
      v = VDict [("pass", pass); ("reason", VStr reason)]
      /\ (pass = VBool true \/ pass = VBool false \/ pass = VNone)
      /\ (pass = VNone <->
          dict_get "forbid_claim_rule" expected = None
          /\ py_truthy (match dict_get "allow_insufficient" expected with
                        | Some allow => allow
                        | None => VBool false
                        end) = false).
Proof.
  intros api e v. unfold evaluate_sample.
  cbn [py_in py_getitem lift then_ ok]. unfold dict_mem.
  destruct (dict_get "forbid_claim_rule" e) as [rule|] eqn:Hrule;
    cbn [lift then_ ok].
  - destruct (lift (py_get (VDict api) "structured" (VDict []))) as [x|st];
      [discriminate|]. cbn [then_].
    destruct (lift (py_get st "compliance" (VDict []))) as [x|c];
      [discriminate|]. cbn [then_].
    destruct (then_ (py_contains rule c) _) as [x|[|]]; [discriminate| |];
      cbn [then_]; intros H; inversion H; subst; unfold verdict;
      eexists; eexists; (split; [reflexivity|]);
      (split; [tauto|]);
      (split; [discriminate | intros [? _]; discriminate]).
  - cbn [py_get lift then_ ok].
    destruct (dict_get "allow_insufficient" e) as [allow|];
      cbn [lift then_ ok].
    + destruct (py_truthy allow) eqn:Ht.
      * cbn [py_in lift then_ ok].
        destruct (dict_get "answer" api); intros H; inversion H; subst;
          unfold verdict; eexists; eexists; (split; [reflexivity|]);
          (split; [tauto|]);
          (split; [discriminate | intros [_ ?]; discriminate]).
      * intros H; inversion H; subst. unfold verdict.
        eexists; eexists; (split; [reflexivity|]). split; [tauto|].
        split; auto.
    + cbn [py_truthy atom_truthy]. intros H; inversion H; subst.
      unfold verdict. eexists; eexists; (split; [reflexivity|]).
      split; [tauto|]. split; auto.
Qed.

(** X26. An error payload never passes: an output that is a mapping
    without [structured] and without [answer], such as the dictionary
    [{error: ...}] the handler returns for a missing SKU, is never scored
    as a pass, whatever the expectation. *)
Theorem output_without_fields_never_passes :
  forall (api_output : dict pyobj) (expected v : pyobj),
    dict_get "structured" api_output = None ->
    dict_get "answer" api_output = None ->
    evaluate_sample (VDict api_output) expected = inr v ->
    forall reason,
      v <> VDict [("pass", VBool true); ("reason", VStr reason)].
Proof.
  intros api expected v Hst Hans.
  assert (Hgoal : evaluate_sample (VDict api) expected = inr v ->
                  forall reason, v <> verdict (VBool true) reason).
  { unfold evaluate_sample.
    destruct (lift (py_in "forbid_claim_rule" expected)) as [x|[|]];
      [discriminate| |]; cbn [then_].
    - destruct (lift (py_getitem expected "forbid_claim_rule")) as [x|rule];
        [discriminate|]. cbn [then_ py_get lift]. rewrite Hst.
      cbn [lift then_ ok py_get dict_get py_contains dict_mem].
      destruct rule as [[| | | |s]|l|d]; cbn [then_]; try discriminate;
        intros H; inversion H; subst; intros reason; discriminate.
    - destruct (lift (py_get expected "allow_insufficient" (VBool false)))
        as [x|allow]; [discriminate|]. cbn [then_].
      destruct (py_truthy allow).
      + cbn [py_in lift then_ ok]. unfold dict_mem. rewrite Hans.
        intros H; inversion H; subst. intros reason; discriminate.
      + intros H; inversion H; subst. intros reason; discriminate. }
  exact Hgoal.
Qed.

End ScoringFacts.

(** ** Repeated identifiers and the brand voice *)

(** X27. Brand voice for any list of identifiers: when the documents load
    and are well formed, the card's brand voice is that of the last
    defining document in the order of first occurrence of the identifiers;
    naming a document again later in the request does not make its brand
    voice win. *)
Theorem brand_voice_in_first_occurrence_order :
  forall (load : string -> result pyobj) (product_specs : dict atom)
         (context_ids : list string) (contexts : dict pyobj),
    load_contexts load context_ids = inr contexts ->
    forallb well_formed_document (map snd contexts) = true ->
    exists card,
      compose_context_card product_specs contexts = inr card
      /\ dict_keys contexts = first_occurrences [] context_ids
      /\ dict_get "brand_voice" card = last_brand_voice (map snd contexts).
Proof.
  intros load specs ids ctxs Hload Hwf.
  destruct (load_contexts_invariant load ids [] ctxs (NoDup_nil _) Hload)
    as (Hk & _).
  eexists. split; [now apply compose_context_card_returns|].
  split; [exact Hk|]. now rewrite card_voice, voice_after_last.
Qed.

(** ** The further theorems at concrete inputs *)

Module Checks.

Import Demo.

Lemma composed_card_shape_witness :
  exists card rules,
    compose_context_card [("color", AStr "black")] [("rules_v1", rules_v1)]
    = inr card
    /\ card = [ ("product_attributes", VDict [("color", VStr "black")]);
                ("rules", VList rules);
                ("brand_voice", VStr "plain") ]
    /\ Forall rule_shaped rules.
Proof.
  destruct (composed_card_shape [("color", AStr "black")]
              [("rules_v1", rules_v1)] _ eq_refl)
    as (rules & voice & Hcard & Hshape).
  eexists. exists rules. split; [reflexivity|].
  split; [|exact Hshape].
  injection Hcard as Hr _. now rewrite <- Hr.
Defined.

Lemma compose_context_card_app_witness :
  let first := [("a", VDict [("brand_voice", VStr "X")])] in
  let second := [("rules_v1", rules_v1)] in
  exists card1 card2 card,
    compose_context_card [] first = inr card1
    /\ compose_context_card [] second = inr card2
    /\ compose_context_card [] (first ++ second) = inr card
    /\ dict_get "brand_voice" card = Some (VStr "plain").
Proof.
  intros first second.
  destruct (compose_context_card_app [] first second _ _ eq_refl eq_refl)
    as (card & r1 & r2 & Hc & _ & _ & _ & Hv).
  eexists. eexists. exists card.
  split; [reflexivity|]. split; [reflexivity|]. split; [exact Hc|exact Hv].
Defined.

Lemma scalar_document_raises_witness :
  (forall s, ANone <> AStr s)
  /\ compose_context_card [] [("rules_v1", rules_v1)]
     = inr (card_of [] (all_rules [rules_v1]) (Some (VStr "plain")))
  /\ compose_context_card []
       ([("rules_v1", rules_v1)] ++ [("empty", VNone)])
     = inl TypeError.
Proof.
  assert (H : forall s, ANone <> AStr s) by discriminate.
  split; [exact H|]. split; [reflexivity|].
  exact (scalar_document_raises [] [("rules_v1", rules_v1)] [] "empty" ANone
           _ H eq_refl).
Defined.

Lemma malformed_rule_raises_witness :
  let d := [("rules", VList [VDict [("id", VStr "R-1")]; VStr "R-2"])] in
  dict_get "rules" d = Some (VList [VDict [("id", VStr "R-1")]; VStr "R-2"])
  /\ existsb (fun r => negb (is_mapping r))
       [VDict [("id", VStr "R-1")]; VStr "R-2"] = true
  /\ compose_context_card [] ([] ++ [("loose", VDict d)]) = inl AttributeError.
Proof.
  intros d. split; [reflexivity|]. split; [reflexivity|].
  exact (malformed_rule_raises [] [] [] "loose" d _ _ eq_refl eq_refl
           (eq_refl : compose_context_card [] [] = inr _)).
Defined.

Lemma array_document_is_skipped_witness :
  existsb (is_str "brand_voice") [VStr "note"] = false
  /\ existsb (is_str "rules") [VStr "note"] = false
  /\ compose_context_card []
       ([("rules_v1", rules_v1)] ++ [("notes", VList [VStr "note"])])
     = compose_context_card [] ([("rules_v1", rules_v1)] ++ []).
Proof.
  split; [reflexivity|]. split; [reflexivity|].
  exact (array_document_is_skipped [] [("rules_v1", rules_v1)] [] "notes"
           [VStr "note"] eq_refl eq_refl).
Defined.

Lemma load_contexts_first_occurrences_witness :
  let load := fun id => if String.eqb id "A" then ok (VStr "a") else ok (VStr "b") in
  exists contexts,
    load_contexts load ["B"; "A"; "B"] = inr contexts
    /\ dict_keys contexts = ["B"; "A"].
Proof.
  intros load. eexists. split; [reflexivity|].
  exact (proj1 (load_contexts_first_occurrences load ["B"; "A"; "B"] _
                  eq_refl)).
Defined.

Lemma load_contexts_fails_fast_witness :
  let load := fun id =>
    if String.eqb id "A" then ok (VStr "a")
    else raise (FileNotFoundError id) in
  (forall i, In i ["A"] -> exists doc, load i = inr doc)
  /\ load "B" = inl (FileNotFoundError "B")
  /\ load_contexts load (["A"] ++ "B" :: ["C"]) = inl (FileNotFoundError "B").
Proof.
  intros load.
  assert (H : forall i, In i ["A"] -> exists doc, load i = inr doc).
  { intros i [<-|[]]. now exists (VStr "a"). }
  split; [exact H|]. split; [reflexivity|].
  exact (load_contexts_fails_fast load ["A"] ["C"] "B" _ H eq_refl).
Defined.

Lemma compose_context_card_raises_witness :
  compose_context_card [] [("n", VInt 3)] = inl TypeError
  /\ (TypeError = TypeError \/ TypeError = AttributeError).
Proof.
  split; [reflexivity|].
  exact (compose_context_card_raises [] [("n", VInt 3)] TypeError eq_refl).
Defined.

Lemma catalog_failure_escapes_witness :
  @download_as_string Cases.offline_platform
    (@PROJECT_ID Cases.offline_platform)
    (@GCS_BUCKET_NAME Cases.offline_platform) "spec_catalog.csv"
  = inl "503 Service Unavailable"
  /\ @analyze Cases.offline_platform strict (request "SKU1" None []) elapsed
     = inl (FileNotFoundError
              "Specification file not found at gs://alara-case-study-bucket/spec_catalog.csv. Error: 503 Service Unavailable").
Proof.
  split; [reflexivity|].
  exact (@catalog_failure_escapes Cases.offline_platform strict
           (request "SKU1" None []) elapsed "503 Service Unavailable"
           (or_introl eq_refl)).
Defined.

Lemma unreadable_context_is_reported_witness :
  @analyze platform strict (request "SKU1" None ["rules_v1"; "rules_v2"])
    elapsed
  = inr (ReturnDict
           (VDict [("error",
                    VStr "Could not load context 'rules_v2' from GCS. Error: 404 No such object: alara-case-study-bucket/context/rules_v2.json")])).
Proof.
  assert (Hpre : forall i, In i ["rules_v1"] ->
                   exists doc, @load_context_file platform i = inr doc).
  { intros i [<-|[]]. eexists. reflexivity. }
  exact (@unreadable_context_is_reported platform strict
           (request "SKU1" None ["rules_v1"; "rules_v2"]) elapsed catalog
           _ ["rules_v1"] [] "rules_v2"
           "404 No such object: alara-case-study-bucket/context/rules_v2.json"
           eq_refl eq_refl eq_refl eq_refl Hpre (or_introl eq_refl)).
Defined.

(** An unknown SKU, a SKU without image, a context that does not exist, a
    model that returns no candidate, a model that cannot be reached, and a
    model whose answer lacks [structured]. *)
Lemma failing_request_is_answered_500_witness :
  @post_analyze platform strict (request "SKU0" None []) elapsed
  = {| status_code := 500; payload := InternalServerError |}
  /\ @post_analyze platform strict (request "SKU2" None []) elapsed
     = {| status_code := 500; payload := InternalServerError |}
  /\ @post_analyze platform strict (request "SKU1" None ["rules_v2"]) elapsed
     = {| status_code := 500; payload := InternalServerError |}
  /\ @post_analyze (platform_with Cases.silent_model) strict
       (request "SKU1" None []) elapsed
     = {| status_code := 500;
          payload :=
            Detail (ModelQueryFailed
                      (VStr "No candidates returned from model.")
                      (VStr "The model response was empty.")) |}
  /\ @post_analyze (platform_with Cases.unreachable_model) strict
       (request "SKU1" None []) elapsed
     = {| status_code := 500; payload := InternalServerError |}
  /\ (exists r,
        @analyze platform strict (request "SKU1" None ["rules_v1"]) elapsed
        = inr (ReturnModel r)
        /\ @post_analyze platform strict (request "SKU1" None ["rules_v1"])
             elapsed
           = {| status_code := 200; payload := Json r |}).
Proof.
  split; [|split; [|split; [|split; [|split]]]].
  - exact (proj1 (proj2 (@failing_request_is_answered_500 platform strict
                           (request "SKU0" None []) elapsed)
                    catalog eq_refl)
             eq_refl).
  - exact (proj1 (proj2 (proj2 (@failing_request_is_answered_500 platform
                                  strict (request "SKU2" None []) elapsed)
                           catalog eq_refl)
                    [("color", AStr "red")] eq_refl)
             eq_refl).
  - exact (proj1 (proj2 (proj2 (proj2 (@failing_request_is_answered_500
                                         platform strict
                                         (request "SKU1" None ["rules_v2"])
                                         elapsed)
                                  catalog eq_refl)
                           _ eq_refl)
                    eq_refl)
             _ eq_refl).
  - exact (proj1 (proj2 (proj2 (proj2 (proj2 (proj2
             (@failing_request_is_answered_500
                (platform_with Cases.silent_model) strict
                (request "SKU1" None []) elapsed)
             catalog eq_refl) _ eq_refl) eq_refl) [] _ eq_refl eq_refl))
             _ eq_refl eq_refl).
  - exact (proj1 (proj2 (proj2 (proj2 (proj2
             (@failing_request_is_answered_500
                (platform_with Cases.unreachable_model) strict
                (request "SKU1" None []) elapsed)
             catalog eq_refl) _ eq_refl) eq_refl) [] _ eq_refl eq_refl)
             _ eq_refl).
  - destruct (proj1 (@failing_request_is_answered_500 platform strict
                       (request "SKU1" None ["rules_v1"]) elapsed))
      as [(r & Ha & Hp) | (Hnot & _)].
    + exists r. split; [exact Ha | exact Hp].
    + exfalso. eapply Hnot. vm_compute. reflexivity.
Defined.


Lemma nan_image_reference_passes_witness :
  dict_get "image_gcs_uri"
    [("image_gcs_uri", AFloat S754_nan); ("color", AStr "blue")]
  = Some (AFloat S754_nan)
  /\ (forall body,
        @analyze Cases.nan_platform strict (request "SKU9" None []) elapsed
        <> inr (ReturnDict body))
  /\ @analyze Cases.nan_platform strict (request "SKU9" None []) elapsed
     = inl TypeError
  /\ @post_analyze Cases.nan_platform strict (request "SKU9" None []) elapsed
     = {| status_code := 500; payload := InternalServerError |}.
Proof.
  split; [reflexivity|].
  destruct (@nan_image_reference_passes Cases.nan_platform strict
              (request "SKU9" None []) elapsed Cases.nan_catalog
              _ [] eq_refl eq_refl eq_refl eq_refl)
    as (_ & Hbody & Hcard & _ & Hpost).
  split; [exact Hbody|]. split; [|exact Hpost].
  exact (Hcard _ eq_refl).
Defined.

Lemma analyze_succeeds_witness :
  exists r,
    @analyze platform strict (request "SKU1" None ["rules_v1"]) elapsed
    = inr (ReturnModel r)
    /\ @post_analyze platform strict (request "SKU1" None ["rules_v1"]) elapsed
       = {| status_code := 200; payload := Json r |}
    /\ latency (diagnostics r) = elapsed
    /\ tokens (diagnostics r) = 0%Z
    /\ model (diagnostics r) = model_name.
Proof.
  assert (Hloads : @json_loads platform
                     (extract_json (fence_open ++ answer_text ++ fence_close))
                   = inr answer_value) by (vm_compute; reflexivity).
  assert (Htext : str_truthy (strip (fence_open ++ answer_text ++ fence_close))
                  = true) by (vm_compute; reflexivity).
  assert (Hbody : @body_ok strict
                    (match answer_value with VDict m => m | _ => [] end)
                  = true) by (vm_compute; reflexivity).
  exact (@analyze_succeeds platform strict
           (request "SKU1" None ["rules_v1"]) elapsed catalog _
           "gs://alara-case-study-bucket/sku1.jpg" _ _
           stop_candidate [] (fence_open ++ answer_text ++ fence_close)
           (match answer_value with VDict m => m | _ => [] end)
           eq_refl eq_refl eq_refl eq_refl eq_refl eq_refl eq_refl eq_refl
           Htext Hloads eq_refl Hbody).
Defined.

Lemma answer_with_error_key_is_rejected_witness :
  @json_loads Cases.refusal_platform (extract_json Cases.refusal_text)
  = inr (VDict Cases.refusal)
  /\ @respond Cases.refusal_platform strict (request "SKU1" None []) []
       (AStr "gs://alara-case-study-bucket/sku1.jpg") [] elapsed
     = inl (HTTPException 500
              (ModelQueryFailed (VStr "cannot comply") VNone)).
Proof.
  assert (Hloads : @json_loads Cases.refusal_platform
                     (extract_json Cases.refusal_text)
                   = inr (VDict Cases.refusal)) by (vm_compute; reflexivity).
  split; [exact Hloads|].
  exact (@answer_with_error_key_is_rejected Cases.refusal_platform strict
           (request "SKU1" None []) []
           "gs://alara-case-study-bucket/sku1.jpg" [] _ elapsed
           stop_candidate [] Cases.refusal_text Cases.refusal
           (VStr "cannot comply")
           eq_refl eq_refl eq_refl eq_refl Hloads eq_refl).
Defined.

(** No candidate; a candidate stopped by the safety filter; an answer in
    prose. *)
Lemma gateway_failures_raise_500_witness :
  @respond (platform_with Cases.silent_model) strict
    (request "SKU1" None []) [] (AStr "gs://b/x.jpg") [] elapsed
  = inl (HTTPException 500
           (ModelQueryFailed (VStr "No candidates returned from model.")
              (VStr "The model response was empty.")))
  /\ @respond (platform_with Cases.blocked_model) strict
       (request "SKU1" None []) [] (AStr "gs://b/x.jpg") [] elapsed
     = inl (HTTPException 500
              (ModelQueryFailed
                 (VStr "Model generation stopped prematurely.")
                 (VStr "Finish Reason: SAFETY. This might be due to safety settings or an issue with the input.")))
  /\ @respond (platform_with Cases.chatty_model) strict
       (request "SKU1" None []) [] (AStr "gs://b/x.jpg") [] elapsed
     = inl (HTTPException 500
              (ModelQueryFailed (VStr "Failed to parse model response.")
                 (VStr "Expecting value: line 1 column 1 (char 0)"))).
Proof.
  split; [|split].
  - exact (proj1 (@gateway_failures_raise_500
                    (platform_with Cases.silent_model) strict
                    (request "SKU1" None []) [] "gs://b/x.jpg" [] _ elapsed
                    _ eq_refl eq_refl)
             eq_refl).
  - refine (proj1 (proj2 (@gateway_failures_raise_500
                            (platform_with Cases.blocked_model) strict
                            (request "SKU1" None []) [] "gs://b/x.jpg" [] _
                            elapsed _ eq_refl eq_refl))
              _ [] eq_refl _).
    discriminate.
  - exact (proj2 (proj2 (proj2 (@gateway_failures_raise_500
                                  (platform_with Cases.chatty_model) strict
                                  (request "SKU1" None []) [] "gs://b/x.jpg"
                                  [] _ elapsed _ eq_refl eq_refl)))
             stop_candidate [] "The shoe is black."
             "Expecting value: line 1 column 1 (char 0)"
             eq_refl eq_refl eq_refl eq_refl eq_refl).
Defined.


Lemma extract_json_ignores_surrounding_text_witness :
  no_backquote "Here is the result: " = true
  /\ is_substring fence_close " Done." = false
  /\ extract_json ("Here is the result: " ++ fence_open ++ "{}" ++ fence_close
                   ++ " Done.")
     = "{}".
Proof.
  split; [reflexivity|]. split; [reflexivity|].
  exact (extract_json_ignores_surrounding_text "Here is the result: " "{}"
           " Done." eq_refl eq_refl).
Defined.

Lemma empty_text_iff_whitespace_witness :
  let r := {| candidates := [stop_candidate];
              text := inr (" " ++ nl)%string |} in
  candidates r = [stop_candidate]
  /\ finish_reason stop_candidate = STOP
  /\ text r = inr (" " ++ nl)%string
  /\ all_space (" " ++ nl) = true
  /\ @parse_response platform r
     = inr (VDict
              [ ("error", VStr "Model returned an empty text response.");
                ("details",
                 VStr "This could be due to safety filters or a malformed prompt.") ]).
Proof.
  intros r. split; [reflexivity|]. split; [reflexivity|].
  split; [reflexivity|]. split; [reflexivity|].
  exact (proj2 (@empty_text_iff_whitespace platform r stop_candidate []
                  eq_refl eq_refl)
           (ex_intro _ (" " ++ nl)%string (conj eq_refl eq_refl))).
Defined.

Lemma forbid_rule_verdict_witness :
  let expected := [("forbid_claim_rule", VStr "R-203");
                   ("allow_insufficient", VBool true)] in
  dict_get "forbid_claim_rule" expected = Some (VStr "R-203")
  /\ compliance_layout Cases.scored_output "R-203" = true
  /\ @evaluate_sample Cases.builtins (VDict Cases.scored_output)
       (VDict expected)
     = inr (VDict [("pass", VBool true);
                   ("reason", VStr "Correctly failed compliance rule R-203.")]).
Proof.
  intros expected. split; [reflexivity|]. split; [reflexivity|].
  exact (@forbid_rule_verdict Cases.builtins Cases.scored_output expected
           "R-203" eq_refl eq_refl).
Defined.

Lemma malformed_compliance_entry_raises_witness :
  dict_get "R-101"
    [("R-203", VDict [("pass", VBool false);
                      ("reason", VStr "no certification")]);
     ("R-101", VBool true)] = Some (VBool true)
  /\ is_mapping (VBool true) = false
  /\ @evaluate_sample Cases.builtins (VDict Cases.scored_output)
       (VDict [("forbid_claim_rule", VStr "R-101")])
     = inl (Raised AttributeError).
Proof.
  split; [reflexivity|]. split; [reflexivity|].
  exact (@malformed_compliance_entry_raises Cases.builtins
           Cases.scored_output [("forbid_claim_rule", VStr "R-101")] _ _
           "R-101" (VBool true) eq_refl eq_refl eq_refl eq_refl eq_refl).
Defined.

Lemma skipped_iff_no_criteria_witness :
  exists pass reason,
    @evaluate_sample Cases.builtins (VDict Cases.scored_output)
      (VDict [("allow_insufficient", VBool false)])
    = inr (VDict [("pass", pass); ("reason", VStr reason)])
    /\ pass = VNone.
Proof.
  destruct (@skipped_iff_no_criteria Cases.builtins Cases.scored_output
              [("allow_insufficient", VBool false)] _ eq_refl)
    as (pass & reason & Hv & _ & Hnone).
  exists pass, reason. split.
  - now rewrite <- Hv.
  - apply Hnone. split; reflexivity.
Defined.

Lemma output_without_fields_never_passes_witness :
  let payload := [("error", VStr "Image GCS URI not found for SKU: SKU2")] in
  dict_get "structured" payload = None
  /\ dict_get "answer" payload = None
  /\ @evaluate_sample Cases.builtins (VDict payload)
       (VDict [("allow_insufficient", VBool true)])
     = inr (verdict (VBool false) "API failed to return an answer.")
  /\ verdict (VBool false) "API failed to return an answer."
     <> VDict [("pass", VBool true); ("reason", VStr "anything")].
Proof.
  intros payload. split; [reflexivity|]. split; [reflexivity|].
  split; [reflexivity|].
  exact (@output_without_fields_never_passes Cases.builtins payload
           (VDict [("allow_insufficient", VBool true)]) _ eq_refl eq_refl
           eq_refl "anything").
Defined.

Lemma brand_voice_in_first_occurrence_order_witness :
  let doc_A := VDict [("brand_voice", VStr "Y")] in
  let doc_B := VDict [("brand_voice", VStr "X")] in
  let load := fun id => if String.eqb id "A" then ok doc_A else ok doc_B in
  exists contexts card,
    load_contexts load ["B"; "A"; "B"] = inr contexts
    /\ forallb well_formed_document (map snd contexts) = true
    /\ compose_context_card [] contexts = inr card
    /\ dict_keys contexts = ["B"; "A"]
    /\ dict_get "brand_voice" card = Some (VStr "Y").
Proof.
  intros doc_A doc_B load.
  destruct (brand_voice_in_first_occurrence_order load [] ["B"; "A"; "B"]
              _ eq_refl eq_refl) as (card & Hc & Hk & Hv).
  eexists. exists card.
  split; [reflexivity|]. split; [reflexivity|].
  split; [exact Hc|]. split; [exact Hk | exact Hv].
Defined.

End Checks.
